(** * Excel to 3D chart visualizer: a shallow embedding and its properties

    The development follows the four source files of the application:

    - [FileUpload.tsx]: the tabular loader ([processFile], [loadSampleData])
      and the two notices of the upload component;
    - [DataPreview.tsx]: the column classifier ([columns], [numericColumns],
      [stringColumns]) and the chart data builder ([generateChart]);
    - [Chart3D] (second half of [DataPreview.tsx]): bar heights and the
      orbit / zoom handlers of the camera;
    - [App.tsx] and [ChartControls]: the workflow controller and
      reconfiguration.

    On top of the components come what the preview stage shows
    ([DataPreviewView]), the page as a whole ([UI]: the workflow together
    with the state of the stage component on screen and the load in
    flight), the colours of the bars ([Palette]) and what the effect of
    [Chart3D] acquires and releases ([Scene]).

    The components are written in TypeScript on top of the ECMAScript
    built-ins, SheetJS and three.js.  Module [JS] below gives the fragment
    of ECMAScript the components call; numbers are IEEE 754 binary64 values
    (primitive floats), strings are sequences of code units below 256. *)

From Stdlib Require Import ZArith List Bool String Ascii Lia.
From Stdlib Require Import PrimFloat SpecFloat FloatOps FloatAxioms.
From Stdlib Require Import DecimalString DecimalN DecimalPos.
From Stdlib Require Import Permutation.
Import ListNotations.

Local Open Scope string_scope.
Local Open Scope list_scope.

(* ================================================================== *)
(** * The ECMAScript fragment used by the components *)
(* ================================================================== *)

Module JS.

(** A Number is a binary64 value. *)
Definition number : Set := float.

(** The values a spreadsheet cell can hold once SheetJS has read it:
    [undefined], [null] (error cells), booleans, numbers and strings. *)
Inductive value : Type :=
| Undefined
| Null
| Bool (b : bool)
| Num (x : number)
| Str (s : string).

(** [x === ''] for a value x. *)
Definition is_empty_string (v : value) : bool :=
  match v with
  | Str EmptyString => true
  | _ => false
  end.

(** [x === undefined || x === null]. *)
Definition is_nullish (v : value) : bool :=
  match v with
  | Undefined | Null => true
  | _ => false
  end.

(** ToBoolean: [NaN], [+0], [-0], [''], [null] and [undefined] are falsy. *)
Definition ToBoolean (v : value) : bool :=
  match v with
  | Undefined | Null => false
  | Bool b => b
  | Num x => negb (is_nan x || is_zero x)
  | Str s => negb (s =? "")
  end.

(** [a || b] on two numbers. *)
Definition or_number (a b : number) : number :=
  if ToBoolean (Num a) then a else b.

(** ** White space and trimming *)

(** WhiteSpace and LineTerminator code units below 256:
    TAB, LF, VT, FF, CR, SP and NBSP. *)
Definition isWhiteSpace (c : ascii) : bool :=
  let n := nat_of_ascii c in
  ((n =? 9) || (n =? 10) || (n =? 11) || (n =? 12) || (n =? 13)
   || (n =? 32) || (n =? 160))%nat.

Fixpoint trimStart (s : string) : string :=
  match s with
  | EmptyString => EmptyString
  | String c r => if isWhiteSpace c then trimStart r else s
  end.

Fixpoint trimEnd (s : string) : string :=
  match s with
  | EmptyString => EmptyString
  | String c r =>
      match trimEnd r with
      | EmptyString => if isWhiteSpace c then EmptyString else String c EmptyString
      | r' => String c r'
      end
  end.

(** [String.prototype.trim]. *)
Definition trim (s : string) : string := trimEnd (trimStart s).

(** ** From decimal text to a Number *)

(** The Number nearest to [(-1)^neg * m * 10^e], ties to even; this is
    the rounding ECMAScript prescribes for numeric literals.  The integer
    case rounds [m * 10^e] directly, the fractional case divides [m] by
    [10^(-e)] with a single rounding. *)
Definition decimal_to_number (neg : bool) (m e : Z) : number :=
  match m with
  | Zpos p =>
      if (0 <=? e)%Z then
        SF2Prim (binary_normalize prec emax
                   ((if neg then Zneg p else Zpos p) * 10 ^ e) 0 false)
      else
        SF2Prim (SFdiv prec emax (S754_finite neg p 0)
                   (S754_finite false (Z.to_pos (10 ^ (- e))) 0))
  | _ => if neg then neg_zero else zero
  end.

Definition digit_of (c : ascii) : option Z :=
  let n := Z.of_nat (nat_of_ascii c) in
  if ((48 <=? n) && (n <=? 57))%Z then Some (n - 48)%Z else None.

(** DecimalDigits: the longest run of digits at the head of [s], read on
    top of the accumulator [acc]; returns the value, the number of digits
    read and the rest of the text. *)
Fixpoint decimalDigits (acc count : Z) (s : string) : Z * Z * string :=
  match s with
  | EmptyString => (acc, count, s)
  | String c r =>
      match digit_of c with
      | Some d => decimalDigits (10 * acc + d) (count + 1) r
      | None => (acc, count, s)
      end
  end.

(** An optional sign: whether it is a minus, and the text after it. *)
Definition optionalSign (s : string) : bool * string :=
  match s with
  | String "-"%char r => (true, r)
  | String "+"%char r => (false, r)
  | _ => (false, s)
  end.

(** ExponentPart, when one is present: [e] or [E], an optional sign and
    at least one digit.  Otherwise nothing is consumed. *)
Definition exponentPart (s : string) : Z * string :=
  match s with
  | String c r =>
      if (Ascii.eqb c "e" || Ascii.eqb c "E")%char then
        let '(neg, r1) := optionalSign r in
        let '(n, k, r2) := decimalDigits 0 0 r1 in
        if (k =? 0)%Z then (0%Z, s) else ((if neg then - n else n)%Z, r2)
      else (0%Z, s)
  | EmptyString => (0%Z, s)
  end.

(** The longest prefix that is a StrUnsignedDecimalLiteral other than
    [Infinity]: mantissa, decimal exponent and the rest of the text. *)
Definition strUnsignedDecimalLiteral (s : string) : option (Z * Z * string) :=
  let '(i, ki, r1) := decimalDigits 0 0 s in
  let withoutPoint :=
    if (ki =? 0)%Z then None
    else let '(e, r3) := exponentPart r1 in Some (i, e, r3) in
  match r1 with
  | String c r1' =>
      if Ascii.eqb c "."%char then
        let '(m, kf, r2) := decimalDigits i 0 r1' in
        if ((ki =? 0) && (kf =? 0))%Z then None
        else let '(e, r3) := exponentPart r2 in Some (m, (e - kf)%Z, r3)
      else withoutPoint
  | EmptyString => withoutPoint
  end.

Fixpoint strip_prefix (p s : string) : option string :=
  match p, s with
  | EmptyString, _ => Some s
  | String a p', String b s' => if Ascii.eqb a b then strip_prefix p' s' else None
  | String _ _, EmptyString => None
  end.

(** The longest prefix of [s] that is a StrDecimalLiteral, as the Number
    it denotes, with the text that follows it. *)
Definition strDecimalLiteral (s : string) : option (number * string) :=
  let '(neg, r) := optionalSign s in
  match strip_prefix "Infinity" r with
  | Some r' => Some (if neg then neg_infinity else infinity, r')
  | None =>
      match strUnsignedDecimalLiteral r with
      | Some (m, e, r') => Some (decimal_to_number neg m e, r')
      | None => None
      end
  end.

(** [parseFloat] on a string: leading white space is dropped, the longest
    decimal prefix is read, anything after it is ignored. *)
Definition parseFloat_string (s : string) : number :=
  match strDecimalLiteral (trimStart s) with
  | Some (x, _) => x
  | None => nan
  end.

(** [parseFloat(v)] converts [v] to a string first.  A number prints as
    the shortest decimal that reads back as itself, so it is returned
    unchanged, except that [-0] prints as ["0"] and comes back as [+0]. *)
Definition parseFloat (v : value) : number :=
  match v with
  | Undefined => parseFloat_string "undefined"
  | Null => parseFloat_string "null"
  | Bool b => parseFloat_string (if b then "true" else "false")
  | Num x => if is_zero x then zero else x
  | Str s => parseFloat_string s
  end.

(** ** ToNumber *)

Definition radix_digit (radix : Z) (c : ascii) : option Z :=
  let n := Z.of_nat (nat_of_ascii c) in
  let d :=
    if ((48 <=? n) && (n <=? 57))%Z then (n - 48)%Z
    else if ((97 <=? n) && (n <=? 102))%Z then (n - 87)%Z
    else if ((65 <=? n) && (n <=? 70))%Z then (n - 55)%Z
    else radix in
  if (d <? radix)%Z then Some d else None.

Fixpoint radix_digits (radix acc : Z) (s : string) : option Z :=
  match s with
  | EmptyString => Some acc
  | String c r =>
      match radix_digit radix c with
      | Some d => radix_digits radix (radix * acc + d) r
      | None => None
      end
  end.

(** NonDecimalIntegerLiteral: [0x], [0o] or [0b] (either case) followed by
    at least one digit of that radix and nothing else.  [None] when the
    text does not start with such a prefix. *)
Definition nonDecimalIntegerLiteral (s : string) : option number :=
  match s with
  | String "0"%char (String c r) =>
      let radix :=
        if (Ascii.eqb c "x" || Ascii.eqb c "X")%char then Some 16%Z
        else if (Ascii.eqb c "o" || Ascii.eqb c "O")%char then Some 8%Z
        else if (Ascii.eqb c "b" || Ascii.eqb c "B")%char then Some 2%Z
        else None in
      match radix with
      | Some b =>
          match r with
          | EmptyString => Some nan
          | _ =>
              match radix_digits b 0 r with
              | Some n => Some (decimal_to_number false n 0)
              | None => Some nan
              end
          end
      | None => None
      end
  | _ => None
  end.

(** StringToNumber: the whole trimmed text must be a numeric literal; the
    empty text is [+0]. *)
Definition StringToNumber (s : string) : number :=
  match trim s with
  | EmptyString => zero
  | t =>
      match nonDecimalIntegerLiteral t with
      | Some x => x
      | None =>
          match strDecimalLiteral t with
          | Some (x, EmptyString) => x
          | _ => nan
          end
      end
  end.

Definition ToNumber (v : value) : number :=
  match v with
  | Undefined => nan
  | Null => zero
  | Bool b => if b then one else zero
  | Num x => x
  | Str s => StringToNumber s
  end.

(** The global [isNaN] and [isFinite] coerce their argument with
    ToNumber. *)
Definition isNaN (v : value) : bool := is_nan (ToNumber v).
Definition isFinite (v : value) : bool := is_finite (ToNumber v).

(** ** Number::toString and ToString *)

(** Ceiling of [a / b] for positive [b]. *)
Definition cdiv (a b : Z) : Z := (- ((- a) / b))%Z.

(** Numerator and denominator of [2^t / 10^q]. *)
Definition scale_2_10 (t q : Z) : Z * Z :=
  ((2 ^ Z.max t 0 * 10 ^ Z.max (- q) 0)%Z,
   (2 ^ Z.max (- t) 0 * 10 ^ Z.max q 0)%Z).

(** The decimals [s * 10^q] that read back as the Number [m * 2^e] are
    those between the midpoints to its two neighbours (midpoints included
    when [m] is even).  When there is one with exponent [q], the one
    nearest to [m * 2^e] is returned, the even one on a tie.  All
    quantities are scaled by [2^(e-2)]. *)
Definition digits_at (m : positive) (e q : Z) : option Z :=
  let even := Z.even (Zpos m) in
  let v := (4 * Zpos m)%Z in
  let hi := (v + 2)%Z in
  let lo := if ((Zpos m =? 2 ^ 52) && (-1074 <? e))%Z then (v - 1)%Z else (v - 2)%Z in
  let '(n, d) := scale_2_10 (e - 2) q in
  let smin := if even then cdiv (lo * n) d else ((lo * n) / d + 1)%Z in
  let smax := if even then ((hi * n) / d)%Z else (cdiv (hi * n) d - 1)%Z in
  if ((smin <=? smax) && (1 <=? smax))%Z then
    let s0 := ((v * n) / d)%Z in
    let r := ((v * n) mod d)%Z in
    let near :=
      if (2 * r <? d)%Z then s0
      else if (d <? 2 * r)%Z then (s0 + 1)%Z
      else if Z.even s0 then s0 else (s0 + 1)%Z in
    Some (Z.max smin (Z.min smax near))
  else None.

(** The largest exponent [q] that admits digits gives the fewest digits. *)
Fixpoint shortest_from (fuel : nat) (m : positive) (e q : Z) : Z * Z :=
  match fuel with
  | O => (Zpos m, e)
  | S fuel' =>
      match digits_at m e q with
      | Some s => (s, q)
      | None => shortest_from fuel' m e (q - 1)%Z
      end
  end.

Definition shortest_digits (m : positive) (e : Z) : Z * Z :=
  let bits := (Z.log2 (Zpos m) + 1 + e)%Z in
  shortest_from 48 m e (bits * 30103 / 100000 + 2)%Z.

Definition string_of_Z (z : Z) : string :=
  NilZero.string_of_uint (N.to_uint (Z.to_N z)).

Fixpoint zeros (n : nat) : string :=
  match n with
  | O => EmptyString
  | S n' => String "0"%char (zeros n')
  end.

Definition NumberToString_finite (m : positive) (e : Z) : string :=
  let '(s, q) := shortest_digits m e in
  let digits := string_of_Z s in
  let k := Z.of_nat (String.length digits) in
  let n := (q + k)%Z in
  if ((k <=? n) && (n <=? 21))%Z then
    (digits ++ zeros (Z.to_nat (n - k)))%string
  else if ((0 <? n) && (n <=? 21))%Z then
    (substring 0 (Z.to_nat n) digits ++ "."
       ++ substring (Z.to_nat n) (Z.to_nat (k - n)) digits)%string
  else if ((-6 <? n) && (n <=? 0))%Z then
    ("0." ++ zeros (Z.to_nat (- n)) ++ digits)%string
  else
    let ex := (n - 1)%Z in
    let exs :=
      ((if (ex <? 0)%Z then "-" else "+") ++ string_of_Z (Z.abs ex))%string in
    match digits with
    | EmptyString => EmptyString
    | String d EmptyString => String d ("e" ++ exs)%string
    | String d rest => String d ("." ++ rest ++ "e" ++ exs)%string
    end.

(** Number::toString in radix 10. *)
Definition NumberToString (x : number) : string :=
  match Prim2SF x with
  | S754_nan => "NaN"
  | S754_zero _ => "0"
  | S754_infinity s => if s then "-Infinity" else "Infinity"
  | S754_finite s m e =>
      ((if s then "-" else "") ++ NumberToString_finite m e)%string
  end.

(** [String(v)]. *)
Definition ToString (v : value) : string :=
  match v with
  | Undefined => "undefined"
  | Null => "null"
  | Bool b => if b then "true" else "false"
  | Num x => NumberToString x
  | Str s => s
  end.

(** ** Math.max and Math.min *)

Definition max2 (a b : number) : number :=
  if is_nan a || is_nan b then nan
  else if (a <? b)%float then b
  else if (b <? a)%float then a
  else if get_sign a then b else a.

(** [Math.max] applied to the arguments [xs]: [-Infinity] for no
    argument, [NaN] as soon as one argument is [NaN], and [+0] above [-0].
    (Whether a call with a spread array gets as far as [Math.max] is
    another matter, see [Chart3D.maxValueCall].) *)
Definition Math_max (xs : list number) : number :=
  fold_left max2 xs neg_infinity.

(** [Math.min(a, b)]: [NaN] as soon as one argument is [NaN], and [-0]
    below [+0]. *)
Definition min2 (a b : number) : number :=
  if is_nan a || is_nan b then nan
  else if (a <? b)%float then a
  else if (b <? a)%float then b
  else if get_sign a then a else b.

(** ** Objects used as records *)

(** An object made by [{}] or an object literal, given by its own
    properties in the order in which they were created. *)
Definition object : Type := list (string * value).

(** The names every such object inherits from [Object.prototype]. *)
Definition inheritedNames : list string :=
  ["constructor"; "hasOwnProperty"; "isPrototypeOf"; "propertyIsEnumerable";
   "toLocaleString"; "toString"; "valueOf"; "__proto__";
   "__defineGetter__"; "__defineSetter__"; "__lookupGetter__";
   "__lookupSetter__"].

(** [o[k]] for an own property [k], and [undefined] for a name that is
    neither own nor inherited.  (For an inherited name that is not own,
    [o[k]] is the member of [Object.prototype], which is none of the
    values of a cell; see [inheritedNames].) *)
Fixpoint get (o : object) (k : string) : value :=
  match o with
  | [] => Undefined
  | (k', v) :: o' => if k' =? k then v else get o' k
  end.

Fixpoint has (o : object) (k : string) : bool :=
  match o with
  | [] => false
  | (k', _) :: o' => (k' =? k) || has o' k
  end.

(** Writing an own property: an existing key keeps its place, a new one
    goes last. *)
Fixpoint setOwn (o : object) (k : string) (v : value) : object :=
  match o with
  | [] => [(k, v)]
  | (k', v') :: o' => if k' =? k then (k', v) :: o' else (k', v') :: setOwn o' k v
  end.

(** [o[k] = v] for a value that is not an object.  The assignment writes
    the own property [k], with one exception: when [k] is [__proto__] and
    the object has no own property of that name, the assignment goes to the
    setter inherited from [Object.prototype], which ignores a value that is
    neither an object nor [null], and no property is made.  (Assigning
    [null] there would take the prototype away; the components never do.) *)
Definition set (o : object) (k : string) (v : value) : object :=
  if (k =? "__proto__") && negb (has o k) then o else setOwn o k v.

(** An array index: the decimal form, without sign or leading zero, of
    an integer from 0 to 2^32 - 2. *)
Definition arrayIndex (k : string) : option Z :=
  let '(n, count, rest) := decimalDigits 0 0 k in
  if (0 <? count)%Z && (rest =? "") && (string_of_Z n =? k)
     && (n <=? 4294967294)%Z
  then Some n else None.

Fixpoint insertIndex (n : Z) (sorted : list Z) : list Z :=
  match sorted with
  | [] => [n]
  | m :: rest => if (n <=? m)%Z then n :: sorted else m :: insertIndex n rest
  end.

Definition sortIndices (ns : list Z) : list Z := fold_right insertIndex [] ns.

(** The order in which the own keys of an object are listed: the array
    indices in ascending order, then the other keys in the order in which
    they were created. *)
Definition ownKeysOrder (names : list string) : list string :=
  map string_of_Z
    (sortIndices
       (flat_map (fun k => match arrayIndex k with
                           | Some n => [n]
                           | None => []
                           end) names))
  ++ filter (fun k => match arrayIndex k with
                      | Some _ => false
                      | None => true
                      end) names.

(** [Object.keys(o)]. *)
Definition keys (o : object) : list string := ownKeysOrder (map fst o).

(** [xs.includes(k)] on an array of strings. *)
Definition includes (xs : list string) (k : string) : bool :=
  existsb (String.eqb k) xs.

End JS.

(* ================================================================== *)
(** * App.tsx: the workflow controller *)
(* ================================================================== *)

Module App.

Record ChartData : Type := mkChartData {
  labels : list string;
  values : list JS.number
}.

Record ChartConfig : Type := mkChartConfig {
  xColumn : string;
  yColumn : string;
  colorScheme : string;
  showGrid : bool;
  chartHeight : JS.number
}.

Inductive Step : Set := upload | preview | chart.

(** The four [useState] cells of [App]. *)
Record State : Type := mkState {
  rawData : list JS.object;
  chartData : option ChartData;
  chartConfig : ChartConfig;
  currentStep : Step
}.

Definition initialConfig : ChartConfig :=
  {| xColumn := ""; yColumn := ""; colorScheme := "blue";
     showGrid := true; chartHeight := 10%float |}.

Definition initial : State :=
  {| rawData := []; chartData := None; chartConfig := initialConfig;
     currentStep := upload |}.

Definition setRawData (data : list JS.object) (st : State) : State :=
  {| rawData := data; chartData := chartData st;
     chartConfig := chartConfig st; currentStep := currentStep st |}.

Definition setChartData (cd : option ChartData) (st : State) : State :=
  {| rawData := rawData st; chartData := cd;
     chartConfig := chartConfig st; currentStep := currentStep st |}.

Definition setChartConfig (cfg : ChartConfig) (st : State) : State :=
  {| rawData := rawData st; chartData := chartData st;
     chartConfig := cfg; currentStep := currentStep st |}.

Definition setCurrentStep (s : Step) (st : State) : State :=
  {| rawData := rawData st; chartData := chartData st;
     chartConfig := chartConfig st; currentStep := s |}.

Definition handleFileUpload (data : list JS.object) (st : State) : State :=
  setCurrentStep preview (setRawData data st).

Definition handleDataProcess (processedData : ChartData) (config : ChartConfig)
    (st : State) : State :=
  setCurrentStep chart (setChartConfig config (setChartData (Some processedData) st)).

Definition handleBackToUpload (st : State) : State :=
  setCurrentStep upload (setChartData None (setRawData [] st)).

Definition handleBackToPreview (st : State) : State :=
  setCurrentStep preview (setChartData None st).

(** Which stage component the render shows. *)
Inductive View : Set := FileUploadView | DataPreviewView | ChartView | NoView.

Definition render (st : State) : View :=
  match currentStep st with
  | upload => FileUploadView
  | preview => match rawData st with [] => NoView | _ :: _ => DataPreviewView end
  | chart => match chartData st with Some _ => ChartView | None => NoView end
  end.

End App.

(* ================================================================== *)
(** * ChartControls: reconfiguration *)
(* ================================================================== *)

Module ChartControls.

Import App.

(** [Partial<ChartConfig>]: every field may be left out. *)
Record PartialChartConfig : Type := mkPartial {
  p_xColumn : option string;
  p_yColumn : option string;
  p_colorScheme : option string;
  p_showGrid : option bool;
  p_chartHeight : option JS.number
}.

Definition no_updates : PartialChartConfig :=
  {| p_xColumn := None; p_yColumn := None; p_colorScheme := None;
     p_showGrid := None; p_chartHeight := None |}.

Definition or_else {A : Type} (o : option A) (d : A) : A :=
  match o with
  | Some a => a
  | None => d
  end.

(** [{ ...config, ...updates }]. *)
Definition spread (config : ChartConfig) (updates : PartialChartConfig) : ChartConfig :=
  {| xColumn := or_else (p_xColumn updates) (xColumn config);
     yColumn := or_else (p_yColumn updates) (yColumn config);
     colorScheme := or_else (p_colorScheme updates) (colorScheme config);
     showGrid := or_else (p_showGrid updates) (showGrid config);
     chartHeight := or_else (p_chartHeight updates) (chartHeight config) |}.

(** [updateConfig] hands the merged configuration to [onConfigChange]. *)
Definition updateConfig (config : ChartConfig)
    (onConfigChange : ChartConfig -> State -> State)
    (updates : PartialChartConfig) : State -> State :=
  onConfigChange (spread config updates).

(** The three controls: the colour select, the height slider (its value
    is an array whose first entry is used) and the grid switch. *)
Inductive Reconfiguration : Type :=
| ColorSchemeChange (value : string)
| ChartHeightChange (value0 : JS.number) (others : list JS.number)
| ShowGridChange (checked : bool).

Definition updates_of (ev : Reconfiguration) : PartialChartConfig :=
  match ev with
  | ColorSchemeChange value =>
      {| p_xColumn := None; p_yColumn := None; p_colorScheme := Some value;
         p_showGrid := None; p_chartHeight := None |}
  | ChartHeightChange value0 _ =>
      {| p_xColumn := None; p_yColumn := None; p_colorScheme := None;
         p_showGrid := None; p_chartHeight := Some value0 |}
  | ShowGridChange checked =>
      {| p_xColumn := None; p_yColumn := None; p_colorScheme := None;
         p_showGrid := Some checked; p_chartHeight := None |}
  end.

(** [App] renders [<ChartControls config={chartConfig}
    onConfigChange={setChartConfig} ... />]. *)
Definition reconfigure (ev : Reconfiguration) (st : State) : State :=
  updateConfig (chartConfig st) setChartConfig (updates_of ev) st.

End ChartControls.

(* ================================================================== *)
(** * FileUpload.tsx: the tabular loader and its notices *)
(* ================================================================== *)

Module FileUpload.

Import JS.

(** An array as SheetJS builds a row: a cell that is absent from the
    sheet is a hole ([None]), not an element.  [map], [forEach] and
    [some] skip holes; reading a hole yields [undefined]. *)
Definition array : Type := list (option value).

(** [row[colIndex]]. *)
Definition index (row : array) (colIndex : nat) : value :=
  match nth_error row colIndex with
  | Some (Some v) => v
  | _ => Undefined
  end.

(** A worksheet is represented by the array of arrays that
    [XLSX.utils.sheet_to_json(worksheet, { header: 1 })] returns for it. *)
Definition worksheet : Type := list array.

Record workbook : Type := mkWorkbook {
  SheetNames : list string;
  Sheets : list (string * worksheet)
}.

(** [workbook.Sheets[name]]. *)
Fixpoint sheet_named (sheets : list (string * worksheet)) (name : string)
    : option worksheet :=
  match sheets with
  | [] => None
  | (n, ws) :: rest => if n =? name then Some ws else sheet_named rest name
  end.

(** [workbook.SheetNames[0]], used as a property key: a missing name
    reads the property ["undefined"]. *)
Definition worksheetName (wb : workbook) : string :=
  match SheetNames wb with
  | name :: _ => name
  | [] => "undefined"
  end.

(** [sheet_to_json] of a missing sheet is the empty array. *)
Definition sheet_to_json (ws : option worksheet) : list array :=
  match ws with
  | Some rows => rows
  | None => []
  end.

(** What a [throw] carries: an [Error] with its message, or anything
    else. *)
Inductive thrown : Type :=
| ErrorObject (message : string)
| OtherThrown.

(** A dropped file, as [file.arrayBuffer()] and [XLSX.read] see it:
    either one of them throws, or a workbook comes out. *)
Inductive File : Type :=
| Unreadable (e : thrown)
| Readable (wb : workbook).

(** [firstRow.map((header, index) => ...)]. *)
Definition headerName (header : value) (index : nat) : string :=
  if is_nullish header || is_empty_string header
  then "Column_" ++ string_of_Z (Z.of_nat (index + 1))
  else trim (ToString header).

Fixpoint makeHeadersFrom (index : nat) (firstRow : array) : list (option string) :=
  match firstRow with
  | [] => []
  | None :: rest => None :: makeHeadersFrom (S index) rest
  | Some header :: rest =>
      Some (headerName header index) :: makeHeadersFrom (S index) rest
  end.

Definition makeHeaders (firstRow : array) : list (option string) :=
  makeHeadersFrom 0 firstRow.

(** [cell !== undefined && cell !== null && cell !== '']. *)
Definition hasContent (cell : value) : bool :=
  negb (is_nullish cell) && negb (is_empty_string cell).

(** The filter [row && row.some(...)]; a row is an array, hence truthy. *)
Definition rowHasContent (row : array) : bool :=
  existsb (fun cell => match cell with
                       | Some v => hasContent v
                       | None => false
                       end) row.

(** [cellValue !== undefined && cellValue !== null ? cellValue : '']. *)
Definition cellOrBlank (cellValue : value) : value :=
  if negb (is_nullish cellValue) then cellValue else Str "".

(** The [headers.forEach((header, colIndex) => ...)] loop, from column
    [colIndex] on, over the object built so far. *)
Fixpoint fillFrom (colIndex : nat) (headers : list (option string))
    (row : array) (obj : object) : object :=
  match headers with
  | [] => obj
  | None :: rest => fillFrom (S colIndex) rest row obj
  | Some header :: rest =>
      fillFrom (S colIndex) rest row
        (set obj header (cellOrBlank (index row colIndex)))
  end.

Definition makeRecord (headers : list (option string)) (row : array) : object :=
  fillFrom 0 headers row [].

(** [jsonData.slice(1)]. *)
Definition slice1 {A : Type} (xs : list A) : list A := tl xs.

(** From the header row and the rows after it to the row records: the
    [headers] and [data] of [processFile]. *)
Definition toRecords (firstRow : array) (rows : list array) : list object :=
  let headers := makeHeaders firstRow in
  map (makeRecord headers) (filter rowHasContent rows).

(** The body of the [try] block: the thrown value or the row records. *)
Definition load (file : File) : thrown + list object :=
  match file with
  | Unreadable e => inl e
  | Readable wb =>
      let worksheet := sheet_named (Sheets wb) (worksheetName wb) in
      let jsonData := sheet_to_json worksheet in
      match jsonData with
      | [] => inl (ErrorObject "The file appears to be empty")
      | firstRow :: _ =>
          let rows := slice1 jsonData in
          let data := toRecords firstRow rows in
          match data with
          | [] => inl (ErrorObject "No valid data rows found in the file")
          | _ :: _ => inr data
          end
      end
  end.

(** The three [useState] cells of the component. *)
Record State : Type := mkState {
  isProcessing : bool;
  error : option string;
  success : option string
}.

Definition initial : State :=
  {| isProcessing := false; error := None; success := None |}.

Definition setIsProcessing (b : bool) (st : State) : State :=
  {| isProcessing := b; error := error st; success := success st |}.

Definition setError (e : option string) (st : State) : State :=
  {| isProcessing := isProcessing st; error := e; success := success st |}.

Definition setSuccess (s : option string) (st : State) : State :=
  {| isProcessing := isProcessing st; error := error st; success := s |}.

(** [{error && (<Alert ...>)}]: a notice is rendered when its text is
    truthy. *)
Definition shown (notice : option string) : bool :=
  match notice with
  | Some text => ToBoolean (Str text)
  | None => false
  end.

(** [err instanceof Error ? err.message : 'Failed to process file']. *)
Definition messageOf (err : thrown) : string :=
  match err with
  | ErrorObject message => message
  | OtherThrown => "Failed to process file"
  end.

(** [processFile] up to its first [await]. *)
Definition processFile_begin (st : State) : State :=
  setSuccess None (setError None (setIsProcessing true st)).

(** [processFile] from the [try] block on.  The second component is the
    argument of the call [onFileUpload(data)], when the call is made. *)
Definition processFile_settle (file : File) (st : State)
    : State * option (list object) :=
  let '(st1, call) :=
    match load file with
    | inr data =>
        (setSuccess
           (Some ("Successfully loaded "
                    ++ string_of_Z (Z.of_nat (List.length data))
                    ++ " rows of data")%string) st,
         Some data)
    | inl err => (setError (Some (messageOf err)) st, None)
    end in
  (setIsProcessing false st1, call).

(** A whole run of [processFile] on the state of the component: the
    part before the first [await] followed by the part after it.  What
    may happen on the page between the two is the matter of [Session] and
    [UI]. *)
Definition processFile (file : File) (st : State) : State * option (list object) :=
  processFile_settle file (processFile_begin st).

Definition sampleRow (product : string) (q1 q2 q3 q4 : number) : object :=
  [("Product", Str product); ("Q1", Num q1); ("Q2", Num q2);
   ("Q3", Num q3); ("Q4", Num q4)].

Definition sampleData : list object :=
  [sampleRow "Laptops" 120 135 148 162;
   sampleRow "Smartphones" 200 220 195 240;
   sampleRow "Tablets" 80 75 90 85;
   sampleRow "Headphones" 150 165 180 175;
   sampleRow "Smartwatches" 60 70 85 95;
   sampleRow "Cameras" 45 50 55 48]%float.

Definition loadSampleData (st : State) : State * option (list object) :=
  (setSuccess (Some "Sample data loaded successfully") st, Some sampleData).

End FileUpload.

(* ================================================================== *)
(** * DataPreview.tsx: column classifier and chart data builder *)
(* ================================================================== *)

Module DataPreview.

Import JS.

Definition columns (data : list object) : list string :=
  match data with
  | [] => []
  | first :: _ => keys first
  end.

(** The test inside [data.some]:
    [!isNaN(parseFloat(value)) && isFinite(value)]. *)
Definition numericCell (row : object) (col : string) : bool :=
  let value := get row col in
  negb (isNaN (Num (parseFloat value))) && isFinite value.

Definition numericColumns (data : list object) : list string :=
  match data with
  | [] => []
  | _ :: _ => filter (fun col => existsb (fun row => numericCell row col) data)
                (columns data)
  end.

Definition stringColumns (data : list object) : list string :=
  match data with
  | [] => []
  | _ :: _ => filter (fun col => negb (includes (numericColumns data) col))
                (columns data)
  end.

(** The two selections of the component. *)
Record State : Type := mkState {
  selectedXColumn : string;
  selectedYColumn : string
}.

Definition canGenerateChart (st : State) : bool :=
  ToBoolean (Str (selectedXColumn st)) && ToBoolean (Str (selectedYColumn st)).

(** [generateChart]: the arguments of [onDataProcess], when it is called. *)
Definition generateChart (data : list object) (st : State)
    : option (App.ChartData * App.ChartConfig) :=
  if negb (canGenerateChart st) then None
  else
    let chartData :=
      {| App.labels := map (fun row => ToString (get row (selectedXColumn st))) data;
         App.values := map (fun row =>
                              or_number (parseFloat (get row (selectedYColumn st))) zero)
                         data |} in
    let config :=
      {| App.xColumn := selectedXColumn st;
         App.yColumn := selectedYColumn st;
         App.colorScheme := "blue";
         App.showGrid := true;
         App.chartHeight := 10%float |} in
    Some (chartData, config).

End DataPreview.

(* ================================================================== *)
(** * Chart3D: the bars of the scene *)
(* ================================================================== *)

Module Chart3D.

Import JS.

Definition colorSchemes : list (string * list string) :=
  [("blue", ["#3B82F6"; "#1D4ED8"; "#1E40AF"; "#1E3A8A"]);
   ("green", ["#10B981"; "#059669"; "#047857"; "#065F46"]);
   ("purple", ["#8B5CF6"; "#7C3AED"; "#6D28D9"; "#5B21B6"]);
   ("orange", ["#F59E0B"; "#D97706"; "#B45309"; "#92400E"]);
   ("red", ["#EF4444"; "#DC2626"; "#B91C1C"; "#991B1B"])].

Fixpoint scheme_named (schemes : list (string * list string)) (name : string)
    : option (list string) :=
  match schemes with
  | [] => None
  | (n, cs) :: rest => if n =? name then Some cs else scheme_named rest name
  end.

(** [colorSchemes[config.colorScheme] || colorSchemes.blue].  Under a
    name that [colorSchemes] inherits from [Object.prototype] the lookup
    finds the inherited function or object; it is truthy, so it is taken,
    and it has no colour at any index: the empty list stands for it. *)
Definition colorsOf (config : App.ChartConfig) : list string :=
  match scheme_named colorSchemes (App.colorScheme config) with
  | Some cs => cs
  | None =>
      if includes inheritedNames (App.colorScheme config) then []
      else ["#3B82F6"; "#1D4ED8"; "#1E40AF"; "#1E3A8A"]
  end.

(** The value of [Math.max(...data.values)], when the call returns. *)
Definition maxValue (data : App.ChartData) : number :=
  Math_max (App.values data).

(** The call [Math.max(...data.values)] itself.  The spread passes every
    value as an argument of its own, and an engine takes only so many
    arguments: beyond [argumentLimit], which depends on the engine and on
    the stack that is left, the call throws a [RangeError] ([None]) and
    the effect of [Chart3D] ends before a bar is made. *)
Definition maxValueCall (argumentLimit : nat) (data : App.ChartData)
    : option number :=
  if (List.length (App.values data) <=? argumentLimit)%nat
  then Some (maxValue data) else None.

(** [(value / maxValue) * config.chartHeight]. *)
Definition barHeight (data : App.ChartData) (config : App.ChartConfig)
    (value : number) : number :=
  ((value / maxValue data) * App.chartHeight config)%float.

(** One box per value, in order. *)
Definition barHeights (data : App.ChartData) (config : App.ChartConfig)
    : list number :=
  map (barHeight data config) (App.values data).

End Chart3D.

(* ================================================================== *)
(** * Chart3D: orbit and zoom of the camera *)
(* ================================================================== *)

(** The camera handlers compute in binary64, as the rest of the code
    does.  [Vector3] and [Spherical] follow the three.js classes of the
    same names, operation by operation.  Sums, products, quotients and
    [Math.sqrt] are the IEEE 754 operations.  ECMAScript leaves the values
    of [Math.sin], [Math.cos], [Math.acos] and [Math.atan2] to the
    implementation; they are taken as they come, in a [MathLib]. *)
Module Camera.

Import JS.
Local Open Scope float_scope.

Record MathLib : Type := mkMathLib {
  Math_sin : number -> number;
  Math_cos : number -> number;
  Math_acos : number -> number;
  Math_atan2 : number -> number -> number
}.

(** [Math.PI], [0.1] and [0.01], [1.1] and [0.9], as binary64 values. *)
Definition Math_PI : number := 0x1.921fb54442d18p+1%float.
Definition tenth : number := 0x1.999999999999ap-4%float.
Definition hundredth : number := 0x1.47ae147ae147bp-7%float.
Definition zoomOut : number := 0x1.199999999999ap+0%float.
Definition zoomIn : number := 0x1.ccccccccccccdp-1%float.

Record Vector3 : Type := mkVector3 { x : number; y : number; z : number }.

Record Spherical : Type := mkSpherical {
  radius : number;
  phi : number;
  theta : number
}.

(** [Vector3.length]. *)
Definition length (v : Vector3) : number :=
  sqrt (x v * x v + y v * y v + z v * z v).

(** [Vector3.multiplyScalar] and [Vector3.divideScalar]. *)
Definition multiplyScalar (v : Vector3) (s : number) : Vector3 :=
  {| x := x v * s; y := y v * s; z := z v * s |}.

Definition divideScalar (v : Vector3) (s : number) : Vector3 :=
  multiplyScalar v (1 / s).

(** [MathUtils.clamp(value, min, max)], that is
    [Math.max(min, Math.min(max, value))]. *)
Definition clamp (value min max : number) : number :=
  max2 min (min2 max value).

(** [Vector3.clampLength(min, max)]; [length || 1] guards the division. *)
Definition clampLength (v : Vector3) (min max : number) : Vector3 :=
  let len := length v in
  multiplyScalar (divideScalar v (or_number len 1)) (clamp len min max).

(** [Spherical.setFromVector3]. *)
Definition setFromVector3 (M : MathLib) (v : Vector3) : Spherical :=
  let r := length v in
  if (r =? 0)%float then {| radius := r; phi := 0; theta := 0 |}
  else {| radius := r;
          phi := Math_acos M (clamp (y v / r) (-1) 1);
          theta := Math_atan2 M (x v) (z v) |}.

(** [Vector3.setFromSpherical]. *)
Definition setFromSpherical (M : MathLib) (s : Spherical) : Vector3 :=
  let sinPhiRadius := (Math_sin M (phi s) * radius s)%float in
  {| x := sinPhiRadius * Math_sin M (theta s);
     y := Math_cos M (phi s) * radius s;
     z := sinPhiRadius * Math_cos M (theta s) |}.

(** The state the handlers close over: the camera position and the two
    variables of the mouse controls. *)
Record Controls : Type := mkControls {
  position : Vector3;
  isDragging : bool;
  previousMousePosition : number * number
}.

Definition home : Vector3 := {| x := 15; y := 15; z := 15 |}.

Definition initial : Controls :=
  {| position := home; isDragging := false; previousMousePosition := (0, 0) |}.

Definition onMouseDown (clientX clientY : number) (c : Controls) : Controls :=
  {| position := position c; isDragging := true;
     previousMousePosition := (clientX, clientY) |}.

Definition onMouseMove (M : MathLib) (clientX clientY : number) (c : Controls)
    : Controls :=
  if negb (isDragging c) then c
  else
    let deltaMove :=
      (clientX - fst (previousMousePosition c),
       clientY - snd (previousMousePosition c))%float in
    let spherical := setFromVector3 M (position c) in
    let theta1 := (theta spherical - fst deltaMove * hundredth)%float in
    let phi1 := (phi spherical + snd deltaMove * hundredth)%float in
    let phi2 := max2 tenth (min2 (Math_PI - tenth) phi1) in
    {| position :=
         setFromSpherical M
           {| radius := radius spherical; phi := phi2; theta := theta1 |};
       isDragging := isDragging c;
       previousMousePosition := (clientX, clientY) |}.

Definition onMouseUp (c : Controls) : Controls :=
  {| position := position c; isDragging := false;
     previousMousePosition := previousMousePosition c |}.

(** [event.deltaY > 0 ? 1.1 : 0.9]. *)
Definition wheelScale (deltaY : number) : number :=
  if (0 <? deltaY)%float then zoomOut else zoomIn.

Definition onWheel (deltaY : number) (c : Controls) : Controls :=
  {| position := clampLength (multiplyScalar (position c) (wheelScale deltaY)) 5 50;
     isDragging := isDragging c;
     previousMousePosition := previousMousePosition c |}.

(** The [Reset View] button. *)
Definition resetCamera (c : Controls) : Controls :=
  {| position := home; isDragging := isDragging c;
     previousMousePosition := previousMousePosition c |}.

Inductive Event : Type :=
| MouseDown (clientX clientY : number)
| MouseMove (clientX clientY : number)
| MouseUp
| Wheel (deltaY : number)
| ResetView.

Definition handle (M : MathLib) (c : Controls) (ev : Event) : Controls :=
  match ev with
  | MouseDown cx cy => onMouseDown cx cy c
  | MouseMove cx cy => onMouseMove M cx cy c
  | MouseUp => onMouseUp c
  | Wheel deltaY => onWheel deltaY c
  | ResetView => resetCamera c
  end.

Definition run (M : MathLib) (events : list Event) (c : Controls) : Controls :=
  fold_left (handle M) events c.









End Camera.

(* ================================================================== *)
(** * The upload stage inside the application *)
(* ================================================================== *)

(** [App] renders [<FileUpload onFileUpload={handleFileUpload} />] only
    while the step is upload.  A component that is not rendered has no
    state; when it is rendered again it starts from its initial state.
    [processFile] is asynchronous: it runs up to its first [await] when
    the file is dropped, and the rest runs when the promise of
    [file.arrayBuffer()] settles; in between, the page is rendered with
    the file in flight. *)
Module Session.

Record State : Type := mkState {
  app : App.State;
  fileUpload : option FileUpload.State;
  inFlight : option FileUpload.File
}.

Definition initial : State :=
  {| app := App.initial; fileUpload := Some FileUpload.initial;
     inFlight := None |}.

(** The call [onFileUpload(data)], when the component makes it. *)
Definition deliver (call : option (list JS.object)) (a : App.State) : App.State :=
  match call with
  | Some data => App.handleFileUpload data a
  | None => a
  end.

Definition rendered (a : App.State) (fu : FileUpload.State)
    : option FileUpload.State :=
  match App.render a with
  | App.FileUploadView => Some fu
  | _ => None
  end.

(** [onDrop]: the dropzone is disabled while a file is processed;
    otherwise [processFile] starts. *)
Definition onDrop (file : FileUpload.File) (s : State) : State :=
  match fileUpload s with
  | Some fu =>
      if FileUpload.isProcessing fu then s
      else
        {| app := app s;
           fileUpload := Some (FileUpload.processFile_begin fu);
           inFlight := Some file |}
  | None => s
  end.

(** The promise settles and [processFile] runs to its end.  (Setting the
    state of a component that is no longer rendered does nothing.) *)
Definition onSettle (s : State) : State :=
  match inFlight s with
  | Some file =>
      match fileUpload s with
      | Some fu =>
          let '(fu', call) := FileUpload.processFile_settle file fu in
          let a := deliver call (app s) in
          {| app := a; fileUpload := rendered a fu'; inFlight := None |}
      | None =>
          let call := snd (FileUpload.processFile_settle file FileUpload.initial) in
          {| app := deliver call (app s); fileUpload := None; inFlight := None |}
      end
  | None => s
  end.

(** The [Load Sample Data] button, disabled while a file is processed. *)
Definition onLoadSample (s : State) : State :=
  match fileUpload s with
  | Some fu =>
      if FileUpload.isProcessing fu then s
      else
        let '(fu', call) := FileUpload.loadSampleData fu in
        let a := deliver call (app s) in
        {| app := a; fileUpload := rendered a fu'; inFlight := inFlight s |}
  | None => s
  end.

(** The [Back to Upload] button of the preview stage. *)
Definition onBack (s : State) : State :=
  match App.render (app s) with
  | App.DataPreviewView =>
      let a := App.handleBackToUpload (app s) in
      {| app := a; fileUpload := rendered a FileUpload.initial;
         inFlight := inFlight s |}
  | _ => s
  end.

Inductive Event : Type :=
| Drop (file : FileUpload.File)
| Settle
| LoadSample
| Back.

Definition handle (s : State) (ev : Event) : State :=
  match ev with
  | Drop file => onDrop file s
  | Settle => onSettle s
  | LoadSample => onLoadSample s
  | Back => onBack s
  end.

Definition run (events : list Event) (s : State) : State :=
  fold_left handle events s.


End Session.

(* ================================================================== *)
(** * DataPreview.tsx: the selects and the preview table *)
(* ================================================================== *)

(** What [DataPreview] renders besides the buttons: the items of the two
    selects and the preview table. *)
Module DataPreviewView.

(** The items of the category select: the text columns, then the numeric
    ones. *)
Definition xAxisItems (data : list JS.object) : list string :=
  DataPreview.stringColumns data ++ DataPreview.numericColumns data.

(** The items of the value select. *)
Definition yAxisItems (data : list JS.object) : list string :=
  DataPreview.numericColumns data.

(** [data.slice(0, 10)]. *)
Definition previewRows (data : list JS.object) : list JS.object :=
  firstn 10 data.

(** The cells of the table body: [String(row[col])] for every column of
    every previewed row. *)
Definition tableBody (data : list JS.object) : list (list string) :=
  map (fun row => map (fun col => JS.ToString (JS.get row col))
                    (DataPreview.columns data))
    (previewRows data).

(** [data.length > 10]: the note under the table is rendered. *)
Definition showsTruncationNote (data : list JS.object) : bool :=
  (10 <? List.length data)%nat.

(** The marker [(num)] in a column head. *)
Definition markedNumeric (data : list JS.object) (col : string) : bool :=
  JS.includes (DataPreview.numericColumns data) col.

End DataPreviewView.

(* ================================================================== *)
(** * The page: the workflow and its stage components *)
(* ================================================================== *)

(** The whole page: the workflow controller and the state of whichever
    stage component is rendered.  A stage component that is not rendered
    has no state, and starts from its initial state when it is rendered
    again.  The events are those the rendered controls can raise, and the
    settling of a load that is in flight. *)
Module UI.

Record State : Type := mkState {
  app : App.State;
  fileUpload : option FileUpload.State;
  dataPreview : option DataPreview.State;
  inFlight : option FileUpload.File
}.

(** [useState('')] twice. *)
Definition freshPreview : DataPreview.State :=
  {| DataPreview.selectedXColumn := ""; DataPreview.selectedYColumn := "" |}.

Definition initial : State :=
  {| app := App.initial; fileUpload := Some FileUpload.initial;
     dataPreview := None; inFlight := None |}.

(** The page after a render with workflow state [a]: a component that
    stays rendered keeps its state, one that appears starts afresh, the
    others are gone. *)
Definition rendered (a : App.State) (fu : option FileUpload.State)
    (dp : option DataPreview.State) (flying : option FileUpload.File) : State :=
  {| app := a;
     fileUpload :=
       match App.render a with
       | App.FileUploadView =>
           Some (match fu with Some st => st | None => FileUpload.initial end)
       | _ => None
       end;
     dataPreview :=
       match App.render a with
       | App.DataPreviewView =>
           Some (match dp with Some st => st | None => freshPreview end)
       | _ => None
       end;
     inFlight := flying |}.

Inductive Event : Type :=
| Drop (file : FileUpload.File)
| Settle
| LoadSample
| SelectX (col : string)
| SelectY (col : string)
| Generate
| BackToUpload
| BackToPreview
| Reconfigure (ev : ChartControls.Reconfiguration).

(** What the upload component does with the outcome of a load: it sets
    its notices and, on success, calls [onFileUpload]. *)
Definition afterLoad (s : State)
    (outcome : FileUpload.State * option (list JS.object))
    (flying : option FileUpload.File) : State :=
  let '(fu', call) := outcome in
  rendered (Session.deliver call (app s)) (Some fu') (dataPreview s) flying.

Definition handle (s : State) (ev : Event) : State :=
  match ev with
  | Drop file =>
      match fileUpload s with
      | Some fu =>
          if FileUpload.isProcessing fu then s
          else
            {| app := app s;
               fileUpload := Some (FileUpload.processFile_begin fu);
               dataPreview := dataPreview s;
               inFlight := Some file |}
      | None => s
      end
  | Settle =>
      match inFlight s with
      | Some file =>
          match fileUpload s with
          | Some fu => afterLoad s (FileUpload.processFile_settle file fu) None
          | None =>
              rendered
                (Session.deliver
                   (snd (FileUpload.processFile_settle file FileUpload.initial))
                   (app s))
                None (dataPreview s) None
          end
      | None => s
      end
  | LoadSample =>
      match fileUpload s with
      | Some fu =>
          if FileUpload.isProcessing fu then s
          else afterLoad s (FileUpload.loadSampleData fu) (inFlight s)
      | None => s
      end
  | SelectX col =>
      match dataPreview s with
      | Some dp =>
          if JS.includes (DataPreviewView.xAxisItems (App.rawData (app s))) col
          then {| app := app s; fileUpload := fileUpload s;
                  dataPreview :=
                    Some {| DataPreview.selectedXColumn := col;
                            DataPreview.selectedYColumn :=
                              DataPreview.selectedYColumn dp |};
                  inFlight := inFlight s |}
          else s
      | None => s
      end
  | SelectY col =>
      match dataPreview s with
      | Some dp =>
          if JS.includes (DataPreviewView.yAxisItems (App.rawData (app s))) col
          then {| app := app s; fileUpload := fileUpload s;
                  dataPreview :=
                    Some {| DataPreview.selectedXColumn :=
                              DataPreview.selectedXColumn dp;
                            DataPreview.selectedYColumn := col |};
                  inFlight := inFlight s |}
          else s
      | None => s
      end
  | Generate =>
      match dataPreview s with
      | Some dp =>
          match DataPreview.generateChart (App.rawData (app s)) dp with
          | Some (chartData, config) =>
              rendered (App.handleDataProcess chartData config (app s))
                (fileUpload s) (Some dp) (inFlight s)
          | None => s
          end
      | None => s
      end
  | BackToUpload =>
      match dataPreview s with
      | Some _ => rendered (App.handleBackToUpload (app s)) None None (inFlight s)
      | None => s
      end
  | BackToPreview =>
      match App.render (app s) with
      | App.ChartView =>
          rendered (App.handleBackToPreview (app s)) None None (inFlight s)
      | _ => s
      end
  | Reconfigure ev =>
      match App.render (app s) with
      | App.ChartView =>
          rendered (ChartControls.reconfigure ev (app s)) None None (inFlight s)
      | _ => s
      end
  end.

Definition run (events : list Event) (s : State) : State :=
  fold_left handle events s.

(** The selection that a configuration records. *)
Definition selectionOf (config : App.ChartConfig) : DataPreview.State :=
  {| DataPreview.selectedXColumn := App.xColumn config;
     DataPreview.selectedYColumn := App.yColumn config |}.

(** What holds of the page in each step. *)
Definition consistent (s : State) : Prop :=
  match App.currentStep (app s) with
  | App.upload =>
      App.rawData (app s) = [] /\ App.chartData (app s) = None /\
      dataPreview s = None /\
      exists fu,
        fileUpload s = Some fu /\
        (FileUpload.isProcessing fu = true <-> inFlight s <> None)
  | App.preview =>
      App.rawData (app s) <> [] /\ App.chartData (app s) = None /\
      fileUpload s = None /\ inFlight s = None /\
      exists dp,
        dataPreview s = Some dp /\
        (DataPreview.selectedXColumn dp = "" \/
         In (DataPreview.selectedXColumn dp)
            (DataPreview.columns (App.rawData (app s)))) /\
        (DataPreview.selectedYColumn dp = "" \/
         In (DataPreview.selectedYColumn dp)
            (DataPreview.numericColumns (App.rawData (app s))))
  | App.chart =>
      App.rawData (app s) <> [] /\ fileUpload s = None /\ dataPreview s = None /\
      inFlight s = None /\
      In (App.xColumn (App.chartConfig (app s)))
         (DataPreview.columns (App.rawData (app s))) /\
      In (App.yColumn (App.chartConfig (app s)))
         (DataPreview.numericColumns (App.rawData (app s))) /\
      exists chartData config0,
        App.chartData (app s) = Some chartData /\
        DataPreview.generateChart (App.rawData (app s))
          (selectionOf (App.chartConfig (app s)))
        = Some (chartData, config0)
  end.

End UI.

(* ================================================================== *)
(** * ChartControls and Chart3D: the colour schemes *)
(* ================================================================== *)

(** The colour schemes the controls offer, and the colour of each bar. *)
Module Palette.

(** An entry of the [colorSchemes] array of [ChartControls]. *)
Record Scheme : Type := mkScheme {
  value : string;
  label : string;
  colors : list string
}.

Definition colorSchemes : list Scheme :=
  [{| value := "blue"; label := "Blue";
      colors := ["#3B82F6"; "#1D4ED8"; "#1E40AF"; "#1E3A8A"] |};
   {| value := "green"; label := "Green";
      colors := ["#10B981"; "#059669"; "#047857"; "#065F46"] |};
   {| value := "purple"; label := "Purple";
      colors := ["#8B5CF6"; "#7C3AED"; "#6D28D9"; "#5B21B6"] |};
   {| value := "orange"; label := "Orange";
      colors := ["#F59E0B"; "#D97706"; "#B45309"; "#92400E"] |};
   {| value := "red"; label := "Red";
      colors := ["#EF4444"; "#DC2626"; "#B91C1C"; "#991B1B"] |}].

(** [index % colors.length] in [Chart3D]. *)
Definition colorIndex (colors : list string) (index : nat) : nat :=
  index mod List.length colors.

(** [colors[colorIndex]], the colour of the bar at [index]; [None] stands
    for [undefined]. *)
Definition barColor (config : App.ChartConfig) (index : nat) : option string :=
  let colors := Chart3D.colorsOf config in
  nth_error colors (colorIndex colors index).

End Palette.

(* ================================================================== *)
(** * Chart3D: what the effect acquires and releases *)
(* ================================================================== *)

(** The effect of [Chart3D] and its cleanup, as far as they acquire and
    release things of the browser: the canvas under the mount element, the
    four listeners on the canvas, the resize listener on the window, the
    renderer and the animation-frame callbacks.  Every run of the effect
    makes a renderer of its own; renderers, canvases and the closures of a
    run are named by the number of the run.  The mount element is there
    whenever the effect runs, since the component renders it in every
    case; what three.js draws is left out. *)
Module Scene.

Record Browser : Type := mkBrowser {
  children : list nat;
  canvasListeners : list (nat * string);
  windowListeners : list nat;
  disposed : list nat;
  frameRequests : list nat;
  renders : list nat
}.

Definition emptyBrowser : Browser :=
  {| children := []; canvasListeners := []; windowListeners := [];
     disposed := []; frameRequests := []; renders := [] |}.

(** [mountElement.appendChild(renderer.domElement)] and [removeChild]. *)
Definition appendChild (run : nat) (b : Browser) : Browser :=
  {| children := children b ++ [run]; canvasListeners := canvasListeners b;
     windowListeners := windowListeners b; disposed := disposed b;
     frameRequests := frameRequests b; renders := renders b |}.

Definition removeChild (run : nat) (b : Browser) : Browser :=
  {| children := filter (fun c => negb (c =? run)%nat) (children b);
     canvasListeners := canvasListeners b;
     windowListeners := windowListeners b; disposed := disposed b;
     frameRequests := frameRequests b; renders := renders b |}.

(** [renderer.domElement.addEventListener(type, ...)] and
    [removeEventListener]. *)
Definition addCanvasListener (run : nat) (type : string) (b : Browser) : Browser :=
  {| children := children b;
     canvasListeners := canvasListeners b ++ [(run, type)];
     windowListeners := windowListeners b; disposed := disposed b;
     frameRequests := frameRequests b; renders := renders b |}.

Definition removeCanvasListener (run : nat) (type : string) (b : Browser) : Browser :=
  {| children := children b;
     canvasListeners :=
       filter (fun l => negb ((fst l =? run)%nat && (snd l =? type)%string))
         (canvasListeners b);
     windowListeners := windowListeners b; disposed := disposed b;
     frameRequests := frameRequests b; renders := renders b |}.

(** [window.addEventListener('resize', handleResize)] and its removal. *)
Definition addResizeListener (run : nat) (b : Browser) : Browser :=
  {| children := children b; canvasListeners := canvasListeners b;
     windowListeners := windowListeners b ++ [run]; disposed := disposed b;
     frameRequests := frameRequests b; renders := renders b |}.

Definition removeResizeListener (run : nat) (b : Browser) : Browser :=
  {| children := children b; canvasListeners := canvasListeners b;
     windowListeners := filter (fun w => negb (w =? run)%nat) (windowListeners b);
     disposed := disposed b;
     frameRequests := frameRequests b; renders := renders b |}.

(** [renderer.dispose()]. *)
Definition dispose (run : nat) (b : Browser) : Browser :=
  {| children := children b; canvasListeners := canvasListeners b;
     windowListeners := windowListeners b; disposed := disposed b ++ [run];
     frameRequests := frameRequests b; renders := renders b |}.

(** [animate]: ask for the next frame, then draw. *)
Definition animate (run : nat) (b : Browser) : Browser :=
  {| children := children b; canvasListeners := canvasListeners b;
     windowListeners := windowListeners b; disposed := disposed b;
     frameRequests := frameRequests b ++ [run];
     renders := renders b ++ [run] |}.

(** The body of the effect, for the run numbered [run]. *)
Definition effect (run : nat) (b : Browser) : Browser :=
  let b := appendChild run b in
  let b := addCanvasListener run "mousedown" b in
  let b := addCanvasListener run "mousemove" b in
  let b := addCanvasListener run "mouseup" b in
  let b := addCanvasListener run "wheel" b in
  let b := animate run b in
  addResizeListener run b.

(** The function the effect returns. *)
Definition cleanup (run : nat) (b : Browser) : Browser :=
  let b := removeResizeListener run b in
  let b := removeCanvasListener run "mousedown" b in
  let b := removeCanvasListener run "mousemove" b in
  let b := removeCanvasListener run "mouseup" b in
  let b := removeCanvasListener run "wheel" b in
  let b := removeChild run b in
  dispose run b.

(** An animation frame of the browser: the callbacks requested so far
    are taken off the list and called in order. *)
Definition frame (b : Browser) : Browser :=
  fold_left (fun acc run => animate run acc) (frameRequests b)
    {| children := children b; canvasListeners := canvasListeners b;
       windowListeners := windowListeners b; disposed := disposed b;
       frameRequests := []; renders := renders b |}.

(** The component: the run whose cleanup is pending, the number of runs
    so far, and the browser. *)
Record State : Type := mkState {
  scene : option nat;
  created : nat;
  browser : Browser
}.

Definition initial : State :=
  {| scene := None; created := 0; browser := emptyBrowser |}.

(** What React does with an effect that depends on [data] and [config]:
    it runs it after the component is mounted, runs the cleanup and the
    effect again when one of the two changes, and runs the cleanup when
    the component is unmounted. *)
Inductive Lifecycle : Set := Mount | Update | Unmount | Frame.

Definition handle (s : State) (ev : Lifecycle) : State :=
  match ev, scene s with
  | Mount, None =>
      {| scene := Some (created s); created := S (created s);
         browser := effect (created s) (browser s) |}
  | Update, Some run =>
      {| scene := Some (created s); created := S (created s);
         browser := effect (created s) (cleanup run (browser s)) |}
  | Unmount, Some run =>
      {| scene := None; created := created s;
         browser := cleanup run (browser s) |}
  | Frame, _ =>
      {| scene := scene s; created := created s; browser := frame (browser s) |}
  | _, _ => s
  end.

Definition run (events : list Lifecycle) (s : State) : State :=
  fold_left handle events s.



End Scene.

(* ================================================================== *)
(** * Notions used in the statements, and concrete inputs *)
(* ================================================================== *)

(** A cell without content: absent from the sheet, [undefined], [null]
    or the empty string. *)
Definition emptyCell (cell : option JS.value) : Prop :=
  cell = None \/ cell = Some JS.Undefined \/ cell = Some JS.Null \/
  cell = Some (JS.Str "").

Definition isEmptyCell (cell : option JS.value) : bool :=
  match cell with
  | None | Some JS.Undefined | Some JS.Null | Some (JS.Str EmptyString) => true
  | Some _ => false
  end.

(** A row none of whose cells has content. *)
Definition blankRow (row : FileUpload.array) : bool :=
  forallb isEmptyCell row.

(** What a record is to hold for the cell at [colIndex] of a row: the
    cell, or the empty string when the row has no such cell or the cell is
    [undefined] or [null]. *)
Definition cellOf (row : FileUpload.array) (colIndex : nat) : JS.value :=
  match nth_error row colIndex with
  | Some (Some JS.Undefined) | Some (Some JS.Null) | Some None | None => JS.Str ""
  | Some (Some v) => v
  end.

(** The rows of the sheet that [processFile] reads. *)
Definition rowsRead (wb : FileUpload.workbook) : list FileUpload.array :=
  FileUpload.sheet_to_json
    (FileUpload.sheet_named (FileUpload.Sheets wb) (FileUpload.worksheetName wb)).



(** No key of the object holds [undefined] or [null]. *)
Definition filled (o : JS.object) : Prop :=
  forall k : string, JS.has o k = true -> JS.is_nullish (JS.get o k) = false.

(** The text is empty or starts with white space. *)
Definition starts_blank (w : string) : Prop :=
  match w with
  | EmptyString => True
  | String c _ => JS.isWhiteSpace c = true
  end.

(** No character of the text is white space. *)
Fixpoint no_blank (p : string) : Prop :=
  match p with
  | EmptyString => True
  | String c r => JS.isWhiteSpace c = false /\ no_blank r
  end.

(** The workbook of a file whose sheets are, in order, [sheets]. *)
Definition workbook_of (sheets : list (string * FileUpload.worksheet))
    : FileUpload.workbook :=
  {| FileUpload.SheetNames := map fst sheets; FileUpload.Sheets := sheets |}.

(** What a reconfiguration leaves alone in the configuration. *)
Definition same_columns (c1 c2 : App.ChartConfig) : Prop :=
  App.xColumn c1 = App.xColumn c2 /\ App.yColumn c1 = App.yColumn c2.

Definition chart_state_example : App.State :=
  App.handleDataProcess
    {| App.labels := ["Laptops"; "Tablets"]; App.values := [120; 80]%float |}
    {| App.xColumn := "Product"; App.yColumn := "Q1"; App.colorScheme := "blue";
       App.showGrid := true; App.chartHeight := 10%float |}
    (App.handleFileUpload FileUpload.sampleData App.initial).

Definition product_by_q1 : DataPreview.State :=
  {| DataPreview.selectedXColumn := "Product";
     DataPreview.selectedYColumn := "Q1" |}.

Definition zero_sales_rows : list JS.object :=
  [[("Product", JS.Str "Laptops"); ("Sales", JS.Num 0%float)];
   [("Product", JS.Str "Tablets"); ("Sales", JS.Num 0%float)]].

Definition product_by_sales : DataPreview.State :=
  {| DataPreview.selectedXColumn := "Product";
     DataPreview.selectedYColumn := "Sales" |}.

(** A file with two sheets.  The first has a header, a full row, a blank
    row and a row whose second cell is missing. *)
Definition sales_sheet : FileUpload.worksheet :=
  [[Some (JS.Str "Product"); Some (JS.Str "Q1")];
   [Some (JS.Str "Laptops"); Some (JS.Num 120%float)];
   [];
   [Some (JS.Str "Tablets")]].

Definition notes_sheet : FileUpload.worksheet :=
  [[Some (JS.Str "Note")]; [Some (JS.Str "second sheet")]].

Definition sales_workbook : FileUpload.workbook :=
  workbook_of [("Sales", sales_sheet); ("Notes", notes_sheet)].

(** A file whose only sheet has a header row and nothing else. *)
Definition header_only_file : FileUpload.File :=
  FileUpload.Readable (workbook_of [("Sheet1", [[Some (JS.Str "Product"); Some (JS.Str "Q1")]])]).

(** A file whose only sheet has no row at all. *)
Definition empty_file : FileUpload.File :=
  FileUpload.Readable (workbook_of [("Sheet1", [])]).

(** A file whose only sheet has a column headed [__proto__]. *)
Definition proto_file : FileUpload.File :=
  FileUpload.Readable
    (workbook_of
       [("Sheet1",
         [[Some (JS.Str "__proto__"); Some (JS.Str "Q1")];
          [Some (JS.Str "Laptops"); Some (JS.Num 120%float)]])]).


(** A value from which no column can become numeric: [undefined], [null],
    a boolean, or a text that is empty or white space only. *)
Definition notANumber (v : JS.value) : Prop :=
  v = JS.Undefined \/ v = JS.Null \/ (exists b, v = JS.Bool b) \/
  (exists s, v = JS.Str s /\ JS.trim s = "").

(** The letters that introduce a hexadecimal, octal or binary literal. *)
Definition radixLetters : list ascii := ["x"; "X"; "o"; "O"; "b"; "B"]%char.

(** The values the three controls sent, in order. *)
Definition colorChanges (evs : list ChartControls.Reconfiguration) : list string :=
  flat_map (fun ev => match ev with
                      | ChartControls.ColorSchemeChange value => [value]
                      | _ => []
                      end) evs.

Definition heightChanges (evs : list ChartControls.Reconfiguration)
    : list JS.number :=
  flat_map (fun ev => match ev with
                      | ChartControls.ChartHeightChange value0 _ => [value0]
                      | _ => []
                      end) evs.

Definition gridChanges (evs : list ChartControls.Reconfiguration) : list bool :=
  flat_map (fun ev => match ev with
                      | ChartControls.ShowGridChange checked => [checked]
                      | _ => []
                      end) evs.

(** The controls used one after the other. *)
Definition reconfigureAll (evs : list ChartControls.Reconfiguration)
    (st : App.State) : App.State :=
  fold_left (fun s ev => ChartControls.reconfigure ev s) evs st.

(** Events that arrive while no button is held: moves and releases. *)
Definition hovering (ev : Camera.Event) : bool :=
  match ev with
  | Camera.MouseMove _ _ | Camera.MouseUp => true
  | _ => false
  end.



(** A [Math] library, for the statements that call none of it. *)
Definition anyMath : Camera.MathLib :=
  {| Camera.Math_sin := fun a => a; Camera.Math_cos := fun a => a;
     Camera.Math_acos := fun a => a; Camera.Math_atan2 := fun a _ => a |}.

(** A session on the sample data, up to a chart in the green scheme. *)
Definition sample_session : list UI.Event :=
  [UI.LoadSample; UI.SelectX "Product"; UI.SelectY "Q1"; UI.Generate;
   UI.Reconfigure (ChartControls.ColorSchemeChange "green")].

(** The sample data loaded and both columns chosen. *)
Definition sample_selection : UI.State :=
  UI.run [UI.LoadSample; UI.SelectX "Product"; UI.SelectY "Q1"] UI.initial.

(* ================================================================== *)
(** * Properties of the workflow controller *)
(* ================================================================== *)

(** C7.  Round trip of the workflow controller: from the initial state,
    loading a file (upload to preview) and going back (preview to upload)
    gives the initial state again, whatever rows were loaded: no row
    records, no chart data, the default configuration and the upload
    step. *)
Theorem upload_preview_upload_roundtrip :
  forall data : list JS.object,
    App.currentStep (App.handleFileUpload data App.initial) = App.preview /\
    App.handleBackToUpload (App.handleFileUpload data App.initial) = App.initial /\
    App.rawData (App.handleBackToUpload (App.handleFileUpload data App.initial)) = [] /\
    App.chartData (App.handleBackToUpload (App.handleFileUpload data App.initial)) = None /\
    App.currentStep (App.handleBackToUpload (App.handleFileUpload data App.initial))
      = App.upload.
Proof.
  intro data. repeat split; reflexivity.
Qed.

(** C8.  Frame property of reconfiguration: in the chart state, a colour
    scheme, height or grid change keeps the step at chart and leaves the
    row records and the chart data as they were; in the configuration only
    the field of the control that fired takes the new value. *)
Theorem reconfigure_frame :
  forall (ev : ChartControls.Reconfiguration) (st : App.State),
    App.currentStep st = App.chart ->
    let st' := ChartControls.reconfigure ev st in
    App.currentStep st' = App.chart /\
    App.rawData st' = App.rawData st /\
    App.chartData st' = App.chartData st /\
    same_columns (App.chartConfig st') (App.chartConfig st) /\
    match ev with
    | ChartControls.ColorSchemeChange value =>
        App.colorScheme (App.chartConfig st') = value /\
        App.showGrid (App.chartConfig st') = App.showGrid (App.chartConfig st) /\
        App.chartHeight (App.chartConfig st') = App.chartHeight (App.chartConfig st)
    | ChartControls.ChartHeightChange value0 _ =>
        App.chartHeight (App.chartConfig st') = value0 /\
        App.colorScheme (App.chartConfig st') = App.colorScheme (App.chartConfig st) /\
        App.showGrid (App.chartConfig st') = App.showGrid (App.chartConfig st)
    | ChartControls.ShowGridChange checked =>
        App.showGrid (App.chartConfig st') = checked /\
        App.colorScheme (App.chartConfig st') = App.colorScheme (App.chartConfig st) /\
        App.chartHeight (App.chartConfig st') = App.chartHeight (App.chartConfig st)
    end.
Proof.
  intros ev st Hstep st'. subst st'.
  unfold ChartControls.reconfigure, ChartControls.updateConfig, same_columns.
  destruct ev; cbn; rewrite Hstep; repeat split.
Qed.

Lemma reconfigure_frame_witness :
  App.currentStep chart_state_example = App.chart /\
  App.currentStep
    (ChartControls.reconfigure (ChartControls.ChartHeightChange 15%float [])
       chart_state_example) = App.chart /\
  App.chartHeight
    (App.chartConfig
       (ChartControls.reconfigure (ChartControls.ChartHeightChange 15%float [])
          chart_state_example)) = 15%float.
Proof.
  pose proof (reconfigure_frame (ChartControls.ChartHeightChange 15%float [])
                chart_state_example eq_refl) as H.
  cbv zeta in H.
  destruct H as (H1 & _ & _ & _ & H5 & _).
  split; [reflexivity | split; [exact H1 | exact H5]].
Defined.

(* ================================================================== *)
(** * Properties of the chart data builder *)
(* ================================================================== *)

Section ChartDataBuilder.

Import JS.

(** [x || 0] is [x], except that [NaN] and the two zeros become [+0]. *)
Lemma or_number_zero_cases :
  forall x : number,
    (is_nan x = true -> or_number x zero = zero) /\
    (is_zero x = true -> or_number x zero = zero) /\
    (is_nan x = false -> is_zero x = false -> or_number x zero = x).
Proof.
  intro x. unfold or_number, ToBoolean.
  repeat split; intros.
  - rewrite H. reflexivity.
  - rewrite H. rewrite orb_true_r. reflexivity.
  - rewrite H, H0. reflexivity.
Qed.

Lemma nth_error_map_some :
  forall (A B : Type) (f : A -> B) (l : list A) (i : nat) (a : A),
    nth_error l i = Some a -> nth_error (map f l) i = Some (f a).
Proof.
  intros A B f l. induction l as [| h t IH]; intros [| i] a H; simpl in *;
    try discriminate.
  - injection H as ->. reflexivity.
  - apply IH. exact H.
Qed.

End ChartDataBuilder.

(** C1.  Chart data builder: once a category and a value column are
    chosen, the chart data has one label and one value per row, in row
    order, nothing merged or dropped.  The label of a row is [String] of
    its category cell; its value is [parseFloat] of its value cell, with
    [0] in place of [NaN] (and of a zero).  Labels and values have the
    same length, that of the rows. *)
Theorem generateChart_one_bar_per_row :
  forall (data : list JS.object) (st : DataPreview.State),
    DataPreview.selectedXColumn st <> "" ->
    DataPreview.selectedYColumn st <> "" ->
    exists chartData config,
      DataPreview.generateChart data st = Some (chartData, config) /\
      List.length (App.labels chartData) = List.length data /\
      List.length (App.values chartData) = List.length data /\
      List.length (App.labels chartData) = List.length (App.values chartData) /\
      forall (i : nat) (row : JS.object),
        nth_error data i = Some row ->
        let parsed := JS.parseFloat (JS.get row (DataPreview.selectedYColumn st)) in
        nth_error (App.labels chartData) i
          = Some (JS.ToString (JS.get row (DataPreview.selectedXColumn st))) /\
        exists value,
          nth_error (App.values chartData) i = Some value /\
          (is_nan parsed = true -> value = zero) /\
          (is_zero parsed = true -> value = zero) /\
          (is_nan parsed = false -> is_zero parsed = false -> value = parsed).
Proof.
  intros data st Hx Hy.
  unfold DataPreview.generateChart, DataPreview.canGenerateChart.
  assert (Tx : JS.ToBoolean (JS.Str (DataPreview.selectedXColumn st)) = true).
  { simpl. destruct (String.eqb_spec (DataPreview.selectedXColumn st) "");
      [contradiction | reflexivity]. }
  assert (Ty : JS.ToBoolean (JS.Str (DataPreview.selectedYColumn st)) = true).
  { simpl. destruct (String.eqb_spec (DataPreview.selectedYColumn st) "");
      [contradiction | reflexivity]. }
  rewrite Tx, Ty. cbn [andb negb].
  eexists. eexists. split; [reflexivity |]. cbn [App.labels App.values].
  rewrite !length_map. repeat split.
  - apply nth_error_map_some with
      (f := fun row => JS.ToString (JS.get row (DataPreview.selectedXColumn st))).
    exact H.
  - eexists. split.
    + apply nth_error_map_some with
        (f := fun row =>
                JS.or_number
                  (JS.parseFloat (JS.get row (DataPreview.selectedYColumn st))) zero).
      exact H.
    + apply or_number_zero_cases.
Qed.

Lemma generateChart_one_bar_per_row_witness :
  "Product" <> "" /\ "Q1" <> "" /\
  exists chartData config,
    DataPreview.generateChart FileUpload.sampleData product_by_q1
      = Some (chartData, config) /\
    List.length (App.labels chartData) = 6%nat /\
    List.length (App.values chartData) = 6%nat.
Proof.
  split; [discriminate | split; [discriminate |]].
  destruct (generateChart_one_bar_per_row FileUpload.sampleData product_by_q1)
    as (cd & cfg & Hgen & Hl & Hv & _).
  - discriminate.
  - discriminate.
  - exists cd, cfg. split; [exact Hgen | split; [exact Hl | exact Hv]].
Defined.

(** The scenario of the specification: the six sample rows, [Product] as
    category and [Q1] as value. *)
Example generateChart_sample_scenario :
  DataPreview.generateChart FileUpload.sampleData product_by_q1
  = Some ({| App.labels := ["Laptops"; "Smartphones"; "Tablets"; "Headphones";
                            "Smartwatches"; "Cameras"];
             App.values := [120; 200; 80; 150; 60; 45]%float |},
          {| App.xColumn := "Product"; App.yColumn := "Q1";
             App.colorScheme := "blue"; App.showGrid := true;
             App.chartHeight := 10%float |}).
Proof. vm_compute. reflexivity. Qed.

(** Cells that do not start with a number become [0]; a numeric prefix is
    enough to be read. *)
Example generateChart_unparseable_cells :
  option_map (fun r => App.values (fst r))
    (DataPreview.generateChart
       [[("k", JS.Str "a"); ("v", JS.Str "n/a")];
        [("k", JS.Str "b"); ("v", JS.Str "")];
        [("k", JS.Str "c"); ("v", JS.Str "12abc")];
        [("k", JS.Str "d"); ("v", JS.Bool true)];
        [("k", JS.Str "e"); ("v", JS.Str " 2.5e1 ")]]
       {| DataPreview.selectedXColumn := "k"; DataPreview.selectedYColumn := "v" |})
  = Some [0; 0; 12; 0; 25]%float.
Proof. vm_compute. reflexivity. Qed.

(* ================================================================== *)
(** * Properties of the column classifier *)
(* ================================================================== *)

Lemma includes_In :
  forall (xs : list string) (k : string),
    JS.includes xs k = true <-> In k xs.
Proof.
  intros xs k. unfold JS.includes. rewrite existsb_exists. split.
  - intros (x & Hin & Heq). apply String.eqb_eq in Heq. subst x. exact Hin.
  - intro Hin. exists k. split; [exact Hin | apply String.eqb_refl].
Qed.

Lemma numericColumns_In :
  forall (data : list JS.object) (col : string),
    In col (DataPreview.numericColumns data) <->
    In col (DataPreview.columns data) /\
    exists row, In row data /\ DataPreview.numericCell row col = true.
Proof.
  intros data col. unfold DataPreview.numericColumns.
  destruct data as [| first rest].
  - simpl. split; [contradiction | intros [[] _]].
  - rewrite filter_In, existsb_exists. reflexivity.
Qed.

Lemma stringColumns_In :
  forall (data : list JS.object) (col : string),
    In col (DataPreview.stringColumns data) <->
    In col (DataPreview.columns data) /\
    ~ In col (DataPreview.numericColumns data).
Proof.
  intros data col. unfold DataPreview.stringColumns.
  destruct data as [| first rest].
  - simpl. split; [contradiction | intros [[] _]].
  - rewrite filter_In, negb_true_iff, <- not_true_iff_false, includes_In.
    reflexivity.
Qed.

Section Parsing.

Import JS.
Local Open Scope string_scope.

Lemma white_not_digit :
  forall c : ascii, isWhiteSpace c = true -> digit_of c = None.
Proof.
  intros c H.
  destruct c as [[] [] [] [] [] [] [] []]; try discriminate H; reflexivity.
Qed.

Lemma white_not_mark :
  forall c : ascii, isWhiteSpace c = true ->
    forall m : ascii,
      In m ["."; "e"; "E"; "+"; "-"; "I"; "n"; "f"; "i"; "t"; "y"]%char ->
      Ascii.eqb m c = false /\ Ascii.eqb c m = false.
Proof.
  intros c H m Hm.
  destruct c as [[] [] [] [] [] [] [] []]; try discriminate H;
    repeat (destruct Hm as [<- | Hm]; [split; reflexivity |]); destruct Hm.
Qed.

Lemma trimStart_head :
  forall (s : string) (c : ascii) (r : string),
    trimStart s = String c r -> isWhiteSpace c = false.
Proof.
  induction s as [| a s IH]; intros c r H; simpl in H.
  - discriminate H.
  - destruct (isWhiteSpace a) eqn:E.
    + apply (IH c r H).
    + injection H as <- _. exact E.
Qed.

Lemma trimEnd_split :
  forall u : string, exists w, u = trimEnd u ++ w /\ starts_blank w.
Proof.
  induction u as [| c r (w & Hr & Hw)].
  - exists "". split; [reflexivity | exact I].
  - simpl. destruct (trimEnd r) as [| c' r'] eqn:E.
    + simpl in Hr. subst w. destruct (isWhiteSpace c) eqn:W.
      * exists (String c r). split; [reflexivity | exact W].
      * exists r. split; [reflexivity | exact Hw].
    + exists w. split; [| exact Hw]. simpl. f_equal. exact Hr.
Qed.

Lemma decimalDigits_app :
  forall (a w : string) (acc count : Z),
    starts_blank w ->
    decimalDigits acc count (a ++ w)
    = let '(v, n, r) := decimalDigits acc count a in (v, n, r ++ w).
Proof.
  induction a as [| c a IH]; intros w acc count Hw; simpl.
  - destruct w as [| c w]; [reflexivity |]. simpl.
    rewrite (white_not_digit c Hw). reflexivity.
  - destruct (digit_of c); [apply IH; exact Hw | reflexivity].
Qed.

Lemma optionalSign_app :
  forall a w : string,
    starts_blank w ->
    optionalSign (a ++ w) = let '(neg, r) := optionalSign a in (neg, r ++ w).
Proof.
  intros a w Hw. destruct a as [| c a].
  - destruct w as [| b w]; [reflexivity |]. simpl in Hw |- *.
    destruct b as [[] [] [] [] [] [] [] []]; try discriminate Hw; reflexivity.
  - destruct c as [[] [] [] [] [] [] [] []]; reflexivity.
Qed.

Lemma exponentPart_app :
  forall a w : string,
    starts_blank w ->
    exponentPart (a ++ w) = let '(e, r) := exponentPart a in (e, r ++ w).
Proof.
  intros a w Hw. destruct a as [| c a].
  - destruct w as [| b w]; [reflexivity |]. simpl in Hw |- *.
    destruct (white_not_mark b Hw "e"%char) as [_ ->]; [simpl; tauto |].
    destruct (white_not_mark b Hw "E"%char) as [_ ->]; [simpl; tauto |].
    reflexivity.
  - cbn [append exponentPart].
    destruct (Ascii.eqb c "e" || Ascii.eqb c "E")%char; [| reflexivity].
    rewrite (optionalSign_app a w Hw).
    destruct (optionalSign a) as [neg r1].
    rewrite (decimalDigits_app r1 w 0 0 Hw).
    destruct (decimalDigits 0 0 r1) as [[n k] r2].
    destruct (k =? 0)%Z; reflexivity.
Qed.

Lemma strUnsignedDecimalLiteral_app :
  forall a w : string,
    starts_blank w ->
    strUnsignedDecimalLiteral (a ++ w)
    = match strUnsignedDecimalLiteral a with
      | Some (m, e, r) => Some (m, e, r ++ w)
      | None => None
      end.
Proof.
  intros a w Hw. unfold strUnsignedDecimalLiteral.
  rewrite (decimalDigits_app a w 0 0 Hw).
  destruct (decimalDigits 0 0 a) as [[i ki] r1].
  cbv zeta.
  assert (Hwithout :
    (if (ki =? 0)%Z then None
     else let '(e, r3) := exponentPart (r1 ++ w) in Some (i, e, r3))
    = match (if (ki =? 0)%Z then None
             else let '(e, r3) := exponentPart r1 in Some (i, e, r3)) with
      | Some (m, e, r) => Some (m, e, r ++ w)
      | None => None
      end).
  { destruct (ki =? 0)%Z; [reflexivity |].
    rewrite (exponentPart_app r1 w Hw).
    destruct (exponentPart r1) as [e r3]. reflexivity. }
  destruct r1 as [| c r1].
  - (* the digits reach the end of [a] *)
    rewrite <- Hwithout. cbn [append].
    destruct w as [| b w]; [reflexivity |]. simpl in Hw.
    destruct (white_not_mark b Hw "."%char) as [_ ->]; [simpl; tauto |].
    reflexivity.
  - cbn [append]. destruct (Ascii.eqb c "."%char).
    + rewrite (decimalDigits_app r1 w i 0 Hw).
      destruct (decimalDigits i 0 r1) as [[m kf] r2].
      destruct ((ki =? 0) && (kf =? 0))%Z; [reflexivity |].
      rewrite (exponentPart_app r2 w Hw).
      destruct (exponentPart r2) as [e r3]. reflexivity.
    + exact Hwithout.
Qed.

(** A prefix without white space is found in [a ++ w] exactly when it is
    found in [a]. *)
Lemma strip_prefix_app :
  forall p a w : string,
    starts_blank w -> no_blank p ->
    strip_prefix p (a ++ w)
    = match strip_prefix p a with
      | Some r => Some (r ++ w)
      | None => None
      end.
Proof.
  induction p as [| m p IH]; intros a w Hw Hp.
  - reflexivity.
  - destruct Hp as [Hm Hp]. destruct a as [| c a]; simpl.
    + destruct w as [| b w]; [reflexivity |]. simpl in Hw.
      destruct (Ascii.eqb_spec m b) as [-> | _]; [congruence | reflexivity].
    + destruct (Ascii.eqb m c); [apply IH; assumption | reflexivity].
Qed.

Lemma strDecimalLiteral_app :
  forall a w : string,
    starts_blank w ->
    strDecimalLiteral (a ++ w)
    = match strDecimalLiteral a with
      | Some (x, r) => Some (x, r ++ w)
      | None => None
      end.
Proof.
  intros a w Hw. unfold strDecimalLiteral.
  rewrite (optionalSign_app a w Hw).
  destruct (optionalSign a) as [neg r].
  rewrite (strip_prefix_app "Infinity" r w Hw) by (simpl; tauto).
  destruct (strip_prefix "Infinity" r) as [r' |]; [reflexivity |].
  rewrite (strUnsignedDecimalLiteral_app r w Hw).
  destruct (strUnsignedDecimalLiteral r) as [[[m e] r'] |]; reflexivity.
Qed.

Lemma nonDecimal_shape :
  forall (t : string) (y : number),
    nonDecimalIntegerLiteral t = Some y ->
    exists c rest,
      t = String "0"%char (String c rest) /\
      In c ["x"; "X"; "o"; "O"; "b"; "B"]%char.
Proof.
  intros t y H. destruct t as [| c0 [| c rest]].
  - discriminate H.
  - destruct c0 as [[] [] [] [] [] [] [] []]; discriminate H.
  - destruct (Ascii.eqb_spec c0 "0"%char) as [-> | Hne].
    + exists c, rest. split; [reflexivity |]. simpl in H.
      destruct (Ascii.eqb_spec c "x"%char) as [-> | _]; [simpl; tauto |].
      destruct (Ascii.eqb_spec c "X"%char) as [-> | _]; [simpl; tauto |].
      destruct (Ascii.eqb_spec c "o"%char) as [-> | _]; [simpl; tauto |].
      destruct (Ascii.eqb_spec c "O"%char) as [-> | _]; [simpl; tauto |].
      destruct (Ascii.eqb_spec c "b"%char) as [-> | _]; [simpl; tauto |].
      destruct (Ascii.eqb_spec c "B"%char) as [-> | _]; [simpl; tauto |].
      discriminate H.
    + exfalso. destruct c0 as [[] [] [] [] [] [] [] []]; try discriminate H.
      apply Hne. reflexivity.
Qed.

(** On a text that starts like a hexadecimal, octal or binary literal
    [parseFloat] reads the leading ["0"] and stops. *)
Lemma strDecimalLiteral_radix_prefix :
  forall (c : ascii) (rest : string),
    In c ["x"; "X"; "o"; "O"; "b"; "B"]%char ->
    strDecimalLiteral (String "0"%char (String c rest))
    = Some (zero, String c rest).
Proof.
  intros c rest Hc.
  repeat (destruct Hc as [<- | Hc]; [reflexivity |]). destruct Hc.
Qed.

(** A text that is, as a whole, a finite number, and from which
    [parseFloat] reads a number at all, is read by [parseFloat] as a
    finite number. *)
Lemma whole_number_parses_finite :
  forall s : string,
    is_nan (parseFloat_string s) = false ->
    is_finite (StringToNumber s) = true ->
    is_finite (parseFloat_string s) = true.
Proof.
  intros s Hnan Hfin. unfold parseFloat_string, StringToNumber, trim in *.
  destruct (trimEnd_split (trimStart s)) as (w & Hu & Hw).
  destruct (trimEnd (trimStart s)) as [| c t'] eqn:Ht.
  - (* nothing but white space *)
    simpl in Hu. destruct (trimStart s) as [| b r] eqn:Hs.
    + discriminate Hnan.
    + subst w. simpl in Hw.
      rewrite (trimStart_head s b r Hs) in Hw. discriminate Hw.
  - destruct (nonDecimalIntegerLiteral (String c t')) as [y |] eqn:Hnd.
    + destruct (nonDecimal_shape _ _ Hnd) as (c2 & rest & Hshape & Hc2).
      rewrite Hu, Hshape. cbn [append].
      rewrite (strDecimalLiteral_radix_prefix c2 (rest ++ w) Hc2).
      reflexivity.
    + rewrite Hu, (strDecimalLiteral_app (String c t') w Hw).
      destruct (strDecimalLiteral (String c t')) as [[y r] |].
      * destruct r; [exact Hfin | discriminate Hfin].
      * discriminate Hfin.
Qed.

Lemma numericCell_parses_finite :
  forall v : value,
    is_nan (parseFloat v) = false ->
    is_finite (ToNumber v) = true ->
    is_finite (parseFloat v) = true.
Proof.
  intros [| | b | x | s] Hnan Hfin.
  - discriminate Hnan.
  - discriminate Hnan.
  - destruct b; discriminate Hnan.
  - simpl in *. destruct (is_zero x); [reflexivity | exact Hfin].
  - apply whole_number_parses_finite; assumption.
Qed.

End Parsing.

(** A column classified numeric has a value that [parseFloat] reads as
    a finite number. *)
Lemma numeric_column_parses_finite :
  forall (data : list JS.object) (col : string),
    In col (DataPreview.numericColumns data) ->
    exists row, In row data /\
                is_finite (JS.parseFloat (JS.get row col)) = true.
Proof.
  intros data col H. apply numericColumns_In in H.
  destruct H as (_ & row & Hin & Hcell). exists row. split; [exact Hin |].
  unfold DataPreview.numericCell, JS.isNaN, JS.isFinite in Hcell.
  cbn [JS.ToNumber] in Hcell. apply andb_true_iff in Hcell.
  destruct Hcell as (H1 & H2). apply negb_true_iff in H1.
  apply numericCell_parses_finite; assumption.
Qed.

(** "Numeric if and only if some value parses as a finite number" fails
    from right to left.  In the first table the only cell
    of column [Size] is ["12abc"]: [parseFloat] reads the finite number 12
    from it, yet the column is classified text, because [isFinite] looks at
    the whole cell.  In the second table the only cell of column [Note] is
    the empty string, which [Number] reads as the finite number 0, yet the
    column is classified text, because [parseFloat] finds no number. *)
Lemma numeric_iff_parses_finite_counterexample :
  (let data := [[("Size", JS.Str "12abc")]] in
   In "Size" (DataPreview.columns data) /\
   (exists row, In row data /\
                is_finite (JS.parseFloat (JS.get row "Size")) = true) /\
   ~ In "Size" (DataPreview.numericColumns data) /\
   In "Size" (DataPreview.stringColumns data)) /\
  (let data := [[("Note", JS.Str "")]] in
   In "Note" (DataPreview.columns data) /\
   (exists row, In row data /\
                is_finite (JS.ToNumber (JS.get row "Note")) = true) /\
   ~ In "Note" (DataPreview.numericColumns data) /\
   In "Note" (DataPreview.stringColumns data)).
Proof.
  split; cbv zeta.
  - split; [left; reflexivity |]. split.
    + eexists. split; [left; reflexivity | vm_compute; reflexivity].
    + split; [intros [] | left; reflexivity].
  - split; [left; reflexivity |]. split.
    + eexists. split; [left; reflexivity | vm_compute; reflexivity].
    + split; [intros [] | left; reflexivity].
Qed.

(** C2, as the code has it.  A column of the first row is classified
    numeric exactly when some row holds in it a value that [parseFloat]
    reads as a number (not [NaN]) and that is, as a whole, a finite number
    ([isFinite]); such a value parses as a finite number, so a numeric
    column always has one; every other column of the first row is
    classified text, so each column falls in exactly one class; and the
    classification is a function of the row records alone: equal rows give
    equal classes. *)
Theorem column_classification :
  forall (data : list JS.object) (col : string),
    (In col (DataPreview.numericColumns data) <->
     In col (DataPreview.columns data) /\
     exists row, In row data /\
       is_nan (JS.parseFloat (JS.get row col)) = false /\
       is_finite (JS.ToNumber (JS.get row col)) = true) /\
    (In col (DataPreview.numericColumns data) ->
     exists row, In row data /\
       is_finite (JS.parseFloat (JS.get row col)) = true) /\
    (In col (DataPreview.stringColumns data) <->
     In col (DataPreview.columns data) /\
     ~ In col (DataPreview.numericColumns data)) /\
    (In col (DataPreview.columns data) ->
     (In col (DataPreview.numericColumns data) \/
      In col (DataPreview.stringColumns data)) /\
     ~ (In col (DataPreview.numericColumns data) /\
        In col (DataPreview.stringColumns data))) /\
    (forall data', data' = data ->
       DataPreview.numericColumns data' = DataPreview.numericColumns data /\
       DataPreview.stringColumns data' = DataPreview.stringColumns data).
Proof.
  intros data col.
  assert (Hnum :
    In col (DataPreview.numericColumns data) <->
    In col (DataPreview.columns data) /\
    exists row, In row data /\
      is_nan (JS.parseFloat (JS.get row col)) = false /\
      is_finite (JS.ToNumber (JS.get row col)) = true).
  { rewrite numericColumns_In. unfold DataPreview.numericCell, JS.isNaN, JS.isFinite.
    cbn [JS.ToNumber].
    split; intros (Hc & row & Hin & H); (split; [exact Hc |]); exists row;
      (split; [exact Hin |]).
    - apply andb_true_iff in H. destruct H as (H1 & H2).
      apply negb_true_iff in H1. split; assumption.
    - destruct H as (H1 & H2). rewrite H1, H2. reflexivity. }
  split; [exact Hnum |].
  split; [apply numeric_column_parses_finite |].
  split; [apply stringColumns_In |].
  split.
  - intro Hc. split.
    + destruct (in_dec string_dec col (DataPreview.numericColumns data)) as [Hn | Hn].
      * left. exact Hn.
      * right. apply stringColumns_In. split; assumption.
    + intros (Hn & Hs). apply stringColumns_In in Hs. destruct Hs as (_ & Hs).
      exact (Hs Hn).
  - intros data' ->. split; reflexivity.
Qed.

Lemma column_classification_witness :
  In "Q1" (DataPreview.numericColumns FileUpload.sampleData) /\
  (exists row, In row FileUpload.sampleData /\
               is_finite (JS.parseFloat (JS.get row "Q1")) = true) /\
  In "Product" (DataPreview.stringColumns FileUpload.sampleData).
Proof.
  destruct (column_classification FileUpload.sampleData "Q1")
    as (_ & Hfinite & _).
  destruct (column_classification FileUpload.sampleData "Product")
    as (_ & _ & Hstring & _).
  assert (Hq1 : In "Q1" (DataPreview.numericColumns FileUpload.sampleData))
    by (vm_compute; tauto).
  split; [exact Hq1 |]. split; [exact (Hfinite Hq1) |].
  apply Hstring. split.
  - vm_compute. tauto.
  - vm_compute. intros [H | [H | [H | [H | []]]]]; discriminate H.
Defined.

(** The sample rows: [Product] is text, the four quarters are numeric. *)
Example classification_of_sample :
  DataPreview.numericColumns FileUpload.sampleData = ["Q1"; "Q2"; "Q3"; "Q4"] /\
  DataPreview.stringColumns FileUpload.sampleData = ["Product"].
Proof. split; vm_compute; reflexivity. Qed.

(* ================================================================== *)
(** * Properties of the bars *)
(* ================================================================== *)

(** Every bar follows the formula of the source: value over maximum,
    times the configured height, in binary64 arithmetic. *)
Lemma barHeights_formula :
  forall (data : App.ChartData) (config : App.ChartConfig),
    List.length (Chart3D.barHeights data config) = List.length (App.values data) /\
    forall (i : nat) (value : JS.number),
      nth_error (App.values data) i = Some value ->
      nth_error (Chart3D.barHeights data config) i
      = Some ((value / JS.Math_max (App.values data)) * App.chartHeight config)%float.
Proof.
  intros data config. unfold Chart3D.barHeights. split.
  - apply length_map.
  - intros i value H.
    apply nth_error_map_some with (f := Chart3D.barHeight data config).
    exact H.
Qed.

(** On the sample scenario the tallest bar (Smartphones, 200) has exactly
    the configured height. *)
Example barHeights_sample :
  Chart3D.barHeights
    {| App.labels := ["Laptops"; "Smartphones"; "Tablets"];
       App.values := [120; 200; 80]%float |} App.initialConfig
  = [6; 10; 4]%float.
Proof. vm_compute. reflexivity. Qed.

(** A finite number other than zero divided by itself is exactly 1. *)
Lemma SFdiv_self :
  forall (s : bool) (m : positive) (e : Z),
    SFdiv prec emax (S754_finite s m e) (S754_finite s m e)
    = S754_finite false 4503599627370496 (-52).
Proof.
  intros s m e. unfold SFdiv, SFdiv_core_binary.
  replace (Zdigits2 (Zpos m) + e - (Zdigits2 (Zpos m) + e))%Z with 0%Z by lia.
  replace (e - e)%Z with 0%Z by lia.
  change (Z.min (fexp prec emax 0) 0) with (-53)%Z.
  change (0 - -53)%Z with 53%Z. cbv iota.
  rewrite Z.shiftl_mul_pow2 by lia.
  assert (Hdiv : Z.div_eucl (Zpos m * 2 ^ 53) (Zpos m) = ((2 ^ 53)%Z, 0%Z)).
  { pose proof (Z.div_eucl_eq (Zpos m * 2 ^ 53) (Zpos m) ltac:(lia)) as Heq.
    pose proof (Z.mod_pos_bound (Zpos m * 2 ^ 53) (Zpos m) ltac:(lia)) as Hb.
    unfold Z.modulo in Hb.
    destruct (Z.div_eucl (Zpos m * 2 ^ 53) (Zpos m)) as [q r].
    assert (r = 0)%Z.
    { assert (Hr : (r = Zpos m * (2 ^ 53 - q))%Z) by lia.
      destruct (Z.eq_dec q (2 ^ 53)) as [-> | Hq]; [lia | exfalso].
      assert (Zpos m <= Z.abs r)%Z; [| lia].
      rewrite Hr, Z.abs_mul.
      assert (1 <= Z.abs (2 ^ 53 - q))%Z by lia. nia. }
    subst r. f_equal. nia. }
  rewrite Hdiv.
  assert (Hloc : new_location (Zpos m) 0 = loc_Exact).
  { unfold new_location. destruct (Z.even (Zpos m)); reflexivity. }
  rewrite Hloc. destruct s; vm_compute; reflexivity.
Qed.

Lemma finite_nonzero_shape :
  forall x : float,
    is_finite x = true -> is_zero x = false ->
    exists s m e, Prim2SF x = S754_finite s m e.
Proof.
  intros x Hf Hz. unfold is_finite, is_nan, is_infinity, is_zero in *.
  rewrite !eqb_spec, abs_spec in *.
  destruct (Prim2SF x) as [s | s | | s m e] eqn:E.
  - destruct s; vm_compute in Hz; discriminate Hz.
  - destruct s; vm_compute in Hf; discriminate Hf.
  - vm_compute in Hf. discriminate Hf.
  - exists s, m, e. reflexivity.
Qed.

Lemma div_self :
  forall x : float, is_finite x = true -> is_zero x = false -> (x / x)%float = one.
Proof.
  intros x Hf Hz. destruct (finite_nonzero_shape x Hf Hz) as (s & m & e & E).
  apply Prim2SF_inj. rewrite div_spec, E. unfold SF64div. rewrite SFdiv_self.
  reflexivity.
Qed.

(** Multiplying by 1 is exact. *)
Lemma SFmul_one_l :
  forall y : spec_float,
    valid_binary y = true ->
    SFmul prec emax (S754_finite false 4503599627370496 (-52)) y = y.
Proof.
  intros [s | s | | s m e] Hv; try reflexivity.
  simpl in Hv. unfold bounded, canonical_mantissa in Hv.
  apply andb_true_iff in Hv. destruct Hv as [Hc Hb]. apply Z.eqb_eq in Hc.
  unfold SFmul. cbn [xorb].
  unfold binary_round_aux, shr_fexp.
  assert (Hd : (Zdigits2 (Zpos (4503599627370496 * m))
                = Zpos (digits2_pos m) + 52)%Z).
  { cbn [Pos.mul Zdigits2 digits2_pos]. rewrite !Pos2Z.inj_succ. lia. }
  rewrite Hd.
  replace (Zpos (digits2_pos m) + 52 + (-52 + e))%Z
    with (Zpos (digits2_pos m) + e)%Z by lia.
  rewrite Hc.
  replace (e - (-52 + e))%Z with 52%Z by lia.
  cbn [Pos.mul shr shr_record_of_loc].
  change (SpecFloat.iter_pos shr_1 52 _) with {| shr_m := Zpos m; shr_r := false; shr_s := false |}.
  cbn [shr_m loc_of_shr_record round_nearest_even Zdigits2].
  replace (-52 + e + 52)%Z with e by lia.
  rewrite Hc, Z.sub_diag. cbn [shr shr_record_of_loc shr_m].
  rewrite Hb. reflexivity.
Qed.

Lemma mul_one_l : forall h : float, (one * h)%float = h.
Proof.
  intro h. apply Prim2SF_inj. rewrite mul_spec. unfold SF64mul.
  change (Prim2SF one) with (S754_finite false 4503599627370496 (-52)).
  apply SFmul_one_l. apply Prim2SF_valid.
Qed.

Lemma max2_choice :
  forall a b : JS.number,
    JS.max2 a b = a \/ JS.max2 a b = b \/ JS.max2 a b = nan.
Proof.
  intros a b. unfold JS.max2.
  destruct (is_nan a || is_nan b); [tauto |].
  destruct (a <? b)%float; [tauto |].
  destruct (b <? a)%float; [tauto |].
  destruct (get_sign a); tauto.
Qed.

Lemma fold_max2_choice :
  forall (xs : list JS.number) (acc : JS.number),
    fold_left JS.max2 xs acc = acc \/
    In (fold_left JS.max2 xs acc) xs \/
    fold_left JS.max2 xs acc = nan.
Proof.
  induction xs as [| x xs IH]; intro acc; simpl.
  - left. reflexivity.
  - destruct (IH (JS.max2 acc x)) as [H | [H | H]].
    + rewrite H. destruct (max2_choice acc x) as [E | [E | E]]; rewrite E.
      * left. reflexivity.
      * right. left. left. reflexivity.
      * right. right. reflexivity.
    + right. left. right. exact H.
    + right. right. exact H.
Qed.

(** X10.  Where the maximum is finite and not zero, it is one of the values,
    and a bar holding it has exactly the configured height. *)
Lemma tallest_bar_full_height :
  forall (data : App.ChartData) (config : App.ChartConfig),
    is_finite (Chart3D.maxValue data) = true ->
    is_zero (Chart3D.maxValue data) = false ->
    In (Chart3D.maxValue data) (App.values data) /\
    Chart3D.barHeight data config (Chart3D.maxValue data) = App.chartHeight config /\
    In (App.chartHeight config) (Chart3D.barHeights data config).
Proof.
  intros data config Hf Hz.
  assert (Hin : In (Chart3D.maxValue data) (App.values data)).
  { unfold Chart3D.maxValue, JS.Math_max in *.
    destruct (fold_max2_choice (App.values data) neg_infinity) as [H | [H | H]].
    - rewrite H in Hf. discriminate Hf.
    - exact H.
    - rewrite H in Hf. discriminate Hf. }
  assert (Hh : Chart3D.barHeight data config (Chart3D.maxValue data)
               = App.chartHeight config).
  { unfold Chart3D.barHeight. rewrite (div_self _ Hf Hz). apply mul_one_l. }
  split; [exact Hin |]. split; [exact Hh |].
  unfold Chart3D.barHeights. rewrite <- Hh. apply in_map. exact Hin.
Qed.

Lemma nan_is_not_ten : nan <> 10%float.
Proof.
  intro H. apply (f_equal is_nan) in H. vm_compute in H. discriminate H.
Qed.

(** C3 at a chart whose values are all zero.  [Sales] is a numeric
    column, the chart data built from it has the values [0; 0], the
    maximum is [0] and every height is [0 / 0 * 10], that is [NaN]: no bar
    has the configured height 10. *)
Theorem zero_maximum_gives_NaN_heights :
  In "Sales" (DataPreview.numericColumns zero_sales_rows) /\
  exists chartData config,
    DataPreview.generateChart zero_sales_rows product_by_sales
      = Some (chartData, config) /\
    App.values chartData = [0; 0]%float /\
    App.chartHeight config = 10%float /\
    Chart3D.maxValue chartData = 0%float /\
    Chart3D.barHeights chartData config = [nan; nan] /\
    ~ In (App.chartHeight config) (Chart3D.barHeights chartData config).
Proof.
  split.
  - vm_compute. left. reflexivity.
  - eexists. eexists. split; [vm_compute; reflexivity |].
    split; [reflexivity |]. split; [reflexivity |].
    split; [vm_compute; reflexivity |].
    split; [vm_compute; reflexivity |].
    vm_compute. intros [H | [H | []]]; exact (nan_is_not_ten H).
Qed.

(* ================================================================== *)
(** * Properties of the tabular loader *)
(* ================================================================== *)

Section Objects.

Import JS.

Lemma get_setOwn_same :
  forall (o : object) (k : string) (v : value), get (setOwn o k v) k = v.
Proof.
  induction o as [| [k' v'] o IH]; intros k v; simpl.
  - rewrite String.eqb_refl. reflexivity.
  - destruct (k' =? k) eqn:E; simpl; rewrite E; [reflexivity | apply IH].
Qed.

Lemma get_setOwn_other :
  forall (o : object) (k k2 : string) (v : value),
    k <> k2 -> get (setOwn o k v) k2 = get o k2.
Proof.
  induction o as [| [k' v'] o IH]; intros k k2 v Hne; simpl.
  - destruct (String.eqb_spec k k2); [contradiction | reflexivity].
  - destruct (String.eqb_spec k' k) as [-> | Hk]; simpl.
    + destruct (String.eqb_spec k k2); [contradiction | reflexivity].
    + destruct (k' =? k2); [reflexivity | apply IH; exact Hne].
Qed.

Lemma has_setOwn :
  forall (o : object) (k k2 : string) (v : value),
    has (setOwn o k v) k2 = (k =? k2) || has o k2.
Proof.
  induction o as [| [k' v'] o IH]; intros k k2 v; simpl.
  - reflexivity.
  - destruct (String.eqb_spec k' k) as [-> | Hk]; simpl.
    + destruct (k =? k2); reflexivity.
    + rewrite IH. destruct (k' =? k2), (k =? k2); reflexivity.
Qed.

(** Assigning to [__proto__] makes no property. *)
Lemma set_proto :
  forall (o : object) (v : value),
    has o "__proto__" = false -> set o "__proto__" v = o.
Proof. intros o v H. unfold set. rewrite H. reflexivity. Qed.

Lemma set_other_name :
  forall (o : object) (k : string) (v : value),
    k <> "__proto__" -> set o k v = setOwn o k v.
Proof.
  intros o k v H. unfold set.
  destruct (String.eqb_spec k "__proto__"); [contradiction | reflexivity].
Qed.

Lemma get_set_same :
  forall (o : object) (k : string) (v : value),
    k <> "__proto__" -> get (set o k v) k = v.
Proof.
  intros o k v H. rewrite set_other_name by exact H. apply get_setOwn_same.
Qed.

Lemma get_set_other :
  forall (o : object) (k k2 : string) (v : value),
    k <> k2 -> get (set o k v) k2 = get o k2.
Proof.
  intros o k k2 v Hne. unfold set.
  destruct ((k =? "__proto__") && negb (has o k)); [reflexivity |].
  apply get_setOwn_other. exact Hne.
Qed.

Lemma has_set :
  forall (o : object) (k k2 : string) (v : value),
    has (set o k v) k2 = has o k2 || ((k =? k2) && negb (k =? "__proto__")).
Proof.
  intros o k k2 v. unfold set.
  destruct (String.eqb_spec k "__proto__") as [-> | Hk]; cbn [andb negb].
  - rewrite andb_false_r, orb_false_r.
    destruct (has o "__proto__") eqn:E; cbn [negb]; [| reflexivity].
    rewrite has_setOwn.
    destruct (String.eqb_spec "__proto__" k2) as [<- | _]; [| reflexivity].
    rewrite E. reflexivity.
  - rewrite has_setOwn, andb_true_r. apply orb_comm.
Qed.

Lemma filled_set :
  forall (o : object) (k : string) (v : value),
    filled o -> is_nullish v = false -> filled (set o k v).
Proof.
  intros o k v Ho Hv. unfold set.
  destruct ((k =? "__proto__") && negb (has o k)); [exact Ho |].
  intros k2 Hk2.
  destruct (String.eqb_spec k k2) as [<- | Hne].
  - rewrite get_setOwn_same. exact Hv.
  - rewrite get_setOwn_other by exact Hne. apply Ho.
    rewrite has_setOwn in Hk2. apply orb_true_iff in Hk2.
    destruct Hk2 as [Hk2 | Hk2]; [| exact Hk2].
    apply String.eqb_eq in Hk2. contradiction.
Qed.

End Objects.

Section Loader.

Import JS FileUpload.

Lemma cellOrBlank_not_nullish :
  forall v : value, is_nullish (cellOrBlank v) = false.
Proof. intros [| | b | x | s]; reflexivity. Qed.

Lemma cellOrBlank_missing :
  forall v : value, is_nullish v = true -> cellOrBlank v = Str "".
Proof. intros v H. unfold cellOrBlank. rewrite H. reflexivity. Qed.

(** What the loader stores for a cell is the cell, or the empty string
    for a missing one. *)
Lemma cellOrBlank_index :
  forall (row : array) (colIndex : nat),
    cellOrBlank (index row colIndex) = cellOf row colIndex.
Proof.
  intros row colIndex. unfold index, cellOf.
  destruct (nth_error row colIndex) as [[[| | b | x | s] |] |]; reflexivity.
Qed.

(** The filter of the loader keeps the rows that are not blank. *)
Lemma rowHasContent_blankRow :
  forall row : array, rowHasContent row = negb (blankRow row).
Proof.
  induction row as [| cell row IH]; [reflexivity |].
  unfold rowHasContent, blankRow in *. cbn [existsb forallb].
  rewrite IH, negb_andb. f_equal.
  destruct cell as [[| | b | x | [| c r]] |]; reflexivity.
Qed.

Lemma filter_rowHasContent :
  forall rows : list array,
    filter rowHasContent rows = filter (fun row => negb (blankRow row)) rows.
Proof. intro rows. apply filter_ext. exact rowHasContent_blankRow. Qed.

Lemma has_fillFrom :
  forall (headers : list (option string)) (colIndex : nat) (row : array)
         (obj : object) (h : string),
    has (fillFrom colIndex headers row obj) h = true <->
    has obj h = true \/ (In (Some h) headers /\ h <> "__proto__").
Proof.
  induction headers as [| [h0 |] rest IH]; intros colIndex row obj h; simpl.
  - tauto.
  - rewrite IH, has_set, orb_true_iff, andb_true_iff, negb_true_iff,
      String.eqb_eq, String.eqb_neq.
    split.
    + intros [[H | [-> H]] | [H1 H2]]; auto.
    + intros [H | [[H | H] H2]]; auto.
      injection H as ->. auto.
  - rewrite IH. split.
    + intros [H | [H1 H2]]; auto.
    + intros [H | [[H | H] H2]]; auto. discriminate.
Qed.

Lemma filled_fillFrom :
  forall (headers : list (option string)) (colIndex : nat) (row : array)
         (obj : object),
    filled obj -> filled (fillFrom colIndex headers row obj).
Proof.
  induction headers as [| [h0 |] rest IH]; intros colIndex row obj Hobj; simpl.
  - exact Hobj.
  - apply IH. apply filled_set; [exact Hobj | apply cellOrBlank_not_nullish].
  - apply IH. exact Hobj.
Qed.

Lemma get_fillFrom_absent :
  forall (headers : list (option string)) (colIndex : nat) (row : array)
         (obj : object) (h : string),
    ~ In (Some h) headers ->
    get (fillFrom colIndex headers row obj) h = get obj h.
Proof.
  induction headers as [| [h0 |] rest IH]; intros colIndex row obj h Hnot; simpl.
  - reflexivity.
  - rewrite IH by (intro H; apply Hnot; right; exact H).
    apply get_set_other. intros ->. apply Hnot. left. reflexivity.
  - apply IH. intro H. apply Hnot. right. exact H.
Qed.

(** The value under a header name comes from the last column carrying
    that name. *)
Lemma get_fillFrom_last :
  forall (headers : list (option string)) (colIndex j : nat) (row : array)
         (obj : object) (h : string),
    h <> "__proto__" ->
    nth_error headers j = Some (Some h) ->
    (forall j', (j < j')%nat -> nth_error headers j' <> Some (Some h)) ->
    get (fillFrom colIndex headers row obj) h
    = cellOrBlank (index row (colIndex + j)).
Proof.
  induction headers as [| h0 rest IH]; intros colIndex j row obj h Hh Hj Hlast.
  - destruct j; discriminate.
  - destruct j as [| j].
    + simpl in Hj. injection Hj as ->. simpl.
      rewrite get_fillFrom_absent.
      * rewrite get_set_same by exact Hh. rewrite Nat.add_0_r. reflexivity.
      * intro Hin. apply In_nth_error in Hin. destruct Hin as (n & Hn).
        apply (Hlast (S n)); [lia | exact Hn].
    + simpl in Hj.
      assert (Hlast' : forall j', (j < j')%nat ->
                                  nth_error rest j' <> Some (Some h)).
      { intros j' Hlt. apply (Hlast (S j')). lia. }
      replace (colIndex + S j)%nat with (S colIndex + j)%nat by lia.
      destruct h0 as [h0 |]; simpl;
        exact (IH (S colIndex) j row _ h Hh Hj Hlast').
Qed.

Lemma filter_partition_length :
  forall (A : Type) (p : A -> bool) (l : list A),
    (List.length (filter p l) + List.length (filter (fun a => negb (p a)) l)
     = List.length l)%nat.
Proof.
  intros A p l. induction l as [| a l IH]; simpl.
  - reflexivity.
  - destruct (p a); simpl; lia.
Qed.

(** A record: its keys and its values, cell by cell. *)
Lemma makeRecord_cells :
  forall (headers : list (option string)) (row : array),
    (forall h, In (Some h) headers -> h <> "__proto__" ->
       has (makeRecord headers row) h = true /\
       is_nullish (get (makeRecord headers row) h) = false) /\
    (forall j h, nth_error headers j = Some (Some h) -> h <> "__proto__" ->
       (forall j', (j < j')%nat -> nth_error headers j' <> Some (Some h)) ->
       get (makeRecord headers row) h = cellOf row j) /\
    has (makeRecord headers row) "__proto__" = false.
Proof.
  intros headers row. unfold makeRecord. split; [| split].
  - intros h Hin Hh.
    assert (Hhas : has (fillFrom 0 headers row []) h = true).
    { apply has_fillFrom. right. split; assumption. }
    split; [exact Hhas |].
    apply (filled_fillFrom headers 0 row []); [| exact Hhas].
    intros k Hk. discriminate Hk.
  - intros j h Hj Hh Hlast.
    rewrite (get_fillFrom_last headers 0 j row [] h Hh Hj Hlast).
    apply cellOrBlank_index.
  - apply not_true_is_false. intro H. apply has_fillFrom in H.
    destruct H as [H | [_ H]]; [discriminate H | apply H; reflexivity].
Qed.

(** The loader on a first sheet with a header row: an error when every
    row after the header is blank, and otherwise one record for each row
    that is not blank, in sheet order. *)
Lemma load_first_sheet :
  forall (name : string) (firstRow : array) (rows : list array)
         (others : list (string * worksheet)),
    let kept := filter (fun row => negb (blankRow row)) rows in
    (kept = [] ->
     load (Readable (workbook_of ((name, firstRow :: rows) :: others)))
     = inl (ErrorObject "No valid data rows found in the file")) /\
    (kept <> [] ->
     load (Readable (workbook_of ((name, firstRow :: rows) :: others)))
     = inr (map (makeRecord (makeHeaders firstRow)) kept)).
Proof.
  intros name firstRow rows others kept.
  unfold load, workbook_of, worksheetName. cbn [SheetNames Sheets map fst].
  cbn [sheet_named]. rewrite String.eqb_refl. cbn [sheet_to_json slice1 tl].
  unfold toRecords. rewrite filter_rowHasContent. fold kept.
  split.
  - intros ->. reflexivity.
  - intro H. destruct kept; [contradiction | reflexivity].
Qed.

End Loader.

(** The rows the loader drops are those all of whose cells are empty. *)
Lemma blankRow_spec :
  forall row : FileUpload.array,
    blankRow row = true <-> Forall emptyCell row.
Proof.
  intro row. unfold blankRow. rewrite forallb_forall, Forall_forall.
  split; intros H cell Hin; specialize (H cell Hin).
  - unfold emptyCell. destruct cell as [[| | b | x | [| c r]] |];
      try discriminate H; tauto.
  - destruct H as [-> | [-> | [-> | ->]]]; reflexivity.
Qed.

(** X25.  Row accounting of the tabular loader.  For a file whose first sheet
    has a header row followed by [rows], of which at least one is not
    blank (a row is blank when each of its cells is absent, [undefined],
    [null] or the empty string), the loader returns the records; their
    number is the number of rows of the sheet, less the header row, less
    the blank rows after it; the record at position [i] is made from the
    [i]-th row that is not blank; it has every header name other than
    [__proto__] as a key, holding neither [undefined] nor [null], it has no
    key [__proto__], and under a header name it holds the cell of the
    (last) column of that name, the empty string when that cell is
    missing.  When every row after the header is blank the loader fails. *)
Theorem loader_row_accounting :
  forall (name : string) (firstRow : FileUpload.array)
         (rows : list FileUpload.array)
         (others : list (string * FileUpload.worksheet)),
    let file := FileUpload.Readable
                  (workbook_of ((name, firstRow :: rows) :: others)) in
    let headers := FileUpload.makeHeaders firstRow in
    let kept := filter (fun row => negb (blankRow row)) rows in
    (kept = [] ->
     FileUpload.load file
     = inl (FileUpload.ErrorObject "No valid data rows found in the file")) /\
    (kept <> [] ->
     exists data : list JS.object,
       FileUpload.load file = inr data /\
       (List.length data + 1 + List.length (filter blankRow rows)
        = List.length (firstRow :: rows))%nat /\
       List.length data
       = (List.length (firstRow :: rows) - 1
          - List.length (filter blankRow rows))%nat /\
       List.length data = List.length kept /\
       forall (i : nat) (row : FileUpload.array),
         nth_error kept i = Some row ->
         exists record : JS.object,
           nth_error data i = Some record /\
           JS.has record "__proto__" = false /\
           (forall h, In (Some h) headers -> h <> "__proto__" ->
              JS.has record h = true /\
              JS.is_nullish (JS.get record h) = false) /\
           (forall j h,
              nth_error headers j = Some (Some h) -> h <> "__proto__" ->
              (forall j', (j < j')%nat -> nth_error headers j' <> Some (Some h)) ->
              JS.get record h = cellOf row j)).
Proof.
  intros name firstRow rows others file headers kept.
  destruct (load_first_sheet name firstRow rows others) as [Hnone Hsome].
  fold kept in Hnone, Hsome. split; [exact Hnone |].
  intro Hne. exists (map (FileUpload.makeRecord headers) kept).
  split; [exact (Hsome Hne) |].
  assert (Hcount : (List.length kept + List.length (filter blankRow rows)
                    = List.length rows)%nat).
  { pose proof (filter_partition_length _ blankRow rows) as P.
    unfold kept. lia. }
  rewrite length_map. cbn [List.length].
  split; [lia |]. split; [lia |]. split; [reflexivity |].
  intros i row Hrow. exists (FileUpload.makeRecord headers row).
  split; [apply nth_error_map_some; exact Hrow |].
  destruct (makeRecord_cells headers row) as (Hkeys & Hcells & Hproto).
  split; [exact Hproto |]. split; assumption.
Qed.

(** Header cells: text is trimmed, numbers are printed, an empty header
    gets a placeholder with its position, and a header cell that is absent
    from the sheet (a hole) gives no column. *)
Example makeHeaders_example :
  FileUpload.makeHeaders
    [Some (JS.Str " Product "); Some (JS.Str ""); None; Some (JS.Num 2024%float);
     Some JS.Null]
  = [Some "Product"; Some "Column_2"; None; Some "2024"; Some "Column_5"].
Proof. vm_compute. reflexivity. Qed.

(** The two-sheet file: four rows in the first sheet, one of them the
    header and one blank, give two records. *)
Example sales_workbook_records :
  FileUpload.load (FileUpload.Readable sales_workbook)
  = inr [[("Product", JS.Str "Laptops"); ("Q1", JS.Num 120%float)];
         [("Product", JS.Str "Tablets"); ("Q1", JS.Str "")]].
Proof. vm_compute. reflexivity. Qed.

(** C5 at a sheet with a column headed [__proto__].  The header row gives
    the two column names [__proto__] and [Q1], and the data row has a cell
    in both columns.  The record made from it has the key [Q1] only: the
    assignment [obj['__proto__'] = 'Laptops'] makes no property, so the
    record lacks a column key, and the preview shows one column where the
    sheet has two. *)
Theorem proto_header_column_is_lost :
  FileUpload.makeHeaders [Some (JS.Str "__proto__"); Some (JS.Str "Q1")]
  = [Some "__proto__"; Some "Q1"] /\
  blankRow [Some (JS.Str "Laptops"); Some (JS.Num 120%float)] = false /\
  FileUpload.load proto_file = inr [[("Q1", JS.Num 120%float)]] /\
  JS.has [("Q1", JS.Num 120%float)] "__proto__" = false /\
  DataPreview.columns [[("Q1", JS.Num 120%float)]] = ["Q1"].
Proof. repeat split; vm_compute; reflexivity. Qed.

(* ================================================================== *)
(** * Properties of error handling *)
(* ================================================================== *)







(** The scenario of the specification: dropping a file that has only a
    header row leaves the application in the upload step, with the error
    notice set, and dropping the empty file does the same. *)
Example header_only_scenario :
  Session.run [Session.Drop header_only_file; Session.Settle] Session.initial
  = {| Session.app := App.initial;
       Session.fileUpload :=
         Some {| FileUpload.isProcessing := false;
                 FileUpload.error := Some "No valid data rows found in the file";
                 FileUpload.success := None |};
       Session.inFlight := None |} /\
  Session.run [Session.Drop empty_file; Session.Settle] Session.initial
  = {| Session.app := App.initial;
       Session.fileUpload :=
         Some {| FileUpload.isProcessing := false;
                 FileUpload.error := Some "The file appears to be empty";
                 FileUpload.success := None |};
       Session.inFlight := None |}.
Proof. split; vm_compute; reflexivity. Qed.

(* ================================================================== *)
(** * Only the first worksheet is read *)
(* ================================================================== *)

Lemma rowsRead_first_sheet :
  forall (name : string) (ws : FileUpload.worksheet)
         (others : list (string * FileUpload.worksheet)),
    rowsRead (workbook_of ((name, ws) :: others)) = ws.
Proof.
  intros name ws others. unfold rowsRead, workbook_of. simpl.
  rewrite String.eqb_refl. reflexivity.
Qed.

Lemma load_ignores_other_sheets :
  forall (name : string) (ws : FileUpload.worksheet)
         (others others' : list (string * FileUpload.worksheet)),
    FileUpload.load (FileUpload.Readable (workbook_of ((name, ws) :: others)))
    = FileUpload.load (FileUpload.Readable (workbook_of ((name, ws) :: others'))).
Proof.
  intros name ws others others'. unfold FileUpload.load.
  change (FileUpload.sheet_to_json
            (FileUpload.sheet_named
               (FileUpload.Sheets (workbook_of ((name, ws) :: others)))
               (FileUpload.worksheetName (workbook_of ((name, ws) :: others)))))
    with (rowsRead (workbook_of ((name, ws) :: others))).
  change (FileUpload.sheet_to_json
            (FileUpload.sheet_named
               (FileUpload.Sheets (workbook_of ((name, ws) :: others')))
               (FileUpload.worksheetName (workbook_of ((name, ws) :: others')))))
    with (rowsRead (workbook_of ((name, ws) :: others'))).
  rewrite !rowsRead_first_sheet. reflexivity.
Qed.

(** C10.  Only the first worksheet contributes row records.  For a file
    whose first sheet is [(name, ws)], the loader and [processFile] give
    the same result whatever sheets follow, and that result is made from
    the first sheet: without a row the load fails as empty, with nothing
    but blank rows after the header it fails for want of data rows, and
    otherwise it succeeds with one record for each row of the first sheet
    that is not blank, in sheet order, whose values are the cells of that
    row under the names of the header row of the first sheet. *)
Theorem only_first_worksheet_is_read :
  forall (name : string) (ws : FileUpload.worksheet)
         (others others' : list (string * FileUpload.worksheet))
         (fu : FileUpload.State),
    let file := FileUpload.Readable (workbook_of ((name, ws) :: others)) in
    FileUpload.load file
    = FileUpload.load (FileUpload.Readable (workbook_of ((name, ws) :: others'))) /\
    FileUpload.processFile file fu
    = FileUpload.processFile
        (FileUpload.Readable (workbook_of ((name, ws) :: others'))) fu /\
    (ws = [] ->
     FileUpload.load file
     = inl (FileUpload.ErrorObject "The file appears to be empty")) /\
    (forall (firstRow : FileUpload.array) (rows : list FileUpload.array),
       ws = firstRow :: rows ->
       let kept := filter (fun row => negb (blankRow row)) rows in
       (kept = [] ->
        FileUpload.load file
        = inl (FileUpload.ErrorObject "No valid data rows found in the file")) /\
       (kept <> [] ->
        exists data : list JS.object,
          FileUpload.load file = inr data /\
          snd (FileUpload.processFile file fu) = Some data /\
          List.length data = List.length kept /\
          forall (i : nat) (row : FileUpload.array),
            nth_error kept i = Some row ->
            exists record : JS.object,
              nth_error data i = Some record /\
              forall j h,
                nth_error (FileUpload.makeHeaders firstRow) j = Some (Some h) ->
                h <> "__proto__" ->
                (forall j', (j < j')%nat ->
                   nth_error (FileUpload.makeHeaders firstRow) j' <> Some (Some h)) ->
                JS.get record h = cellOf row j)).
Proof.
  intros name ws others others' fu file.
  assert (Hload : FileUpload.load file
                  = FileUpload.load
                      (FileUpload.Readable (workbook_of ((name, ws) :: others'))))
    by apply load_ignores_other_sheets.
  split; [exact Hload |]. split; [| split].
  - unfold FileUpload.processFile, FileUpload.processFile_settle.
    rewrite Hload. reflexivity.
  - intros ->. unfold file, FileUpload.load.
    change (FileUpload.sheet_to_json
              (FileUpload.sheet_named
                 (FileUpload.Sheets (workbook_of ((name, []) :: others)))
                 (FileUpload.worksheetName (workbook_of ((name, []) :: others)))))
      with (rowsRead (workbook_of ((name, []) :: others))).
    rewrite rowsRead_first_sheet. reflexivity.
  - intros firstRow rows -> kept.
    destruct (load_first_sheet name firstRow rows others) as [Hnone Hsome].
    fold kept in Hnone, Hsome. split; [exact Hnone |].
    intro Hne.
    assert (E : FileUpload.load file
                = inr (map (FileUpload.makeRecord (FileUpload.makeHeaders firstRow))
                         kept)) by exact (Hsome Hne).
    exists (map (FileUpload.makeRecord (FileUpload.makeHeaders firstRow)) kept).
    split; [exact E |]. split; [| split].
    + unfold FileUpload.processFile, FileUpload.processFile_settle.
      rewrite E. reflexivity.
    + apply length_map.
    + intros i row Hrow.
      exists (FileUpload.makeRecord (FileUpload.makeHeaders firstRow) row).
      split; [apply nth_error_map_some; exact Hrow |].
      exact (proj1 (proj2 (makeRecord_cells (FileUpload.makeHeaders firstRow) row))).
Qed.

(** The second sheet of the two-sheet file plays no part. *)
Example second_sheet_ignored :
  FileUpload.load (FileUpload.Readable sales_workbook)
  = FileUpload.load (FileUpload.Readable (workbook_of [("Sales", sales_sheet)])).
Proof. vm_compute. reflexivity. Qed.

(* ================================================================== *)
(** * The two notices of the upload component *)
(* ================================================================== *)

(** [processFile] clears both notices before it does anything else. *)
Lemma processFile_clears_first :
  forall st : FileUpload.State,
    FileUpload.error (FileUpload.processFile_begin st) = None /\
    FileUpload.success (FileUpload.processFile_begin st) = None.
Proof. intro st. split; reflexivity. Qed.

(** After [processFile] at most one notice is set, whatever was shown
    before. *)
Lemma processFile_one_notice :
  forall (file : FileUpload.File) (st : FileUpload.State),
    FileUpload.error (fst (FileUpload.processFile file st)) = None \/
    FileUpload.success (fst (FileUpload.processFile file st)) = None.
Proof.
  intros file st. unfold FileUpload.processFile, FileUpload.processFile_settle.
  destruct (FileUpload.load file); cbn; [right | left]; reflexivity.
Qed.

(** [loadSampleData] sets the success notice and leaves the error notice
    as it was. *)
Lemma loadSampleData_keeps_error :
  forall st : FileUpload.State,
    FileUpload.error (fst (FileUpload.loadSampleData st)) = FileUpload.error st /\
    FileUpload.success (fst (FileUpload.loadSampleData st))
    = Some "Sample data loaded successfully".
Proof. intro st. split; reflexivity. Qed.

(** C6 at a failed load followed by the sample button.  Dropping the empty
    file sets the error notice.  [loadSampleData] then sets the success
    notice without clearing anything: the state of the component holds
    both notices, and both would be rendered. *)
Theorem sample_load_keeps_error_notice :
  let failed := fst (FileUpload.processFile empty_file FileUpload.initial) in
  let after := fst (FileUpload.loadSampleData failed) in
  FileUpload.error failed = Some "The file appears to be empty" /\
  FileUpload.success failed = None /\
  FileUpload.error after = Some "The file appears to be empty" /\
  FileUpload.success after = Some "Sample data loaded successfully" /\
  FileUpload.shown (FileUpload.error after) = true /\
  FileUpload.shown (FileUpload.success after) = true.
Proof. cbv zeta. repeat split; vm_compute; reflexivity. Qed.






(* ================================================================== *)
(** * What the camera handlers clamp *)
(* ================================================================== *)

Section FloatOrder.









End FloatOrder.



(* ================================================================== *)
(** * More on the tabular loader *)
(* ================================================================== *)

Section Trimming.

Import JS.
Local Open Scope string_scope.

Lemma trimEnd_no_blank :
  forall s : string, no_blank s -> trimEnd s = s.
Proof.
  induction s as [| c s IH]; intro H; simpl.
  - reflexivity.
  - destruct H as [Hc Hs]. rewrite (IH Hs), Hc. destruct s; reflexivity.
Qed.

Lemma trimEnd_idempotent :
  forall s : string, trimEnd (trimEnd s) = trimEnd s.
Proof.
  induction s as [| c s IH]; simpl.
  - reflexivity.
  - destruct (trimEnd s) as [| c' s'] eqn:E.
    + destruct (isWhiteSpace c) eqn:W; simpl; [reflexivity | rewrite W; reflexivity].
    + simpl in IH |- *. rewrite IH. reflexivity.
Qed.

(** Trimming the end keeps the first character of a text that does not
    start with white space. *)
Lemma trimEnd_head :
  forall (c : ascii) (s : string),
    isWhiteSpace c = false -> exists s', trimEnd (String c s) = String c s'.
Proof.
  intros c s H. simpl. destruct (trimEnd s).
  - rewrite H. eexists. reflexivity.
  - eexists. reflexivity.
Qed.

Lemma trimStart_fixed :
  forall (c : ascii) (s : string),
    isWhiteSpace c = false -> trimStart (String c s) = String c s.
Proof. intros c s H. simpl. rewrite H. reflexivity. Qed.

Lemma trim_idempotent :
  forall s : string, trim (trim s) = trim s.
Proof.
  intro s. unfold trim.
  destruct (trimStart s) as [| c r] eqn:E.
  - reflexivity.
  - pose proof (trimStart_head s c r E) as Hc.
    destruct (trimEnd_head c r Hc) as (r' & Hr). rewrite Hr.
    rewrite (trimStart_fixed c r' Hc), <- Hr. apply trimEnd_idempotent.
Qed.

Lemma no_blank_digits :
  forall d : Decimal.uint, no_blank (NilEmpty.string_of_uint d).
Proof. induction d; simpl; auto. Qed.

Lemma no_blank_string_of_Z : forall z : Z, no_blank (string_of_Z z).
Proof.
  intro z. unfold string_of_Z, NilZero.string_of_uint.
  destruct (N.to_uint (Z.to_N z)) eqn:E; try (rewrite <- E; apply no_blank_digits);
    simpl; auto.
Qed.

Lemma no_blank_app :
  forall a b : string, no_blank a -> no_blank b -> no_blank (a ++ b).
Proof.
  induction a as [| c a IH]; intros b Ha Hb; simpl.
  - exact Hb.
  - destruct Ha as [Hc Ha]. split; [exact Hc | apply IH; assumption].
Qed.

Lemma trim_no_blank : forall s : string, no_blank s -> trim s = s.
Proof.
  intros s H. unfold trim. destruct s as [| c s].
  - reflexivity.
  - destruct H as [Hc Hs]. rewrite (trimStart_fixed c s Hc).
    apply trimEnd_no_blank. split; assumption.
Qed.

Lemma string_of_Z_inj :
  forall a b : Z, (0 < a)%Z -> (0 < b)%Z -> string_of_Z a = string_of_Z b -> a = b.
Proof.
  intros a b Ha Hb H. unfold string_of_Z in H.
  destruct a as [| pa |]; try lia. destruct b as [| pb |]; try lia.
  simpl in H.
  assert (Hua : Pos.to_uint pa <> Decimal.Nil) by apply DecimalPos.Unsigned.to_uint_nonnil.
  assert (Hub : Pos.to_uint pb <> Decimal.Nil) by apply DecimalPos.Unsigned.to_uint_nonnil.
  pose proof (NilZero.usu _ Hua) as Ea. pose proof (NilZero.usu _ Hub) as Eb.
  rewrite H in Ea. rewrite Ea in Eb. injection Eb as Eb.
  apply DecimalPos.Unsigned.to_uint_inj in Eb. congruence.
Qed.

End Trimming.

Section Headers.

Import JS FileUpload.

Lemma headerName_trimmed :
  forall (header : value) (index : nat),
    trim (headerName header index) = headerName header index.
Proof.
  intros header index. unfold headerName.
  destruct (is_nullish header || is_empty_string header).
  - apply trim_no_blank.
    apply (no_blank_app "Column_"); [simpl; tauto | apply no_blank_string_of_Z].
  - apply trim_idempotent.
Qed.

Lemma makeHeadersFrom_nth :
  forall (firstRow : array) (start i : nat),
    nth_error (makeHeadersFrom start firstRow) i
    = match nth_error firstRow i with
      | Some (Some header) => Some (Some (headerName header (start + i)))
      | Some None => Some None
      | None => None
      end.
Proof.
  induction firstRow as [| cell rest IH]; intros start i.
  - destruct i; reflexivity.
  - destruct i as [| i].
    + destruct cell; simpl; rewrite ?Nat.add_0_r; reflexivity.
    + destruct cell; simpl; rewrite IH; replace (S start + i)%nat with (start + S i)%nat by lia;
        reflexivity.
Qed.

Lemma makeHeadersFrom_length :
  forall (firstRow : array) (start : nat),
    List.length (makeHeadersFrom start firstRow) = List.length firstRow.
Proof.
  induction firstRow as [| [cell |] rest IH]; intro start; simpl; auto.
Qed.

End Headers.

(** X1.  Header names.  There is one header per cell of the first row, at
    the same position, and a hole stays a hole.  Every name is trimmed: it
    has no white space at either end.  An empty header cell ([undefined],
    [null] or the empty string) is named [Column_n] after its position [n]
    counted from 1, so two empty header cells never get the same name. *)
Theorem header_names :
  forall firstRow : FileUpload.array,
    let headers := FileUpload.makeHeaders firstRow in
    List.length headers = List.length firstRow /\
    (forall i, nth_error headers i = Some None <-> nth_error firstRow i = Some None) /\
    (forall i h, nth_error headers i = Some (Some h) -> JS.trim h = h) /\
    (forall i cell, nth_error firstRow i = Some (Some cell) ->
       JS.is_nullish cell || JS.is_empty_string cell = true ->
       nth_error headers i
       = Some (Some ("Column_" ++ JS.string_of_Z (Z.of_nat (i + 1)))%string)) /\
    (forall i j ci cj,
       nth_error firstRow i = Some (Some ci) ->
       nth_error firstRow j = Some (Some cj) ->
       JS.is_nullish ci || JS.is_empty_string ci = true ->
       JS.is_nullish cj || JS.is_empty_string cj = true ->
       nth_error headers i = nth_error headers j -> i = j).
Proof.
  intros firstRow headers. unfold headers, FileUpload.makeHeaders.
  assert (Hempty : forall i cell, nth_error firstRow i = Some (Some cell) ->
       JS.is_nullish cell || JS.is_empty_string cell = true ->
       nth_error (FileUpload.makeHeadersFrom 0 firstRow) i
       = Some (Some ("Column_" ++ JS.string_of_Z (Z.of_nat (i + 1)))%string)).
  { intros i cell Hi Hc. rewrite makeHeadersFrom_nth, Hi.
    unfold FileUpload.headerName. rewrite Hc. reflexivity. }
  split; [apply makeHeadersFrom_length |]. split; [| split; [| split]].
  - intro i. rewrite makeHeadersFrom_nth.
    destruct (nth_error firstRow i) as [[cell |] |]; split; intro H;
      try discriminate H; reflexivity.
  - intros i h H. rewrite makeHeadersFrom_nth in H.
    destruct (nth_error firstRow i) as [[cell |] |]; try discriminate H.
    injection H as <-. apply headerName_trimmed.
  - exact Hempty.
  - intros i j ci cj Hi Hj Hci Hcj H.
    rewrite (Hempty i ci Hi Hci), (Hempty j cj Hj Hcj) in H.
    injection H as H. apply string_of_Z_inj in H; lia.
Qed.

Lemma header_names_witness :
  nth_error
    (FileUpload.makeHeaders
       [Some (JS.Str " Product "); Some (JS.Str ""); None; Some JS.Undefined]) 3
  = Some (Some "Column_4").
Proof.
  refine (proj1 (proj2 (proj2 (proj2 (header_names
            [Some (JS.Str " Product "); Some (JS.Str ""); None; Some JS.Undefined]))))
          3%nat JS.Undefined _ _); reflexivity.
Defined.

Section RecordKeys.

Import JS FileUpload.

Lemma has_In_names :
  forall (o : object) (k : string), has o k = true <-> In k (map fst o).
Proof.
  induction o as [| [k' v] o IH]; intro k; simpl.
  - split; [discriminate | contradiction].
  - rewrite orb_true_iff, IH, String.eqb_eq. reflexivity.
Qed.

Lemma names_setOwn :
  forall (o : object) (k : string) (v : value),
    map fst (setOwn o k v) = if has o k then map fst o else map fst o ++ [k].
Proof.
  induction o as [| [k' v'] o IH]; intros k v; simpl.
  - reflexivity.
  - destruct (k' =? k) eqn:E; simpl.
    + reflexivity.
    + rewrite IH. destruct (has o k); reflexivity.
Qed.

Lemma names_set :
  forall (o : object) (k : string) (v : value),
    map fst (set o k v)
    = if has o k || (k =? "__proto__") then map fst o else map fst o ++ [k].
Proof.
  intros o k v. unfold set. rewrite <- (negb_involutive (has o k)) at 2.
  destruct (k =? "__proto__"), (has o k) eqn:E; cbn [andb orb negb];
    try reflexivity; rewrite names_setOwn, E; reflexivity.
Qed.

Lemma has_same_names :
  forall (o o' : object) (k : string),
    map fst o = map fst o' -> has o k = has o' k.
Proof.
  intros o o' k H.
  destruct (has o k) eqn:E, (has o' k) eqn:E'; try reflexivity.
  - apply has_In_names in E. rewrite H in E. apply has_In_names in E. congruence.
  - apply has_In_names in E'. rewrite <- H in E'. apply has_In_names in E'. congruence.
Qed.

Lemma names_fillFrom_same :
  forall (headers : list (option string)) (i j : nat) (row row' : array)
         (obj obj' : object),
    map fst obj = map fst obj' ->
    map fst (fillFrom i headers row obj) = map fst (fillFrom j headers row' obj').
Proof.
  induction headers as [| [h |] rest IH]; intros i j row row' obj obj' H; simpl.
  - exact H.
  - apply IH. rewrite !names_set, (has_same_names obj obj' h H), H. reflexivity.
  - apply IH. exact H.
Qed.

Lemma NoDup_names_set :
  forall (o : object) (k : string) (v : value),
    NoDup (map fst o) -> NoDup (map fst (set o k v)).
Proof.
  intros o k v H. rewrite names_set.
  destruct (has o k) eqn:E; cbn [orb]; [exact H |].
  destruct (k =? "__proto__"); [exact H |].
  apply NoDup_app; [exact H | repeat constructor; intros [] | ].
  intros x Hx [<- | []]. apply has_In_names in Hx. congruence.
Qed.

Lemma NoDup_names_fillFrom :
  forall (headers : list (option string)) (i : nat) (row : array) (obj : object),
    NoDup (map fst obj) -> NoDup (map fst (fillFrom i headers row obj)).
Proof.
  induction headers as [| [h |] rest IH]; intros i row obj H; simpl.
  - exact H.
  - apply IH. apply NoDup_names_set. exact H.
  - apply IH. exact H.
Qed.

(** An array index is the decimal form of its number. *)
Lemma arrayIndex_spec :
  forall (k : string) (n : Z), arrayIndex k = Some n -> string_of_Z n = k.
Proof.
  intros k n. unfold arrayIndex.
  destruct (decimalDigits 0 0 k) as ((m & count) & rest).
  destruct ((0 <? count)%Z && (rest =? "") && (string_of_Z m =? k)
            && (m <=? 4294967294)%Z) eqn:E; [| discriminate].
  intro H. injection H as <-.
  apply andb_true_iff in E. destruct E as [E _].
  apply andb_true_iff in E. destruct E as [_ E].
  apply String.eqb_eq. exact E.
Qed.

Lemma insertIndex_permutation :
  forall (n : Z) (l : list Z), Permutation (insertIndex n l) (n :: l).
Proof.
  intros n l. induction l as [| m l IH]; simpl.
  - apply Permutation_refl.
  - destruct (n <=? m)%Z; [apply Permutation_refl |].
    eapply perm_trans; [apply perm_skip; exact IH | apply perm_swap].
Qed.

Lemma sortIndices_permutation :
  forall l : list Z, Permutation (sortIndices l) l.
Proof.
  induction l as [| n l IH]; simpl.
  - constructor.
  - eapply perm_trans; [apply insertIndex_permutation |].
    apply perm_skip. exact IH.
Qed.

Lemma filter_both_permutation :
  forall (A : Type) (p : A -> bool) (l : list A),
    Permutation (filter p l ++ filter (fun a => negb (p a)) l) l.
Proof.
  intros A p l. induction l as [| a l IH]; simpl.
  - constructor.
  - destruct (p a); simpl.
    + constructor. exact IH.
    + apply Permutation_sym, Permutation_cons_app, Permutation_sym. exact IH.
Qed.

(** [Object.keys] lists every own key once, whatever the order. *)
Lemma ownKeysOrder_permutation :
  forall names : list string, Permutation (ownKeysOrder names) names.
Proof.
  intro names. unfold ownKeysOrder.
  set (isIndex := fun k : string =>
                    match arrayIndex k with Some _ => true | None => false end).
  assert (Hidx : map string_of_Z
                   (flat_map (fun k => match arrayIndex k with
                                       | Some n => [n]
                                       | None => []
                                       end) names)
                 = filter isIndex names).
  { induction names as [| k names IH]; [reflexivity |].
    cbn [flat_map filter]. rewrite map_app, IH. unfold isIndex at 2.
    destruct (arrayIndex k) as [n |] eqn:E; [| reflexivity].
    cbn [map app]. rewrite (arrayIndex_spec k n E). reflexivity. }
  eapply perm_trans; [| apply (filter_both_permutation _ isIndex names)].
  apply Permutation_app.
  - rewrite <- Hidx. apply Permutation_map. apply sortIndices_permutation.
  - erewrite filter_ext; [apply Permutation_refl |].
    intro k. unfold isIndex. destruct (arrayIndex k); reflexivity.
Qed.

Lemma keys_In :
  forall (o : object) (k : string), In k (keys o) <-> has o k = true.
Proof.
  intros o k. rewrite has_In_names. unfold keys.
  split; apply Permutation_in;
    [| apply Permutation_sym]; apply ownKeysOrder_permutation.
Qed.

Lemma keys_NoDup :
  forall o : object, NoDup (map fst o) -> NoDup (keys o).
Proof.
  intros o H. unfold keys.
  apply (Permutation_NoDup (Permutation_sym (ownKeysOrder_permutation _)) H).
Qed.

End RecordKeys.

(** X2.  All records of one load have the same columns.  The keys of a
    record are the header names other than [__proto__], each once, and
    they are the same list, in the same order, for every record; so the
    columns the preview reads off the first record are the columns of
    all. *)
Theorem loader_records_share_columns :
  forall (firstRow : FileUpload.array) (rows : list FileUpload.array)
         (record : JS.object),
    In record (FileUpload.toRecords firstRow rows) ->
    NoDup (JS.keys record) /\
    (forall h, In h (JS.keys record) <->
               In (Some h) (FileUpload.makeHeaders firstRow) /\ h <> "__proto__") /\
    JS.keys record = DataPreview.columns (FileUpload.toRecords firstRow rows).
Proof.
  intros firstRow rows record Hin.
  unfold FileUpload.toRecords in *.
  apply in_map_iff in Hin. destruct Hin as (row & <- & Hrow).
  split; [| split].
  - apply keys_NoDup. apply NoDup_names_fillFrom. constructor.
  - intro h. rewrite keys_In. unfold FileUpload.makeRecord.
    rewrite has_fillFrom. simpl.
    split; [intros [H | H]; [discriminate | exact H] | auto].
  - destruct (filter FileUpload.rowHasContent rows) as [| row0 others].
    + destruct Hrow.
    + simpl. unfold JS.keys. f_equal. apply names_fillFrom_same. reflexivity.
Qed.

Lemma loader_records_share_columns_witness :
  In [("Product", JS.Str "Tablets"); ("Q1", JS.Str "")]
     (FileUpload.toRecords
        [Some (JS.Str "Product"); Some (JS.Str "Q1")]
        [[Some (JS.Str "Laptops"); Some (JS.Num 120%float)]; [];
         [Some (JS.Str "Tablets")]]) /\
  JS.keys [("Product", JS.Str "Tablets"); ("Q1", JS.Str "")]
  = DataPreview.columns
      (FileUpload.toRecords
        [Some (JS.Str "Product"); Some (JS.Str "Q1")]
        [[Some (JS.Str "Laptops"); Some (JS.Num 120%float)]; [];
         [Some (JS.Str "Tablets")]]).
Proof.
  assert (H : In [("Product", JS.Str "Tablets"); ("Q1", JS.Str "")]
     (FileUpload.toRecords
        [Some (JS.Str "Product"); Some (JS.Str "Q1")]
        [[Some (JS.Str "Laptops"); Some (JS.Num 120%float)]; [];
         [Some (JS.Str "Tablets")]])) by (right; left; reflexivity).
  split; [exact H |].
  exact (proj2 (proj2 (loader_records_share_columns _ _ _ H))).
Defined.

(** X3.  A successful load.  When [processFile] hands rows to the
    application, the loader did not fail, the rows are the loader's records
    and there is at least one; the success notice names their number, the
    error notice is empty and the component is no longer processing. *)
Theorem load_success_notice :
  forall (file : FileUpload.File) (st : FileUpload.State) (data : list JS.object),
    snd (FileUpload.processFile file st) = Some data ->
    FileUpload.load file = inr data /\
    data <> [] /\
    FileUpload.success (fst (FileUpload.processFile file st))
    = Some ("Successfully loaded "
              ++ JS.string_of_Z (Z.of_nat (List.length data))
              ++ " rows of data")%string /\
    FileUpload.shown (FileUpload.success (fst (FileUpload.processFile file st))) = true /\
    FileUpload.error (fst (FileUpload.processFile file st)) = None /\
    FileUpload.isProcessing (fst (FileUpload.processFile file st)) = false.
Proof.
  intros file st data H.
  unfold FileUpload.processFile, FileUpload.processFile_settle in *.
  destruct (FileUpload.load file) as [err | rows] eqn:L; cbn in H; [discriminate |].
  injection H as ->. cbn.
  split; [reflexivity |]. split.
  - destruct file as [e | wb]; cbn in L; [discriminate |].
    destruct (FileUpload.sheet_to_json _) as [| firstRow rest]; [discriminate |].
    destruct (FileUpload.toRecords _ _); [discriminate |].
    injection L as <-. discriminate.
  - repeat split.
Qed.

Lemma load_success_notice_witness :
  snd (FileUpload.processFile (FileUpload.Readable sales_workbook) FileUpload.initial)
  <> None /\
  FileUpload.success
    (fst (FileUpload.processFile (FileUpload.Readable sales_workbook) FileUpload.initial))
  = Some "Successfully loaded 2 rows of data".
Proof.
  split; [vm_compute; discriminate |].
  destruct (snd (FileUpload.processFile (FileUpload.Readable sales_workbook)
                   FileUpload.initial)) as [data |] eqn:E.
  - destruct (load_success_notice _ _ _ E) as (_ & _ & H & _).
    rewrite H. vm_compute in E. injection E as <-. vm_compute. reflexivity.
  - vm_compute in E. discriminate E.
Defined.

(* ================================================================== *)
(** * More on the column classifier and the preview *)
(* ================================================================== *)

Section ClassifierFacts.

Import JS.
Local Open Scope string_scope.

Lemma trimStart_of_blank :
  forall s : string, trim s = "" -> trimStart s = "".
Proof.
  intros s H. unfold trim in H. destruct (trimStart s) as [| c r] eqn:E.
  - reflexivity.
  - pose proof (trimStart_head s c r E) as Hc. simpl in H.
    destruct (trimEnd r); [rewrite Hc in H |]; discriminate H.
Qed.

Lemma notANumber_parseFloat :
  forall v : value, notANumber v -> is_nan (parseFloat v) = true.
Proof.
  intros v [-> | [-> | [[b ->] | (s & -> & Hs)]]]; try reflexivity.
  - destruct b; reflexivity.
  - simpl. unfold parseFloat_string. rewrite (trimStart_of_blank s Hs). reflexivity.
Qed.

Lemma finite_number_cell :
  forall x : number,
    is_finite x = true ->
    negb (isNaN (Num (parseFloat (Num x)))) && isFinite (Num x) = true.
Proof.
  intros x Hf. unfold isNaN, isFinite. cbn [ToNumber parseFloat]. rewrite Hf.
  rewrite andb_true_r. destruct (is_zero x); [reflexivity |].
  unfold is_finite in Hf. apply negb_true_iff in Hf.
  apply orb_false_iff in Hf. destruct Hf as [-> _]. reflexivity.
Qed.

(** When the whole text is a decimal literal, [parseFloat] and [Number]
    read the same value from it. *)
Lemma whole_decimal_same_value :
  forall s : string,
    is_finite (StringToNumber s) = true ->
    trim s <> "" ->
    nonDecimalIntegerLiteral (trim s) = None ->
    parseFloat_string s = StringToNumber s.
Proof.
  intros s Hfin Hne Hnd. unfold parseFloat_string, StringToNumber, trim in *.
  destruct (trimEnd_split (trimStart s)) as (w & Hu & Hw).
  destruct (trimEnd (trimStart s)) as [| c t'] eqn:Ht; [contradiction |].
  rewrite Hnd in *.
  rewrite Hu, (strDecimalLiteral_app (String c t') w Hw).
  destruct (strDecimalLiteral (String c t')) as [[y r] |].
  - destruct r; [reflexivity | discriminate Hfin].
  - discriminate Hfin.
Qed.

End ClassifierFacts.

(** X4.  Which cells can make a column numeric.  A column that holds a
    finite number cell in some row is numeric.  A column in which every row
    holds [undefined], [null], a boolean or an empty or white-space-only
    text is a text column; in particular a column whose cells were all
    missing and filled with the empty string is text. *)
Theorem numeric_needs_a_number :
  forall (data : list JS.object) (col : string),
    In col (DataPreview.columns data) ->
    ((exists row x, In row data /\ JS.get row col = JS.Num x /\ is_finite x = true) ->
     In col (DataPreview.numericColumns data)) /\
    ((forall row, In row data -> notANumber (JS.get row col)) ->
     In col (DataPreview.stringColumns data)).
Proof.
  intros data col Hcol. split.
  - intros (row & x & Hin & Hget & Hfin). apply numericColumns_In.
    split; [exact Hcol |]. exists row. split; [exact Hin |].
    unfold DataPreview.numericCell. rewrite Hget. apply finite_number_cell. exact Hfin.
  - intro Hall. apply stringColumns_In. split; [exact Hcol |].
    intro Hnum. apply numericColumns_In in Hnum.
    destruct Hnum as (_ & row & Hin & Hcell).
    unfold DataPreview.numericCell, JS.isNaN in Hcell. cbn [JS.ToNumber] in Hcell.
    rewrite (notANumber_parseFloat _ (Hall row Hin)) in Hcell. discriminate Hcell.
Qed.

Lemma numeric_needs_a_number_witness :
  In "Q1" (DataPreview.columns FileUpload.sampleData) /\
  In "Q1" (DataPreview.numericColumns FileUpload.sampleData).
Proof.
  assert (Hcol : In "Q1" (DataPreview.columns FileUpload.sampleData))
    by (right; left; reflexivity).
  split; [exact Hcol |].
  apply (proj1 (numeric_needs_a_number FileUpload.sampleData "Q1" Hcol)).
  exists (FileUpload.sampleRow "Laptops" 120 135 148 162)%float, 120%float.
  split; [left; reflexivity | split; reflexivity].
Defined.

(** X5.  Rows that arrive later never take a numeric column away: with the
    same first row, a column that is numeric stays numeric when rows are
    appended, and a column that is text after the rows were appended was
    text before. *)
Theorem classification_monotone :
  forall (data extra : list JS.object) (col : string),
    data <> [] ->
    DataPreview.columns (data ++ extra) = DataPreview.columns data /\
    (In col (DataPreview.numericColumns data) ->
     In col (DataPreview.numericColumns (data ++ extra))) /\
    (In col (DataPreview.stringColumns (data ++ extra)) ->
     In col (DataPreview.stringColumns data)).
Proof.
  intros data extra col Hne.
  assert (Hcols : DataPreview.columns (data ++ extra) = DataPreview.columns data).
  { destruct data; [contradiction | reflexivity]. }
  assert (Hnum : In col (DataPreview.numericColumns data) ->
                 In col (DataPreview.numericColumns (data ++ extra))).
  { intro H. apply numericColumns_In in H. destruct H as (Hc & row & Hin & Hcell).
    apply numericColumns_In. rewrite Hcols. split; [exact Hc |].
    exists row. split; [apply in_or_app; left; exact Hin | exact Hcell]. }
  split; [exact Hcols |]. split; [exact Hnum |].
  intro H. apply stringColumns_In in H. destruct H as (Hc & Hn).
  apply stringColumns_In. rewrite Hcols in Hc. split; [exact Hc |].
  intro Hn'. exact (Hn (Hnum Hn')).
Qed.

Lemma classification_monotone_witness :
  FileUpload.sampleData <> [] /\
  In "Q1" (DataPreview.numericColumns
             (FileUpload.sampleData ++ [[("Product", JS.Str "Mice"); ("Q1", JS.Str "n/a")]])).
Proof.
  assert (Hne : FileUpload.sampleData <> []) by discriminate.
  split; [exact Hne |].
  apply (proj1 (proj2 (classification_monotone FileUpload.sampleData
                         [[("Product", JS.Str "Mice"); ("Q1", JS.Str "n/a")]] "Q1" Hne))).
  vm_compute. tauto.
Defined.

(** X6.  The value charted for a cell that counts as numeric.  Such a cell
    is charted with the value [Number] gives it, with two exceptions: a zero
    is charted as [+0], and a text that is a hexadecimal, octal or binary
    literal is charted as [0], because [parseFloat] stops at the letter
    after the leading zero. *)
Theorem numeric_cell_chart_value :
  forall (row : JS.object) (col : string),
    DataPreview.numericCell row col = true ->
    let cell := JS.get row col in
    let charted := JS.or_number (JS.parseFloat cell) zero in
    is_nan charted = false /\
    (charted = JS.ToNumber cell \/
     (is_zero (JS.ToNumber cell) = true /\ charted = zero) \/
     (exists s c rest,
        cell = JS.Str s /\
        JS.trim s = String "0"%char (String c rest) /\
        In c radixLetters /\ charted = zero)).
Proof.
  intros row col Hcell cell charted.
  unfold DataPreview.numericCell, JS.isNaN, JS.isFinite in Hcell.
  cbn [JS.ToNumber] in Hcell. fold cell in Hcell.
  apply andb_true_iff in Hcell. destruct Hcell as (Hnan & Hfin).
  apply negb_true_iff in Hnan.
  assert (Hcases : forall p : JS.number,
            is_nan p = false ->
            is_nan (JS.or_number p zero) = false /\
            (JS.or_number p zero = p \/
             (is_zero p = true /\ JS.or_number p zero = zero))).
  { intros p Hp. unfold JS.or_number, JS.ToBoolean. rewrite Hp. cbn [orb].
    destruct (is_zero p) eqn:Z; cbn [negb]; [split; [reflexivity | right; auto] |].
    split; [exact Hp | left; reflexivity]. }
  destruct (Hcases (JS.parseFloat cell) Hnan) as (Hn & Hval). fold charted in Hn, Hval.
  split; [exact Hn |].
  destruct cell as [| | b | x | s] eqn:Ecell.
  - discriminate Hnan.
  - discriminate Hnan.
  - destruct b; discriminate Hnan.
  - cbn [JS.ToNumber JS.parseFloat] in *.
    destruct (is_zero x) eqn:Z.
    + right. left. split; [reflexivity |].
      destruct Hval as [H | [_ H]]; [rewrite H; reflexivity | exact H].
    + destruct Hval as [H | [H _]]; [left; exact H | congruence].
  - cbn [JS.ToNumber JS.parseFloat] in *.
    destruct (JS.nonDecimalIntegerLiteral (JS.trim s)) as [y |] eqn:Hnd.
    + right. right.
      destruct (nonDecimal_shape _ _ Hnd) as (c & rest & Hshape & Hc).
      exists s, c, rest. split; [reflexivity |]. split; [exact Hshape |].
      split; [exact Hc |].
      assert (Hzero : JS.parseFloat_string s = zero).
      { unfold JS.parseFloat_string. unfold JS.trim in Hshape.
        destruct (trimEnd_split (JS.trimStart s)) as (w & Hu & Hw).
        rewrite Hu, Hshape. cbn [append].
        rewrite (strDecimalLiteral_radix_prefix c (rest ++ w)%string Hc).
        reflexivity. }
      unfold charted. rewrite Hzero. reflexivity.
    + assert (Hne : JS.trim s <> "").
      { intro Ht. unfold JS.parseFloat_string in Hnan.
        rewrite (trimStart_of_blank s Ht) in Hnan. discriminate Hnan. }
      rewrite <- (whole_decimal_same_value s Hfin Hne Hnd).
      destruct Hval as [H | [H1 H2]]; [left; exact H | right; left; split; assumption].
Qed.

Lemma numeric_cell_chart_value_witness :
  DataPreview.numericCell [("Code", JS.Str "0x1A")] "Code" = true /\
  JS.ToNumber (JS.Str "0x1A") = 26%float /\
  JS.or_number (JS.parseFloat (JS.Str "0x1A")) zero = zero /\
  is_nan (JS.or_number (JS.parseFloat (JS.get [("Code", JS.Str "0x1A")] "Code")) zero)
  = false.
Proof.
  assert (H : DataPreview.numericCell [("Code", JS.Str "0x1A")] "Code" = true)
    by (vm_compute; reflexivity).
  split; [exact H |]. split; [vm_compute; reflexivity |].
  split; [vm_compute; reflexivity |].
  exact (proj1 (numeric_cell_chart_value _ _ H)).
Defined.

Section SelectItems.

Lemma stringColumns_filter :
  forall data : list JS.object,
    DataPreview.stringColumns data
    = filter (fun col => negb (existsb (fun row => DataPreview.numericCell row col) data))
        (DataPreview.columns data).
Proof.
  intro data. unfold DataPreview.stringColumns.
  destruct data as [| first rest] eqn:E; [reflexivity |]. rewrite <- E.
  apply filter_ext_in. intros col Hcol. f_equal.
  destruct (existsb (fun row => DataPreview.numericCell row col) data) eqn:X.
  - apply includes_In. unfold DataPreview.numericColumns. rewrite E, <- E.
    apply filter_In. split; assumption.
  - apply not_true_is_false. intro H. apply includes_In in H.
    unfold DataPreview.numericColumns in H. rewrite E, <- E in H.
    apply filter_In in H. destruct H as (_ & H). congruence.
Qed.

Lemma numericColumns_filter :
  forall data : list JS.object,
    DataPreview.numericColumns data
    = filter (fun col => existsb (fun row => DataPreview.numericCell row col) data)
        (DataPreview.columns data).
Proof. intros [| first rest]; reflexivity. Qed.

Lemma filter_split_permutation :
  forall (A : Type) (p : A -> bool) (l : list A),
    Permutation (filter (fun a => negb (p a)) l ++ filter p l) l.
Proof.
  intros A p l. induction l as [| a l IH]; simpl.
  - constructor.
  - destruct (p a); simpl.
    + apply Permutation_sym, Permutation_cons_app, Permutation_sym. exact IH.
    + constructor. exact IH.
Qed.

End SelectItems.

(** X7.  The items of the two selects.  The category select offers every
    column exactly as often as it occurs among the columns (text columns
    first), so every column can be chosen as category; the value select
    offers the numeric columns only, each of which is also offered as
    category. *)
Theorem select_items :
  forall data : list JS.object,
    Permutation (DataPreviewView.xAxisItems data) (DataPreview.columns data) /\
    (forall col, In col (DataPreviewView.xAxisItems data) <->
                 In col (DataPreview.columns data)) /\
    (forall col, In col (DataPreviewView.yAxisItems data) ->
                 In col (DataPreviewView.xAxisItems data)) /\
    (List.length (DataPreview.stringColumns data)
     + List.length (DataPreview.numericColumns data)
     = List.length (DataPreview.columns data))%nat /\
    (NoDup (DataPreview.columns data) -> NoDup (DataPreviewView.xAxisItems data)).
Proof.
  intro data.
  assert (P : Permutation (DataPreviewView.xAxisItems data) (DataPreview.columns data)).
  { unfold DataPreviewView.xAxisItems.
    rewrite stringColumns_filter, numericColumns_filter.
    apply filter_split_permutation. }
  split; [exact P |]. split; [| split; [| split]].
  - intro col. split; apply Permutation_in; [exact P | apply Permutation_sym; exact P].
  - intros col H. unfold DataPreviewView.xAxisItems, DataPreviewView.yAxisItems in *.
    apply in_or_app. right. exact H.
  - apply Permutation_length in P. unfold DataPreviewView.xAxisItems in P.
    rewrite length_app in P. exact P.
  - intro H. apply (Permutation_NoDup (Permutation_sym P) H).
Qed.

(** X8.  The preview table.  It shows the first ten rows, all rows when
    there are at most ten, one line of cells per row shown and one cell per
    column; the note about hidden rows is rendered exactly when some row is
    not shown. *)
Theorem preview_table :
  forall data : list JS.object,
    List.length (DataPreviewView.previewRows data) = Nat.min 10 (List.length data) /\
    data = DataPreviewView.previewRows data ++ skipn 10 data /\
    (DataPreviewView.showsTruncationNote data = true <-> skipn 10 data <> []) /\
    (DataPreviewView.showsTruncationNote data = false <->
     DataPreviewView.previewRows data = data) /\
    List.length (DataPreviewView.tableBody data) = Nat.min 10 (List.length data) /\
    (forall line, In line (DataPreviewView.tableBody data) ->
       List.length line = List.length (DataPreview.columns data)).
Proof.
  intro data. unfold DataPreviewView.previewRows, DataPreviewView.showsTruncationNote,
    DataPreviewView.tableBody.
  assert (Hskip : skipn 10 data <> [] <-> (10 < List.length data)%nat).
  { pose proof (length_skipn 10 data) as L.
    destruct (skipn 10 data) eqn:E; simpl in L.
    - split; [congruence | lia].
    - split; [lia | discriminate]. }
  split; [apply length_firstn |]. split; [symmetry; apply firstn_skipn |].
  split; [rewrite Nat.ltb_lt; symmetry; exact Hskip |]. split; [| split].
  - rewrite Nat.ltb_ge. split.
    + intro H. apply firstn_all2. exact H.
    + intro H. apply (f_equal (@List.length _)) in H.
      rewrite length_firstn in H. lia.
  - rewrite length_map. apply length_firstn.
  - intros line H. apply in_map_iff in H. destruct H as (row & <- & _).
    apply length_map.
Qed.

Lemma select_items_witness :
  In "Q1" (DataPreviewView.yAxisItems FileUpload.sampleData) /\
  In "Q1" (DataPreviewView.xAxisItems FileUpload.sampleData).
Proof.
  assert (H : In "Q1" (DataPreviewView.yAxisItems FileUpload.sampleData))
    by (vm_compute; left; reflexivity).
  split; [exact H |].
  exact (proj1 (proj2 (proj2 (select_items FileUpload.sampleData))) "Q1" H).
Defined.

Lemma preview_table_witness :
  DataPreviewView.showsTruncationNote FileUpload.sampleData = false /\
  DataPreviewView.previewRows FileUpload.sampleData = FileUpload.sampleData.
Proof.
  assert (H : DataPreviewView.showsTruncationNote FileUpload.sampleData = false)
    by reflexivity.
  split; [exact H |].
  exact (proj1 (proj1 (proj2 (proj2 (proj2 (preview_table FileUpload.sampleData))))) H).
Defined.

(* ================================================================== *)
(** * More on the bars *)
(* ================================================================== *)

Section Maximum.

Lemma is_nan_nan : forall x : float, is_nan x = true -> x = nan.
Proof.
  intros x H. apply Prim2SF_inj. unfold is_nan in H. rewrite eqb_spec in H.
  destruct (Prim2SF x) as [s | s | | s m e] eqn:E.
  - destruct s; discriminate H.
  - destruct s; discriminate H.
  - reflexivity.
  - exfalso. unfold SFeqb, SFcompare in H.
    rewrite Z.compare_refl, Pos.compare_refl in H.
    destruct s; discriminate H.
Qed.

(** [Math.max] starts from [-Infinity], which every number replaces. *)
Lemma max2_neg_infinity_l : forall x : JS.number, JS.max2 neg_infinity x = x.
Proof.
  intro x. unfold JS.max2.
  change (is_nan neg_infinity) with false. cbn [orb].
  destruct (is_nan x) eqn:N.
  - symmetry. apply is_nan_nan. exact N.
  - unfold is_nan in N. rewrite eqb_spec in N. rewrite !ltb_spec.
    change (Prim2SF neg_infinity) with (S754_infinity true).
    change (get_sign neg_infinity) with true.
    destruct (Prim2SF x) as [s | s | | s m e] eqn:E; try reflexivity;
      try discriminate N.
    destruct s; reflexivity.
Qed.

Lemma max2_not_nan :
  forall a b : JS.number,
    is_nan a = false -> is_nan b = false ->
    JS.max2 a b = a \/ JS.max2 a b = b.
Proof.
  intros a b Ha Hb. unfold JS.max2. rewrite Ha, Hb. cbn [orb].
  destruct (a <? b)%float; [tauto |].
  destruct (b <? a)%float; [tauto |].
  destruct (get_sign a); tauto.
Qed.

Lemma fold_max2_attained :
  forall (xs : list JS.number) (acc : JS.number),
    is_nan acc = false ->
    Forall (fun v => is_nan v = false) xs ->
    In (fold_left JS.max2 xs acc) (acc :: xs).
Proof.
  induction xs as [| x xs IH]; intros acc Hacc Hxs; simpl.
  - left. reflexivity.
  - inversion Hxs as [| ? ? Hx Hrest]; subst.
    destruct (max2_not_nan acc x Hacc Hx) as [E | E]; rewrite E.
    + destruct (IH acc Hacc Hrest) as [H | H]; [left; exact H | right; right; exact H].
    + right. apply (IH x Hx Hrest).
Qed.

Lemma Math_max_attained :
  forall xs : list JS.number,
    xs <> [] ->
    Forall (fun v => is_nan v = false) xs ->
    In (JS.Math_max xs) xs /\ is_nan (JS.Math_max xs) = false.
Proof.
  intros [| x xs] Hne Hxs; [contradiction |].
  unfold JS.Math_max. cbn [fold_left]. rewrite max2_neg_infinity_l.
  inversion Hxs as [| ? ? Hx Hrest]; subst.
  pose proof (fold_max2_attained xs x Hx Hrest) as Hin.
  split; [exact Hin |].
  rewrite Forall_forall in Hxs. apply Hxs. exact Hin.
Qed.

Lemma or_number_zero_clean :
  forall x : JS.number,
    is_nan (JS.or_number x zero) = false /\
    (is_zero (JS.or_number x zero) = true -> JS.or_number x zero = zero).
Proof.
  intro x. unfold JS.or_number, JS.ToBoolean.
  destruct (is_nan x) eqn:N; cbn [orb negb]; [split; reflexivity |].
  destruct (is_zero x) eqn:Z; cbn [negb]; [split; reflexivity |].
  split; [exact N | intro H; congruence].
Qed.

End Maximum.

(** X9.  The values of a generated chart.  No value is [NaN], and the only
    zero among them is [+0].  When there is at least one row and the rows
    are no more than the engine takes as arguments, the call
    [Math.max(...data.values)] returns; the maximum the bars are measured
    against is one of the values and is not [NaN].  With more rows than
    that the call throws.  Without rows it returns [-Infinity] and there
    is no bar. *)
Theorem chart_values_and_maximum :
  forall (data : list JS.object) (st : DataPreview.State)
         (chartData : App.ChartData) (config : App.ChartConfig)
         (argumentLimit : nat),
    DataPreview.generateChart data st = Some (chartData, config) ->
    Forall (fun v => is_nan v = false /\ (is_zero v = true -> v = zero))
      (App.values chartData) /\
    (data <> [] -> (List.length data <= argumentLimit)%nat ->
     exists m,
       Chart3D.maxValueCall argumentLimit chartData = Some m /\
       In m (App.values chartData) /\ is_nan m = false) /\
    ((argumentLimit < List.length data)%nat ->
     Chart3D.maxValueCall argumentLimit chartData = None) /\
    (data = [] ->
     Chart3D.maxValueCall argumentLimit chartData = Some neg_infinity /\
     Chart3D.barHeights chartData config = []).
Proof.
  intros data st chartData config argumentLimit Hgen.
  unfold DataPreview.generateChart in Hgen.
  destruct (negb (DataPreview.canGenerateChart st)); [discriminate |].
  injection Hgen as <- <-. unfold Chart3D.maxValueCall. cbn [App.values].
  rewrite length_map.
  assert (Hall : Forall (fun v => is_nan v = false /\ (is_zero v = true -> v = zero))
                   (map (fun row => JS.or_number
                           (JS.parseFloat (JS.get row (DataPreview.selectedYColumn st)))
                           zero) data)).
  { apply Forall_forall. intros v Hv. apply in_map_iff in Hv.
    destruct Hv as (row & <- & _). apply or_number_zero_clean. }
  split; [exact Hall |]. split; [| split].
  - intros Hne Hle. apply Nat.leb_le in Hle. rewrite Hle.
    eexists. split; [reflexivity |].
    unfold Chart3D.maxValue. cbn [App.values].
    apply Math_max_attained.
    + destruct data; [contradiction | discriminate].
    + eapply Forall_impl; [| exact Hall]. intros v [Hv _]. exact Hv.
  - intro Hlt. apply Nat.leb_gt in Hlt. rewrite Hlt. reflexivity.
  - intros ->. split; reflexivity.
Qed.

Lemma chart_values_and_maximum_witness :
  exists chartData config m,
    DataPreview.generateChart FileUpload.sampleData product_by_q1
    = Some (chartData, config) /\
    Chart3D.maxValueCall 100 chartData = Some m /\
    In m (App.values chartData).
Proof.
  destruct (proj1 (proj2 (chart_values_and_maximum FileUpload.sampleData
                            product_by_q1 _ _ 100 eq_refl)))
    as (m & Hcall & Hin & _).
  - discriminate.
  - simpl. lia.
  - eexists. eexists. exists m. split; [reflexivity |].
    split; [exact Hcall | exact Hin].
Defined.

Lemma tallest_bar_full_height_witness :
  In 10%float
     (Chart3D.barHeights
        {| App.labels := ["Laptops"; "Smartphones"; "Tablets"];
           App.values := [120; 200; 80]%float |} App.initialConfig).
Proof.
  refine (proj2 (proj2 (tallest_bar_full_height
            {| App.labels := ["Laptops"; "Smartphones"; "Tablets"];
               App.values := [120; 200; 80]%float |} App.initialConfig _ _)));
    vm_compute; reflexivity.
Defined.

(** X11.  The colours of the bars.  For a configuration whose scheme is one
    the controls offer, the chart uses the four colours shown in the select
    for that scheme; every bar has a colour, the first four bars have the
    four colours in order and the colours repeat every four bars. *)
Theorem bar_colours_follow_the_scheme :
  forall (scheme : Palette.Scheme) (config : App.ChartConfig) (index : nat),
    In scheme Palette.colorSchemes ->
    App.colorScheme config = Palette.value scheme ->
    Chart3D.colorsOf config = Palette.colors scheme /\
    List.length (Palette.colors scheme) = 4%nat /\
    (exists color, Palette.barColor config index = Some color /\
                   In color (Palette.colors scheme)) /\
    Palette.barColor config index
    = nth_error (Palette.colors scheme) (index mod 4) /\
    Palette.barColor config (index + 4) = Palette.barColor config index.
Proof.
  intros scheme config index Hin Hscheme.
  assert (Hcolors : Chart3D.colorsOf config = Palette.colors scheme /\
                    List.length (Palette.colors scheme) = 4%nat).
  { unfold Chart3D.colorsOf. rewrite Hscheme.
    unfold Palette.colorSchemes in Hin. simpl in Hin.
    destruct Hin as [<- | [<- | [<- | [<- | [<- | []]]]]]; split; reflexivity. }
  destruct Hcolors as [Hc Hlen].
  assert (Hbar : forall i, Palette.barColor config i
                           = nth_error (Palette.colors scheme) (i mod 4)).
  { intro i. unfold Palette.barColor, Palette.colorIndex. rewrite Hc, Hlen.
    reflexivity. }
  split; [exact Hc |]. split; [exact Hlen |]. split; [| split].
  - rewrite Hbar.
    assert (Hlt : (index mod 4 < List.length (Palette.colors scheme))%nat).
    { rewrite Hlen. apply Nat.mod_upper_bound. discriminate. }
    apply nth_error_Some in Hlt.
    destruct (nth_error (Palette.colors scheme) (index mod 4)) as [color |] eqn:E;
      [| contradiction].
    exists color. split; [reflexivity |]. apply nth_error_In with (n := (index mod 4)%nat).
    exact E.
  - apply Hbar.
  - rewrite !Hbar. f_equal.
    replace (index + 4)%nat with (index + 1 * 4)%nat by lia.
    apply Nat.Div0.mod_add.
Qed.

Lemma bar_colours_follow_the_scheme_witness :
  Palette.barColor
    (ChartControls.spread App.initialConfig
       (ChartControls.updates_of (ChartControls.ColorSchemeChange "green"))) 5
  = Some "#059669".
Proof.
  destruct (bar_colours_follow_the_scheme
              {| Palette.value := "green"; Palette.label := "Green";
                 Palette.colors := ["#10B981"; "#059669"; "#047857"; "#065F46"] |}
              (ChartControls.spread App.initialConfig
                 (ChartControls.updates_of (ChartControls.ColorSchemeChange "green")))
              5) as (_ & _ & _ & H & _).
  - simpl. right. left. reflexivity.
  - reflexivity.
  - rewrite H. reflexivity.
Defined.

(* ================================================================== *)
(** * More on reconfiguration *)
(* ================================================================== *)

Section LastWins.

Lemma last_cons :
  forall (A : Type) (l : list A) (a d : A), last (a :: l) d = last l a.
Proof.
  intros A l. induction l as [| b l IH]; intros a d; [reflexivity |].
  change (last (a :: b :: l) d) with (last (b :: l) d).
  rewrite (IH b d), (IH b a). reflexivity.
Qed.

Lemma reconfigure_fields :
  forall (ev : ChartControls.Reconfiguration) (st : App.State),
    let st' := ChartControls.reconfigure ev st in
    App.rawData st' = App.rawData st /\
    App.chartData st' = App.chartData st /\
    App.currentStep st' = App.currentStep st /\
    App.xColumn (App.chartConfig st') = App.xColumn (App.chartConfig st) /\
    App.yColumn (App.chartConfig st') = App.yColumn (App.chartConfig st) /\
    App.colorScheme (App.chartConfig st')
    = last (colorChanges [ev]) (App.colorScheme (App.chartConfig st)) /\
    App.chartHeight (App.chartConfig st')
    = last (heightChanges [ev]) (App.chartHeight (App.chartConfig st)) /\
    App.showGrid (App.chartConfig st')
    = last (gridChanges [ev]) (App.showGrid (App.chartConfig st)).
Proof.
  intros ev st. destruct ev; cbn; repeat split.
Qed.

Lemma last_app_single_or_nil :
  forall (A : Type) (xs ys : list A) (d : A),
    last (xs ++ ys) d = last ys (last xs d).
Proof.
  intros A xs. induction xs as [| x xs IH]; intros ys d; [reflexivity |].
  cbn [app]. rewrite !last_cons. apply IH.
Qed.

End LastWins.

(** X13.  Any sequence of control changes.  Each setting ends with the last
    value its own control sent, or with its old value when that control was
    not used; the two columns, the rows, the chart data and the step are
    untouched. *)
Theorem reconfigure_last_wins :
  forall (evs : list ChartControls.Reconfiguration) (st : App.State),
    let st' := reconfigureAll evs st in
    App.colorScheme (App.chartConfig st')
    = last (colorChanges evs) (App.colorScheme (App.chartConfig st)) /\
    App.chartHeight (App.chartConfig st')
    = last (heightChanges evs) (App.chartHeight (App.chartConfig st)) /\
    App.showGrid (App.chartConfig st')
    = last (gridChanges evs) (App.showGrid (App.chartConfig st)) /\
    App.xColumn (App.chartConfig st') = App.xColumn (App.chartConfig st) /\
    App.yColumn (App.chartConfig st') = App.yColumn (App.chartConfig st) /\
    App.rawData st' = App.rawData st /\
    App.chartData st' = App.chartData st /\
    App.currentStep st' = App.currentStep st.
Proof.
  induction evs as [| ev evs IH]; intro st; cbv zeta.
  - repeat split.
  - unfold reconfigureAll. cbn [fold_left].
    specialize (IH (ChartControls.reconfigure ev st)). cbv zeta in IH.
    unfold reconfigureAll in IH.
    destruct IH as (I1 & I2 & I3 & I4 & I5 & I6 & I7 & I8).
    destruct (reconfigure_fields ev st) as (F1 & F2 & F3 & F4 & F5 & F6 & F7 & F8).
    rewrite I1, I2, I3, I4, I5, I6, I7, I8, F1, F2, F3, F4, F5, F6, F7, F8.
    change (ev :: evs) with ([ev] ++ evs).
    unfold colorChanges, heightChanges, gridChanges.
    rewrite !flat_map_app, !last_app_single_or_nil.
    repeat split.
Qed.

(* ================================================================== *)
(** * More on the camera *)
(* ================================================================== *)

(** X16.  Without a pressed button the camera stays where it is: from
    controls that are not dragging, any sequence of mouse moves and
    releases leaves the camera position unchanged and the controls not
    dragging. *)
Theorem hover_keeps_camera :
  forall (M : Camera.MathLib) (events : list Camera.Event)
         (c : Camera.Controls),
    Camera.isDragging c = false ->
    forallb hovering events = true ->
    Camera.position (Camera.run M events c) = Camera.position c /\
    Camera.isDragging (Camera.run M events c) = false.
Proof.
  intros M. induction events as [| ev events IH]; intros c Hdrag Hev.
  - split; [reflexivity | exact Hdrag].
  - cbn [forallb] in Hev. apply andb_true_iff in Hev. destruct Hev as [H1 H2].
    unfold Camera.run. cbn [fold_left].
    fold (Camera.run M events (Camera.handle M c ev)).
    destruct ev as [cx cy | cx cy | | deltaY |]; try discriminate H1;
      cbn [Camera.handle].
    + unfold Camera.onMouseMove. rewrite Hdrag. cbn [negb].
      apply IH; assumption.
    + destruct (IH (Camera.onMouseUp c) eq_refl H2) as [Hp Hd].
      split; [rewrite Hp; reflexivity | exact Hd].
Qed.

Lemma hover_keeps_camera_witness :
  Camera.position
    (Camera.run anyMath
       [Camera.MouseMove 5 5; Camera.MouseUp; Camera.MouseMove 9 1]%float
       Camera.initial)
  = Camera.home.
Proof.
  refine (proj1 (hover_keeps_camera anyMath
                   [Camera.MouseMove 5 5; Camera.MouseUp; Camera.MouseMove 9 1]%float
                   Camera.initial _ _)); reflexivity.
Defined.

(* ================================================================== *)
(** * The scene and its cleanup *)
(* ================================================================== *)

Section SceneFacts.

Import Scene.






End SceneFacts.





(* ================================================================== *)
(** * The page as a whole *)
(* ================================================================== *)

Section PageFacts.

Lemma load_nonempty :
  forall (file : FileUpload.File) (data : list JS.object),
    FileUpload.load file = inr data -> data <> [].
Proof.
  intros [e | wb] data H; simpl in H; [discriminate |].
  destruct (FileUpload.sheet_to_json _) as [| firstRow rest]; [discriminate |].
  destruct (FileUpload.toRecords firstRow _) as [| r rs]; [discriminate |].
  injection H as <-. discriminate.
Qed.

Lemma generateChart_inv :
  forall (data : list JS.object) (dp : DataPreview.State)
         (chartData : App.ChartData) (config : App.ChartConfig),
    DataPreview.generateChart data dp = Some (chartData, config) ->
    DataPreview.selectedXColumn dp <> "" /\
    DataPreview.selectedYColumn dp <> "" /\
    App.xColumn config = DataPreview.selectedXColumn dp /\
    App.yColumn config = DataPreview.selectedYColumn dp /\
    App.colorScheme config = "blue" /\
    App.showGrid config = true /\
    App.chartHeight config = 10%float /\
    DataPreview.generateChart data (UI.selectionOf config) = Some (chartData, config).
Proof.
  intros data dp cd cfg H. unfold DataPreview.generateChart in H.
  destruct (negb (DataPreview.canGenerateChart dp)) eqn:G; [discriminate |].
  injection H as <- <-. cbn.
  apply negb_false_iff in G. unfold DataPreview.canGenerateChart in G.
  apply andb_true_iff in G. destruct G as [Gx Gy]. simpl in Gx, Gy.
  apply negb_true_iff in Gx, Gy.
  repeat split; try (intro E; rewrite E in *; discriminate).
  unfold DataPreview.generateChart, DataPreview.canGenerateChart, UI.selectionOf.
  cbn. rewrite Gx, Gy. reflexivity.
Qed.

Lemma xAxisItems_columns :
  forall (data : list JS.object) (col : string),
    In col (DataPreviewView.xAxisItems data) -> In col (DataPreview.columns data).
Proof.
  intros data col H. unfold DataPreviewView.xAxisItems in H.
  apply in_app_or in H. destruct H as [H | H].
  - apply stringColumns_In in H. tauto.
  - apply numericColumns_In in H. tauto.
Qed.

(** A reconfiguration touches the display settings only. *)
Lemma reconfigure_step :
  forall (ev : ChartControls.Reconfiguration) (st : App.State),
    App.currentStep (ChartControls.reconfigure ev st) = App.currentStep st /\
    App.rawData (ChartControls.reconfigure ev st) = App.rawData st /\
    App.chartData (ChartControls.reconfigure ev st) = App.chartData st /\
    App.xColumn (App.chartConfig (ChartControls.reconfigure ev st))
    = App.xColumn (App.chartConfig st) /\
    App.yColumn (App.chartConfig (ChartControls.reconfigure ev st))
    = App.yColumn (App.chartConfig st).
Proof. intros [v | v vs | b] st; repeat split. Qed.
Lemma consistent_initial : UI.consistent UI.initial.
Proof.
  unfold UI.consistent. simpl. repeat split.
  exists FileUpload.initial. split; [reflexivity |].
  split; intro H; [discriminate H | contradiction H; reflexivity].
Qed.

(** The outcome of a settled load. *)
Lemma processFile_settle_outcome :
  forall (file : FileUpload.File) (fu : FileUpload.State),
    FileUpload.isProcessing (fst (FileUpload.processFile_settle file fu)) = false /\
    (snd (FileUpload.processFile_settle file fu) = None \/
     exists data,
       snd (FileUpload.processFile_settle file fu) = Some data /\ data <> []).
Proof.
  intros file fu. unfold FileUpload.processFile_settle.
  destruct (FileUpload.load file) as [e | data] eqn:E; cbn.
  - split; [reflexivity | left; reflexivity].
  - split; [reflexivity | right]. exists data. split; [reflexivity |].
    exact (load_nonempty file data E).
Qed.

Lemma consistent_after_load :
  forall (s : UI.State) (outcome : FileUpload.State * option (list JS.object)),
    UI.consistent s ->
    App.currentStep (UI.app s) = App.upload ->
    FileUpload.isProcessing (fst outcome) = false ->
    (snd outcome = None \/ exists data, snd outcome = Some data /\ data <> []) ->
    UI.consistent (UI.afterLoad s outcome None).
Proof.
  intros s [fu' call] Hs Hstep Hproc Hcall. unfold UI.consistent in Hs.
  rewrite Hstep in Hs. destruct Hs as (Hraw & Hcd & Hdp & _).
  simpl in Hproc, Hcall. unfold UI.afterLoad.
  destruct Hcall as [-> | (data & -> & Hne)]; simpl.
  - unfold UI.consistent, UI.rendered, App.render. simpl. rewrite Hstep.
    repeat split; try assumption. exists fu'. split; [reflexivity |].
    simpl. split; intro H; [congruence | contradiction H; reflexivity].
  - unfold UI.consistent, UI.rendered, App.render. simpl.
    destruct data as [| r rs]; [contradiction |]. simpl.
    rewrite Hdp. repeat split; try assumption; try discriminate.
    exists UI.freshPreview. split; [reflexivity |]. split; left; reflexivity.
Qed.

Lemma consistent_handle :
  forall (s : UI.State) (ev : UI.Event),
    UI.consistent s -> UI.consistent (UI.handle s ev).
Proof.
  intros s ev Hs.
  assert (Hupload : forall fu, UI.fileUpload s = Some fu ->
                               App.currentStep (UI.app s) = App.upload).
  { intros fu Hfu. unfold UI.consistent in Hs.
    destruct (App.currentStep (UI.app s)); [reflexivity | |];
      destruct Hs as (? & ? & ? & ?); congruence. }
  assert (Hpreview : forall dp, UI.dataPreview s = Some dp ->
                                App.currentStep (UI.app s) = App.preview).
  { intros dp Hdp. unfold UI.consistent in Hs.
    destruct (App.currentStep (UI.app s)); [| reflexivity |];
      destruct Hs as (? & ? & ? & ?); congruence. }
  assert (Hflight : forall fu, UI.fileUpload s = Some fu ->
                               (FileUpload.isProcessing fu = true
                                <-> UI.inFlight s <> None)).
  { intros fu Hfu. pose proof (Hupload fu Hfu) as Hstep.
    unfold UI.consistent in Hs. rewrite Hstep in Hs.
    destruct Hs as (_ & _ & _ & fu0 & Hfu0 & Hiff).
    rewrite Hfu in Hfu0. injection Hfu0 as <-. exact Hiff. }
  assert (Hmounted : UI.inFlight s <> None -> UI.fileUpload s <> None).
  { intro Hfl. unfold UI.consistent in Hs.
    destruct (App.currentStep (UI.app s)).
    - destruct Hs as (_ & _ & _ & fu & Hfu & _). congruence.
    - destruct Hs as (_ & _ & _ & Hn & _). contradiction.
    - destruct Hs as (_ & _ & _ & Hn & _). contradiction. }
  destruct ev as [file | | | col | col | | | | rev]; cbn [UI.handle].
  - (* Drop *)
    destruct (UI.fileUpload s) as [fu |] eqn:Hfu; [| exact Hs].
    destruct (FileUpload.isProcessing fu) eqn:P; [exact Hs |].
    pose proof (Hupload fu eq_refl) as Hstep.
    unfold UI.consistent in *. simpl. rewrite Hstep in *.
    destruct Hs as (Hraw & Hcd & Hdp & _).
    repeat split; try assumption. eexists. split; [reflexivity |].
    simpl. split; intro H; [discriminate | reflexivity].
  - (* Settle *)
    destruct (UI.inFlight s) as [file |] eqn:Hfl; [| exact Hs].
    destruct (UI.fileUpload s) as [fu |] eqn:Hfu;
      [| exfalso; apply Hmounted; [discriminate | reflexivity]].
    destruct (processFile_settle_outcome file fu) as (Hp & Hc).
    apply consistent_after_load; eauto.
  - (* LoadSample *)
    destruct (UI.fileUpload s) as [fu |] eqn:Hfu; [| exact Hs].
    destruct (FileUpload.isProcessing fu) eqn:P; [exact Hs |].
    assert (Hfl : UI.inFlight s = None).
    { destruct (UI.inFlight s) as [file |] eqn:Hfl; [| reflexivity].
      assert (H : FileUpload.isProcessing fu = true)
        by (apply (Hflight fu eq_refl); discriminate).
      congruence. }
    rewrite Hfl.
    apply (consistent_after_load s (FileUpload.loadSampleData fu)); eauto.
    right. exists FileUpload.sampleData. split; [reflexivity | discriminate].
  - (* SelectX *)
    destruct (UI.dataPreview s) as [dp |] eqn:Hdp; [| exact Hs].
    destruct (JS.includes _ col) eqn:Hin; [| exact Hs].
    pose proof (Hpreview dp eq_refl) as Hstep.
    unfold UI.consistent in *. simpl. rewrite Hstep in *.
    destruct Hs as (Hraw & Hcd & Hfu & Hfl & dp' & Hdp' & Hx & Hy).
    rewrite Hdp in Hdp'. injection Hdp' as <-.
    repeat split; try assumption. eexists. split; [reflexivity |]. simpl.
    split; [| exact Hy]. right. apply includes_In in Hin.
    apply xAxisItems_columns. exact Hin.
  - (* SelectY *)
    destruct (UI.dataPreview s) as [dp |] eqn:Hdp; [| exact Hs].
    destruct (JS.includes _ col) eqn:Hin; [| exact Hs].
    pose proof (Hpreview dp eq_refl) as Hstep.
    unfold UI.consistent in *. simpl. rewrite Hstep in *.
    destruct Hs as (Hraw & Hcd & Hfu & Hfl & dp' & Hdp' & Hx & Hy).
    rewrite Hdp in Hdp'. injection Hdp' as <-.
    repeat split; try assumption. eexists. split; [reflexivity |]. simpl.
    split; [exact Hx |]. right. apply includes_In in Hin. exact Hin.
  - (* Generate *)
    destruct (UI.dataPreview s) as [dp |] eqn:Hdp; [| exact Hs].
    destruct (DataPreview.generateChart (App.rawData (UI.app s)) dp)
      as [[cd cfg] |] eqn:Hgen; [| exact Hs].
    pose proof (Hpreview dp eq_refl) as Hstep.
    destruct (generateChart_inv _ _ _ _ Hgen)
      as (Hx & Hy & Ex & Ey & _ & _ & _ & Hsel).
    unfold UI.consistent in *. rewrite Hstep in Hs.
    destruct Hs as (Hraw & Hcd & Hfu & Hfl & dp' & Hdp' & Hxin & Hyin).
    rewrite Hdp in Hdp'. injection Hdp' as <-.
    unfold UI.rendered, App.render. simpl.
    repeat split; try assumption.
    + rewrite Ex. destruct Hxin as [E | H]; [contradiction | exact H].
    + rewrite Ey. destruct Hyin as [E | H]; [contradiction | exact H].
    + exists cd, cfg. split; [reflexivity | exact Hsel].
  - (* BackToUpload *)
    destruct (UI.dataPreview s) as [dp |] eqn:Hdp; [| exact Hs].
    pose proof (Hpreview dp eq_refl) as Hstep.
    unfold UI.consistent in Hs. rewrite Hstep in Hs.
    destruct Hs as (_ & _ & _ & Hfl & _).
    unfold UI.consistent, UI.rendered, App.render. simpl.
    repeat split. exists FileUpload.initial. split; [reflexivity |].
    rewrite Hfl. split; intro H; [discriminate H | contradiction H; reflexivity].
  - (* BackToPreview *)
    destruct (App.render (UI.app s)) eqn:R; try exact Hs.
    unfold App.render in R.
    destruct (App.currentStep (UI.app s)) eqn:Hstep;
      [discriminate | destruct (App.rawData (UI.app s)); discriminate |].
    unfold UI.consistent in *. rewrite Hstep in Hs.
    destruct Hs as (Hraw & Hfu & Hdp & Hfl & _).
    unfold UI.rendered, App.render. simpl.
    destruct (App.rawData (UI.app s)) as [| r rs] eqn:Eraw; [contradiction |].
    repeat split; try discriminate; try assumption.
    exists UI.freshPreview. split; [reflexivity |]. split; left; reflexivity.
  - (* Reconfigure *)
    destruct (App.render (UI.app s)) eqn:R; try exact Hs.
    unfold App.render in R.
    destruct (App.currentStep (UI.app s)) eqn:Hstep;
      [discriminate | destruct (App.rawData (UI.app s)); discriminate |].
    unfold UI.consistent in *. rewrite Hstep in Hs.
    destruct Hs as (Hraw & Hfu & Hdp & Hfl & Hx & Hy & cd & cfg0 & Hcd & Hgen).
    destruct (reconfigure_step rev (UI.app s)) as (E1 & E2 & E3 & E4 & E5).
    set (a' := ChartControls.reconfigure rev (UI.app s)) in *.
    unfold UI.rendered, App.render, UI.selectionOf in *.
    cbn [UI.app UI.fileUpload UI.dataPreview UI.inFlight].
    rewrite E1, Hstep, E2, E3, E4, E5, Hcd.
    repeat split; try assumption. exists cd, cfg0. split; [reflexivity | exact Hgen].
Qed.

End PageFacts.

Lemma consistent_run :
  forall (events : list UI.Event) (s : UI.State),
    UI.consistent s -> UI.consistent (UI.run events s).
Proof.
  induction events as [| ev events IH]; intros s Hs; simpl.
  - exact Hs.
  - apply IH. apply consistent_handle. exact Hs.
Qed.

(** X20.  The page is never blank.  After any sequence of events from the
    initial page, one of the three stages is rendered, and the stage
    component that has state is the one that is rendered. *)
Theorem page_never_blank :
  forall events : list UI.Event,
    let s := UI.run events UI.initial in
    App.render (UI.app s) <> App.NoView /\
    (UI.fileUpload s <> None <-> App.render (UI.app s) = App.FileUploadView) /\
    (UI.dataPreview s <> None <-> App.render (UI.app s) = App.DataPreviewView).
Proof.
  intros events s.
  pose proof (consistent_run events UI.initial consistent_initial) as H.
  fold s in H. unfold UI.consistent in H. unfold App.render.
  destruct (App.currentStep (UI.app s)).
  - destruct H as (_ & _ & Hdp & fu & Hfu & _). rewrite Hdp, Hfu.
    repeat split; try discriminate; intro; try discriminate; congruence.
  - destruct H as (Hraw & _ & Hfu & _ & dp & Hdp & _). rewrite Hdp, Hfu.
    destruct (App.rawData (UI.app s)); [contradiction |].
    repeat split; try discriminate; intro; try discriminate; congruence.
  - destruct H as (_ & Hfu & Hdp & _ & _ & _ & cd & _ & Hcd & _).
    rewrite Hdp, Hfu, Hcd.
    repeat split; try discriminate; intro; try discriminate; congruence.
Qed.

(** X21.  The chart on screen is the chart of the rows in memory.  Whenever
    the page is in the chart step, the stored chart data is what the chart
    data builder gives for the stored rows and the two columns recorded in
    the configuration; the category column is a column of the rows and the
    value column is one of their numeric columns; there is one label and one
    value per stored row. *)
Theorem chart_is_chart_of_loaded_rows :
  forall events : list UI.Event,
    let s := UI.run events UI.initial in
    App.currentStep (UI.app s) = App.chart ->
    exists chartData config0,
      App.chartData (UI.app s) = Some chartData /\
      DataPreview.generateChart (App.rawData (UI.app s))
        (UI.selectionOf (App.chartConfig (UI.app s)))
      = Some (chartData, config0) /\
      In (App.xColumn (App.chartConfig (UI.app s)))
         (DataPreview.columns (App.rawData (UI.app s))) /\
      In (App.yColumn (App.chartConfig (UI.app s)))
         (DataPreview.numericColumns (App.rawData (UI.app s))) /\
      List.length (App.labels chartData) = List.length (App.rawData (UI.app s)) /\
      List.length (App.values chartData) = List.length (App.rawData (UI.app s)) /\
      App.rawData (UI.app s) <> [].
Proof.
  intros events s Hstep.
  pose proof (consistent_run events UI.initial consistent_initial) as H.
  fold s in H. unfold UI.consistent in H. rewrite Hstep in H.
  destruct H as (Hraw & _ & _ & _ & Hx & Hy & cd & cfg0 & Hcd & Hgen).
  exists cd, cfg0. repeat split; try assumption.
  - unfold DataPreview.generateChart in Hgen.
    destruct (negb _); [discriminate |]. injection Hgen as <- _.
    apply length_map.
  - unfold DataPreview.generateChart in Hgen.
    destruct (negb _); [discriminate |]. injection Hgen as <- _.
    apply length_map.
Qed.

Lemma chart_is_chart_of_loaded_rows_witness :
  App.currentStep (UI.app (UI.run sample_session UI.initial)) = App.chart /\
  exists chartData,
    App.chartData (UI.app (UI.run sample_session UI.initial)) = Some chartData /\
    List.length (App.values chartData) = 6%nat.
Proof.
  assert (Hstep : App.currentStep (UI.app (UI.run sample_session UI.initial))
                  = App.chart) by (vm_compute; reflexivity).
  split; [exact Hstep |].
  destruct (chart_is_chart_of_loaded_rows sample_session Hstep)
    as (cd & _ & Hcd & _ & _ & _ & _ & Hlen & _).
  exists cd. split; [exact Hcd |]. rewrite Hlen. vm_compute. reflexivity.
Defined.

(** X22.  Nothing is left behind outside the chart step.  In the upload step
    there are no rows and no chart data, along every path and not only
    straight back from the preview; in the preview step there are rows and
    no chart data. *)
Theorem no_residual_data :
  forall events : list UI.Event,
    let s := UI.run events UI.initial in
    (App.currentStep (UI.app s) = App.upload ->
     App.rawData (UI.app s) = [] /\ App.chartData (UI.app s) = None) /\
    (App.currentStep (UI.app s) = App.preview ->
     App.rawData (UI.app s) <> [] /\ App.chartData (UI.app s) = None).
Proof.
  intros events s.
  pose proof (consistent_run events UI.initial consistent_initial) as H.
  fold s in H. unfold UI.consistent in H.
  split; intro Hstep; rewrite Hstep in H; destruct H as (H1 & H2 & _);
    split; assumption.
Qed.

Lemma no_residual_data_witness :
  App.currentStep
    (UI.app (UI.run (sample_session ++ [UI.BackToPreview; UI.BackToUpload]) UI.initial))
  = App.upload /\
  App.rawData
    (UI.app (UI.run (sample_session ++ [UI.BackToPreview; UI.BackToUpload]) UI.initial))
  = [].
Proof.
  assert (Hstep : App.currentStep
    (UI.app (UI.run (sample_session ++ [UI.BackToPreview; UI.BackToUpload]) UI.initial))
    = App.upload) by (vm_compute; reflexivity).
  split; [exact Hstep |].
  exact (proj1 (proj1 (no_residual_data
           (sample_session ++ [UI.BackToPreview; UI.BackToUpload])) Hstep)).
Defined.

(** X23.  Generating a chart replaces the whole configuration.  Whatever
    colour scheme, grid setting and height were stored before, after
    [Generate] the page is in the chart step with the blue scheme, the grid
    on and height 10, and the two chosen columns. *)
Theorem generate_resets_settings :
  forall (s : UI.State) (dp : DataPreview.State),
    UI.dataPreview s = Some dp ->
    DataPreview.selectedXColumn dp <> "" ->
    DataPreview.selectedYColumn dp <> "" ->
    let s' := UI.handle s UI.Generate in
    App.currentStep (UI.app s') = App.chart /\
    App.chartConfig (UI.app s')
    = {| App.xColumn := DataPreview.selectedXColumn dp;
         App.yColumn := DataPreview.selectedYColumn dp;
         App.colorScheme := "blue"; App.showGrid := true;
         App.chartHeight := 10%float |} /\
    App.rawData (UI.app s') = App.rawData (UI.app s).
Proof.
  intros s dp Hdp Hx Hy s'. subst s'. cbn [UI.handle]. rewrite Hdp.
  unfold DataPreview.generateChart, DataPreview.canGenerateChart. cbn [JS.ToBoolean].
  destruct (String.eqb_spec (DataPreview.selectedXColumn dp) ""); [contradiction |].
  destruct (String.eqb_spec (DataPreview.selectedYColumn dp) ""); [contradiction |].
  cbn. repeat split.
Qed.

Lemma generate_resets_settings_witness :
  UI.dataPreview sample_selection
  = Some {| DataPreview.selectedXColumn := "Product";
            DataPreview.selectedYColumn := "Q1" |} /\
  App.currentStep (UI.app (UI.handle sample_selection UI.Generate)) = App.chart.
Proof.
  assert (Hdp : UI.dataPreview sample_selection
                = Some {| DataPreview.selectedXColumn := "Product";
                          DataPreview.selectedYColumn := "Q1" |})
    by (vm_compute; reflexivity).
  split; [exact Hdp |].
  refine (proj1 (generate_resets_settings sample_selection _ Hdp _ _));
    discriminate.
Defined.

Lemma page_never_blank_witness :
  App.render (UI.app (UI.run sample_session UI.initial)) <> App.NoView.
Proof.
  exact (proj1 (page_never_blank sample_session)).
Defined.

(** X24.  To the chart and back.  From a preview with both columns chosen,
    generating the chart and coming back gives the preview of the same rows
    with no chart data; the preview component starts afresh, so both
    selections are empty again and the generate button does nothing until
    they are chosen anew. *)
Theorem chart_and_back_forgets_selection :
  forall (events : list UI.Event) (dp : DataPreview.State),
    let s := UI.run events UI.initial in
    UI.dataPreview s = Some dp ->
    DataPreview.selectedXColumn dp <> "" ->
    DataPreview.selectedYColumn dp <> "" ->
    let s' := UI.run [UI.Generate; UI.BackToPreview] s in
    App.currentStep (UI.app s') = App.preview /\
    App.rawData (UI.app s') = App.rawData (UI.app s) /\
    App.chartData (UI.app s') = None /\
    UI.dataPreview s' = Some UI.freshPreview /\
    UI.handle s' UI.Generate = s'.
Proof.
  intros events dp s Hdp Hx Hy s'.
  pose proof (consistent_run events UI.initial consistent_initial) as H.
  fold s in H. unfold UI.consistent in H.
  destruct (App.currentStep (UI.app s)) eqn:Hstep.
  - destruct H as (_ & _ & Hnone & _). congruence.
  - destruct H as (Hraw & _ & _ & _).
    subst s'. unfold UI.run. cbn [fold_left UI.handle]. rewrite Hdp.
    unfold DataPreview.generateChart, DataPreview.canGenerateChart.
    cbn [JS.ToBoolean].
    destruct (String.eqb_spec (DataPreview.selectedXColumn dp) ""); [contradiction |].
    destruct (String.eqb_spec (DataPreview.selectedYColumn dp) ""); [contradiction |].
    cbn [negb andb]. destruct (App.rawData (UI.app s)) as [| row rows] eqn:Hrows;
      [contradiction |].
    cbn. rewrite Hrows. cbn. repeat split.
  - destruct H as (_ & _ & Hnone & _). congruence.
Qed.

Lemma chart_and_back_forgets_selection_witness :
  UI.dataPreview
    (UI.run [UI.Generate; UI.BackToPreview]
       (UI.run [UI.LoadSample; UI.SelectX "Product"; UI.SelectY "Q1"] UI.initial))
  = Some UI.freshPreview.
Proof.
  refine (proj1 (proj2 (proj2 (proj2
    (chart_and_back_forgets_selection
       [UI.LoadSample; UI.SelectX "Product"; UI.SelectY "Q1"]
       {| DataPreview.selectedXColumn := "Product";
          DataPreview.selectedYColumn := "Q1" |} _ _ _))))).
  - vm_compute. reflexivity.
  - discriminate.
  - discriminate.
Defined.
